(** * Blog editor: document lifecycle, autosave and statistics

    A shallow embedding of the application logic of [src/src/App.jsx]: the
    React component [App] with its state hooks, refs, event handlers and
    effects, the browser's local storage and timer table, and the word and
    character statistics.

    Conventions of the embedding.
    - A JS string is the list of its UTF-16 code units.
    - A handler is a computation in a state-and-exception monad over
      [World]; the values a handler closes over (the [const] bindings of
      the render that created it) are an explicit [Render] argument, so a
      stale closure is a handler applied to an old [Render].
    - [setX v] replaces the value React holds for the next render; it does
      not change the [Render] the running handler closes over. *)

From Stdlib Require Import String Ascii DecimalString DecimalZ DecimalPos.
From Stdlib Require Import List ZArith NArith Bool Lia.
Import ListNotations.

Set Implicit Arguments.

(* ===================================================================== *)
(** ** JS strings *)
(* ===================================================================== *)

Module JS.

(** A string value: its UTF-16 code units. *)
Definition JSString := list N.

(** A string literal of the source (ASCII). *)
Definition lit (s : string) : JSString :=
  map N_of_ascii (list_ascii_of_string s).

(** [a === b] on strings. *)
Fixpoint streq (a b : JSString) : bool :=
  match a, b with
  | [], [] => true
  | x :: a', y :: b' => (x =? y)%N && streq a' b'
  | _, _ => false
  end.

(** Truthiness of a string: only the empty string is falsy. *)
Definition truthy (s : JSString) : bool :=
  match s with [] => false | _ :: _ => true end.

(** Truthiness of a value that is a string or [null]. *)
Definition truthy_opt (o : option JSString) : bool :=
  match o with Some s => truthy s | None => false end.

(** [a === b] where [a] is a string or [null] and [b] a string. *)
Definition opt_streq (a : option JSString) (b : JSString) : bool :=
  match a with Some s => streq s b | None => false end.

(** White space and line terminators: what [String.prototype.trim]
    removes and what the class [\s] matches. *)
Definition isWhiteSpace (c : N) : bool :=
  (existsb (N.eqb c)
     [9; 10; 11; 12; 13; 32; 160; 5760; 8232; 8233; 8239; 8287; 12288; 65279]
   || ((8192 <=? c) && (c <=? 8202)))%N.

Fixpoint trimStart (s : JSString) : JSString :=
  match s with
  | [] => []
  | c :: r => if isWhiteSpace c then trimStart r else s
  end.

Definition trimEnd (s : JSString) : JSString := rev (trimStart (rev s)).

(** [s.trim()] *)
Definition trim (s : JSString) : JSString := trimEnd (trimStart s).

Definition LT : N := 60.  (* '<' *)
Definition GT : N := 62.  (* '>' *)

(** The tail [[^>]*>] of the tag pattern, matched at the start of [s]:
    the input left after the first '>'; no match when there is none. *)
Fixpoint skipToGt (s : JSString) : option JSString :=
  match s with
  | [] => None
  | c :: r => if (c =? GT)%N then Some r else skipToGt r
  end.

(** The pattern [/<[^>]*>/] matched at the start of [s]. *)
Definition matchTag (s : JSString) : option JSString :=
  match s with
  | c :: r => if (c =? LT)%N then skipToGt r else None
  | [] => None
  end.

(** [s.replace(/<[^>]*>/g, '')] as one left-to-right scan. Outside a
    match ([inTag = false]) a '<' opens a match exactly when a '>'
    follows somewhere; inside a match every code unit is dropped up to
    and including the first '>'. *)
Fixpoint stripFrom (inTag : bool) (s : JSString) : JSString :=
  match s with
  | [] => []
  | c :: r =>
      if inTag then stripFrom (negb (c =? GT)%N) r
      else if (c =? LT)%N && existsb (N.eqb GT) r then stripFrom true r
      else c :: stripFrom false r
  end.

Definition replaceTags (s : JSString) : JSString := stripFrom false s.

(** [s.split(/\s+/)]: the pieces between the maximal runs of white
    space. [inSep] tells that the previous code unit belongs to a
    separator match. *)
Fixpoint splitFrom (inSep : bool) (s : JSString) : list JSString :=
  match s with
  | [] => [[]]
  | c :: r =>
      if isWhiteSpace c then
        if inSep then splitFrom true r else [] :: splitFrom true r
      else
        match splitFrom false r with
        | p :: ps => (c :: p) :: ps
        | [] => [[c]]
        end
  end.

Definition splitWhiteSpace (s : JSString) : list JSString := splitFrom false s.

(** [n.toString()] for an integer [n]. *)
Definition toString (n : Z) : JSString :=
  lit (NilEmpty.string_of_int (Z.to_int n)).

End JS.

Import JS.

(** The specification's wording of the word count: the number of maximal runs of
    code units that are not white space. [inRun] tells that the previous
    code unit belongs to the current run. *)
Fixpoint countRuns (inRun : bool) (s : JSString) : nat :=
  match s with
  | [] => 0
  | c :: r =>
      if isWhiteSpace c then countRuns false r
      else (if inRun then 0 else 1) + countRuns true r
  end.

Definition whitespaceSeparatedRuns (s : JSString) : nat := countRuns false s.

(* ===================================================================== *)
(** ** Data model *)
(* ===================================================================== *)

(** The text [new Date().toLocaleString()] or
    [new Date().toLocaleTimeString()] produces, kept symbolic: the
    formatting style and the instant (ms since the epoch) it formats. *)
Inductive DateText : Type :=
| toLocaleString (t : Z)
| toLocaleTimeString (t : Z).

Module Blog.
(** One blog object of the [blogs] array. The seed blog has no
    [wordCount] and [charCount] properties. *)
Record t : Type := mk {
  id : JSString;
  title : JSString;
  content : JSString;
  createdAt : DateText;
  lastSaved : DateText;
  wordCount : option nat;
  charCount : option nat
}.

(** [{...b, content: c, lastSaved: d}] *)
Definition withContent (c : JSString) (d : DateText) (b : t) : t :=
  mk (id b) (title b) c (createdAt b) d (wordCount b) (charCount b).

(** [{...b, title: ti, content: c, lastSaved: d}] *)
Definition withTitleContent (ti c : JSString) (d : DateText) (b : t) : t :=
  mk (id b) ti c (createdAt b) d (wordCount b) (charCount b).
End Blog.

(** The [useState] values one render of [App] binds. *)
Record Render : Type := mkRender {
  blogs : list Blog.t;
  currentBlogId : option JSString;
  title : JSString;
  isSaved : bool;
  lastSaved : option DateText;
  wordCount : nat;
  charCount : nat;
  showNewBlogForm : bool;
  newBlogTitle : JSString
}.

(** The first render: the initial values given to [useState]. *)
Definition initialRender : Render :=
  mkRender [] None (lit "Untitled Document") true None 0 0 false [].

(** A callback scheduled by [setTimeout]: its id, the instant it is due,
    and the render the autosave callback closes over. *)
Record Timer : Type := mkTimer {
  timerId : N;
  due : Z;
  closure : Render
}.

(** [localStorage]: the two keys of [STORAGE_KEYS]. The value under
    [BLOGS] is kept as the array its JSON text encodes: the store holds
    nothing under the key, or the JSON of an array of documents, which is
    what [saveBlogs] writes. Text under the key that [JSON.parse] rejects
    or that encodes something else than such an array is not represented.
    [quotaExceeded] tells that [setItem] throws. *)
Record Storage : Type := mkStorage {
  BLOGS : option (list Blog.t);
  CURRENT_BLOG_ID : option JSString;
  quotaExceeded : bool
}.

Inductive ConsoleEntry : Type :=
| console_error_entry (msg : string)
| console_log_entry (msg : string).

Record World : Type := mkWorld {
  react : Render;                      (* the state React holds *)
  rteInstance : option JSString;       (* rteInstance.current and its content *)
  autoSaveTimerRef : option N;         (* autoSaveTimerRef.current *)
  listener : option Render;            (* the input/change listener and its closure *)
  timers : list Timer;                 (* armed timers *)
  nextTimerId : N;
  clock : Z;                           (* Date.now() *)
  localStorage : Storage;
  confirmAnswer : bool;                (* what the user answers to window.confirm *)
  alerts : list string;
  console : list ConsoleEntry
}.

(* ===================================================================== *)
(** ** The state-and-exception monad of handlers *)
(* ===================================================================== *)

Inductive Exn : Type :=
| TypeError
| QuotaExceededError.

Inductive Completion (A : Type) : Type :=
| Normal (a : A)
| Throw (e : Exn).
Arguments Throw {A} e.

Definition M (A : Type) : Type := World -> Completion A * World.

Definition ret {A} (a : A) : M A := fun w => (Normal a, w).

Definition bind {A B} (m : M A) (k : A -> M B) : M B :=
  fun w =>
    match m w with
    | (Normal a, w') => k a w'
    | (Throw e, w') => (Throw e, w')
    end.

Definition throw {A} (e : Exn) : M A := fun w => (Throw e, w).

(** [try { m } catch (error) { h error }] *)
Definition try_catch {A} (m : M A) (h : Exn -> M A) : M A :=
  fun w =>
    match m w with
    | (Normal a, w') => (Normal a, w')
    | (Throw e, w') => h e w'
    end.

Definition gets {A} (f : World -> A) : M A := fun w => (Normal (f w), w).
Definition modify (f : World -> World) : M unit := fun w => (Normal tt, f w).

Declare Scope js_scope.
Delimit Scope js_scope with js.
Notation "x <- c1 ;; c2" := (bind c1 (fun x => c2))
  (at level 61, c1 at next level, right associativity) : js_scope.
Notation "c1 ;; c2" := (bind c1 (fun _ => c2))
  (at level 61, right associativity) : js_scope.
Open Scope js_scope.

(** The world a computation leaves, whether it returned or threw. *)
Definition exec {A} (m : M A) (w : World) : World := snd (m w).

(** [l.map(f)] for a callback [f] with effects: the calls run in the
    order of the array. *)
Fixpoint mapM {A B} (f : A -> M B) (l : list A) : M (list B) :=
  match l with
  | [] => ret []
  | a :: rest => b <- f a ;; bs <- mapM f rest ;; ret (b :: bs)
  end.

(* ===================================================================== *)
(** ** State hooks, refs and the browser *)
(* ===================================================================== *)

Definition with_react (r : Render) (w : World) : World :=
  mkWorld r (rteInstance w) (autoSaveTimerRef w) (listener w) (timers w)
    (nextTimerId w) (clock w) (localStorage w) (confirmAnswer w) (alerts w)
    (console w).

Definition with_rteInstance (e : option JSString) (w : World) : World :=
  mkWorld (react w) e (autoSaveTimerRef w) (listener w) (timers w)
    (nextTimerId w) (clock w) (localStorage w) (confirmAnswer w) (alerts w)
    (console w).

Definition with_autoSaveTimerRef (t : option N) (w : World) : World :=
  mkWorld (react w) (rteInstance w) t (listener w) (timers w)
    (nextTimerId w) (clock w) (localStorage w) (confirmAnswer w) (alerts w)
    (console w).

Definition with_listener (l : option Render) (w : World) : World :=
  mkWorld (react w) (rteInstance w) (autoSaveTimerRef w) l (timers w)
    (nextTimerId w) (clock w) (localStorage w) (confirmAnswer w) (alerts w)
    (console w).

Definition with_timers (ts : list Timer) (next : N) (w : World) : World :=
  mkWorld (react w) (rteInstance w) (autoSaveTimerRef w) (listener w) ts
    next (clock w) (localStorage w) (confirmAnswer w) (alerts w) (console w).

Definition with_clock (t : Z) (w : World) : World :=
  mkWorld (react w) (rteInstance w) (autoSaveTimerRef w) (listener w)
    (timers w) (nextTimerId w) t (localStorage w) (confirmAnswer w)
    (alerts w) (console w).

Definition with_localStorage (s : Storage) (w : World) : World :=
  mkWorld (react w) (rteInstance w) (autoSaveTimerRef w) (listener w)
    (timers w) (nextTimerId w) (clock w) s (confirmAnswer w) (alerts w)
    (console w).

Definition with_confirmAnswer (b : bool) (w : World) : World :=
  mkWorld (react w) (rteInstance w) (autoSaveTimerRef w) (listener w)
    (timers w) (nextTimerId w) (clock w) (localStorage w) b (alerts w)
    (console w).

Definition with_alerts (a : list string) (w : World) : World :=
  mkWorld (react w) (rteInstance w) (autoSaveTimerRef w) (listener w)
    (timers w) (nextTimerId w) (clock w) (localStorage w) (confirmAnswer w)
    a (console w).

Definition with_console (c : list ConsoleEntry) (w : World) : World :=
  mkWorld (react w) (rteInstance w) (autoSaveTimerRef w) (listener w)
    (timers w) (nextTimerId w) (clock w) (localStorage w) (confirmAnswer w)
    (alerts w) c.

(** The setters returned by [useState]. *)
Definition setBlogs (v : list Blog.t) : M unit :=
  modify (fun w => let r := react w in
    with_react (mkRender v (currentBlogId r) (title r) (isSaved r) (lastSaved r)
                  (wordCount r) (charCount r) (showNewBlogForm r) (newBlogTitle r)) w).

Definition setCurrentBlogId (v : option JSString) : M unit :=
  modify (fun w => let r := react w in
    with_react (mkRender (blogs r) v (title r) (isSaved r) (lastSaved r)
                  (wordCount r) (charCount r) (showNewBlogForm r) (newBlogTitle r)) w).

Definition setTitle (v : JSString) : M unit :=
  modify (fun w => let r := react w in
    with_react (mkRender (blogs r) (currentBlogId r) v (isSaved r) (lastSaved r)
                  (wordCount r) (charCount r) (showNewBlogForm r) (newBlogTitle r)) w).

Definition setIsSaved (v : bool) : M unit :=
  modify (fun w => let r := react w in
    with_react (mkRender (blogs r) (currentBlogId r) (title r) v (lastSaved r)
                  (wordCount r) (charCount r) (showNewBlogForm r) (newBlogTitle r)) w).

Definition setLastSaved (v : option DateText) : M unit :=
  modify (fun w => let r := react w in
    with_react (mkRender (blogs r) (currentBlogId r) (title r) (isSaved r) v
                  (wordCount r) (charCount r) (showNewBlogForm r) (newBlogTitle r)) w).

Definition setWordCount (v : nat) : M unit :=
  modify (fun w => let r := react w in
    with_react (mkRender (blogs r) (currentBlogId r) (title r) (isSaved r) (lastSaved r)
                  v (charCount r) (showNewBlogForm r) (newBlogTitle r)) w).

Definition setCharCount (v : nat) : M unit :=
  modify (fun w => let r := react w in
    with_react (mkRender (blogs r) (currentBlogId r) (title r) (isSaved r) (lastSaved r)
                  (wordCount r) v (showNewBlogForm r) (newBlogTitle r)) w).

Definition setShowNewBlogForm (v : bool) : M unit :=
  modify (fun w => let r := react w in
    with_react (mkRender (blogs r) (currentBlogId r) (title r) (isSaved r) (lastSaved r)
                  (wordCount r) (charCount r) v (newBlogTitle r)) w).

Definition setNewBlogTitle (v : JSString) : M unit :=
  modify (fun w => let r := react w in
    with_react (mkRender (blogs r) (currentBlogId r) (title r) (isSaved r) (lastSaved r)
                  (wordCount r) (charCount r) (showNewBlogForm r) v) w).

(** [Date.now()] *)
Definition Date_now : M Z := gets clock.

(** [localStorage.setItem(STORAGE_KEYS.BLOGS, JSON.stringify(v))] *)
Definition localStorage_setItem_BLOGS (v : list Blog.t) : M unit :=
  fun w =>
    let s := localStorage w in
    if quotaExceeded s then (Throw QuotaExceededError, w)
    else (Normal tt,
          with_localStorage (mkStorage (Some v) (CURRENT_BLOG_ID s) (quotaExceeded s)) w).

(** [localStorage.setItem(STORAGE_KEYS.CURRENT_BLOG_ID, v)] *)
Definition localStorage_setItem_CURRENT_BLOG_ID (v : JSString) : M unit :=
  fun w =>
    let s := localStorage w in
    if quotaExceeded s then (Throw QuotaExceededError, w)
    else (Normal tt,
          with_localStorage (mkStorage (BLOGS s) (Some v) (quotaExceeded s)) w).

Definition console_error (msg : string) : M unit :=
  modify (fun w => with_console (console_error_entry msg :: console w) w).

Definition console_log (msg : string) : M unit :=
  modify (fun w => with_console (console_log_entry msg :: console w) w).

Definition alert (msg : string) : M unit :=
  modify (fun w => with_alerts (msg :: alerts w) w).

Definition window_confirm (msg : string) : M bool := gets confirmAnswer.

(** Modelled from the spec: the external editing widget [RTE] of the
    package [editor-structure], of which the core consumes only the
    contract [getContent() -> text] and [setContent(text)]. The instance
    holds one content buffer; [setContent] stores into it, [getContent]
    reads it, and the user's typing changes it. A call on
    [rteInstance.current] when it is [null] throws a [TypeError]. *)
Definition rte_getContent : M JSString :=
  fun w =>
    match rteInstance w with
    | Some c => (Normal c, w)
    | None => (Throw TypeError, w)
    end.

Definition rte_setContent (c : JSString) : M unit :=
  fun w =>
    match rteInstance w with
    | Some _ => (Normal tt, with_rteInstance (Some c) w)
    | None => (Throw TypeError, w)
    end.

Definition new_RTE : M unit := modify (with_rteInstance (Some [])).

Definition AUTO_SAVE_INTERVAL : Z := 3000.

(** [setTimeout(callback, delay)], where the callback is the autosave
    callback created under the render [r]; returns the new timer's id. *)
Definition setTimeout (r : Render) (delay : Z) : M N :=
  fun w =>
    let i := nextTimerId w in
    (Normal i,
     with_timers (timers w ++ [mkTimer i (clock w + delay) r]) (N.succ i) w).

(** [clearTimeout(i)] *)
Definition clearTimeout (i : N) : M unit :=
  modify (fun w =>
    with_timers (filter (fun tm => negb (timerId tm =? i)%N) (timers w))
      (nextTimerId w) w).

(** Truthiness of a timer id held in a ref ([null] or a number). *)
Definition truthy_timer (o : option N) : bool :=
  match o with Some i => negb (i =? 0)%N | None => false end.

(* ===================================================================== *)
(** ** The functions of [App] *)
(* ===================================================================== *)

(** [saveBlogs] (lines 127-133) *)
Definition saveBlogs (updatedBlogs : list Blog.t) : M unit :=
  try_catch
    (localStorage_setItem_BLOGS updatedBlogs)
    (fun error => console_error "Failed to save blogs:").

(** [updateStats] (lines 210-216) *)
Definition updateStats (content : JSString) : M unit :=
  let plainText := trim (replaceTags content) in
  let words :=
    if (0 <? length plainText)%nat
    then length (splitWhiteSpace plainText) else 0%nat in
  let chars := length plainText in
  setWordCount words ;;
  setCharCount chars.

(** [createNewBlog] (lines 136-156), created under the render [r]. *)
Definition createNewBlog (r : Render) : M unit :=
  if negb (truthy (trim (newBlogTitle r))) then ret tt
  else
    now <- Date_now ;;
    let newBlog :=
      Blog.mk (toString now)
              (newBlogTitle r)
              (lit "<h1>" ++ newBlogTitle r ++ lit "</h1><p>Start writing...</p>")
              (toLocaleString now)
              (toLocaleString now)
              (Some 0%nat) (Some 0%nat) in
    let updatedBlogs := newBlog :: blogs r in
    setBlogs updatedBlogs ;;
    setCurrentBlogId (Some (Blog.id newBlog)) ;;
    setTitle (Blog.title newBlog) ;;
    saveBlogs updatedBlogs ;;
    setNewBlogTitle [] ;;
    setShowNewBlogForm false.

(** [switchBlog] (lines 159-188), created under the render [r]: its two
    blocks, "save current blog before switching" (lines 161-174) and
    "now switch to new blog" (lines 177-187), in that order. *)
Definition saveBeforeSwitching (r : Render) : M unit :=
  rte <- gets rteInstance ;;
  match currentBlogId r, rte with
  | Some cur, Some _ =>
      if truthy cur then
        content <- rte_getContent ;;
        now <- Date_now ;;
        let updatedBlogs :=
          map (fun b =>
                 if streq (Blog.id b) cur
                 then Blog.withContent content (toLocaleString now) b
                 else b) (blogs r) in
        saveBlogs updatedBlogs
      else ret tt
  | _, _ => ret tt
  end.

Definition switchToNew (r : Render) (blogId : JSString) : M unit :=
  let blog := find (fun b => streq (Blog.id b) blogId) (blogs r) in
  rte <- gets rteInstance ;;
  match blog, rte with
  | Some blog, Some _ =>
      setCurrentBlogId (Some blogId) ;;
      localStorage_setItem_CURRENT_BLOG_ID blogId ;;
      setTitle (Blog.title blog) ;;
      rte_setContent (Blog.content blog) ;;
      setLastSaved (Some (Blog.lastSaved blog)) ;;
      updateStats (Blog.content blog) ;;
      setIsSaved true ;;
      console_log "Switched to blog:"
  | _, _ => ret tt
  end.

Definition switchBlog (r : Render) (blogId : JSString) : M unit :=
  saveBeforeSwitching r ;;
  switchToNew r blogId.

(** [deleteBlog] (lines 191-207), created under the render [r]. *)
Definition deleteBlog (r : Render) (blogId : JSString) : M unit :=
  if (length (blogs r) =? 1)%nat then
    alert "You cannot delete the last blog. Create a new one first."
  else
    ok <- window_confirm "Are you sure you want to delete this blog?" ;;
    if ok then
      let updatedBlogs :=
        filter (fun b => negb (streq (Blog.id b) blogId)) (blogs r) in
      setBlogs updatedBlogs ;;
      saveBlogs updatedBlogs ;;
      if opt_streq (currentBlogId r) blogId then
        match updatedBlogs with
        | nextBlog :: _ => switchBlog r (Blog.id nextBlog)
        | [] => throw TypeError          (* [updatedBlogs[0].id] of undefined *)
        end
      else ret tt
    else ret tt.

(** [saveCurrentBlog] (lines 219-243), created under the render [r]. *)
Definition saveCurrentBlog (r : Render) (content blogTitle : JSString) : M unit :=
  match currentBlogId r with
  | None => ret tt
  | Some cur =>
      if negb (truthy cur) then ret tt
      else
        try_catch
          (now <- Date_now ;;
           let updatedBlogs :=
             map (fun b =>
                    if streq (Blog.id b) cur
                    then Blog.withTitleContent
                           (if truthy blogTitle then blogTitle else Blog.title b)
                           content (toLocaleString now) b
                    else b) (blogs r) in
           setBlogs updatedBlogs ;;
           saveBlogs updatedBlogs ;;
           setLastSaved (Some (toLocaleTimeString now)) ;;
           setIsSaved true)
          (fun error => console_error "Failed to save blog:")
  end.

(** [loadBlogs] (lines 100-124). [JSON.parse] of the stored text is the
    array itself, so on the stores represented here nothing in the [try]
    block throws. *)
Definition loadBlogs : M (option Blog.t) :=
  try_catch
    (saved <- gets (fun w => BLOGS (localStorage w)) ;;
     blogId <- gets (fun w => CURRENT_BLOG_ID (localStorage w)) ;;
     match saved with
     | Some blogsList =>
         setBlogs blogsList ;;
         match (if truthy_opt blogId
                then find (fun b => opt_streq blogId (Blog.id b)) blogsList
                else None) with
         | Some b => setCurrentBlogId blogId ;; ret (Some b)
         | None =>
             match blogsList with
             | b0 :: _ => setCurrentBlogId (Some (Blog.id b0)) ;; ret (Some b0)
             | [] => ret None
             end
         end
     | None => ret None
     end)
    (fun error => console_error "Failed to load blogs:" ;; ret None).

(** The callback given to [setTimeout] (lines 283-306), created by the
    [handleContentChange] of the render [r]. *)
Definition autoSaveCallback (r : Render) : M unit :=
  content <- rte_getContent ;;
  let currentId :=
    if truthy_opt (currentBlogId r) then currentBlogId r
    else match blogs r with b0 :: _ => Some (Blog.id b0) | [] => None end in
  match currentId with
  | Some cur =>
      if truthy cur then
        updatedBlogs <-
          mapM (fun b =>
                  if streq (Blog.id b) cur
                  then now <- Date_now ;;
                       console_log "Auto-saving blog:" ;;
                       ret (Blog.withContent content (toLocaleString now) b)
                  else ret b) (blogs r) ;;
        setBlogs updatedBlogs ;;
        saveBlogs updatedBlogs ;;
        now <- Date_now ;;
        setLastSaved (Some (toLocaleTimeString now)) ;;
        setIsSaved true ;;
        updateStats content
      else ret tt
  | None => ret tt
  end.

(** [handleContentChange] (lines 276-307), created under the render [r]. *)
Definition handleContentChange (r : Render) : M unit :=
  setIsSaved false ;;
  ref <- gets autoSaveTimerRef ;;
  (match ref with
   | Some i => if truthy_timer ref then clearTimeout i else ret tt
   | None => ret tt
   end) ;;
  i <- setTimeout r AUTO_SAVE_INTERVAL ;;
  modify (with_autoSaveTimerRef (Some i)).

(** The mount effect (lines 246-320, dependency array [[]]), run once
    with the closure of the render [r] that created it. The mount element
    [editorRef.current] exists when effects run. *)
Definition mountEffect (r : Render) : M unit :=
  currentBlog <- loadBlogs ;;
  rte <- gets rteInstance ;;
  match rte with
  | Some _ => ret tt
  | None =>
      new_RTE ;;
      (match currentBlog with
       | Some b =>
           setTitle (Blog.title b) ;;
           rte_setContent (Blog.content b) ;;
           setLastSaved (Some (Blog.lastSaved b)) ;;
           updateStats (Blog.content b)
       | None =>
           now <- Date_now ;;
           let firstBlog :=
             Blog.mk (toString now)
                     (lit "Welcome")
                     (lit "<h1>Welcome to Your Professional Blog Editor</h1><p>Start writing your amazing content here...</p>")
                     (toLocaleString now)
                     (toLocaleString now)
                     None None in
           setBlogs [firstBlog] ;;
           setCurrentBlogId (Some (Blog.id firstBlog)) ;;
           setTitle (Blog.title firstBlog) ;;
           rte_setContent (Blog.content firstBlog) ;;
           saveBlogs [firstBlog]
       end) ;;
      (* addEventListener('input' / 'change', handleContentChange) *)
      modify (with_listener (Some r))
  end.

(** The cleanup the mount effect returns (lines 312-318).
    [editorRefCurrent] tells whether [editorRef.current] still holds the
    mount element when the cleanup runs: both [removeEventListener] calls
    are behind [editorRef.current?.]. React detaches the ref of an
    unmounted element before it runs the cleanups of [useEffect], so at an
    unmount it is [false] and the listener stays on the element. *)
Definition cleanup (editorRefCurrent : bool) : M unit :=
  (if editorRefCurrent then modify (with_listener None) else ret tt) ;;
  ref <- gets autoSaveTimerRef ;;
  match ref with
  | Some i => if truthy_timer ref then clearTimeout i else ret tt
  | None => ret tt
  end.

(** The effect "save on title change" (lines 323-341, dependencies
    [[title, currentBlogId, blogs]]), with the closure of the render [r]. *)
Definition titleEffect (r : Render) : M unit :=
  rte <- gets rteInstance ;;
  match rte, currentBlogId r with
  | Some _, Some cur =>
      if truthy cur then
        content <- rte_getContent ;;
        now <- Date_now ;;
        let updatedBlogs :=
          map (fun b =>
                 if streq (Blog.id b) cur
                 then Blog.withTitleContent (title r) content (toLocaleString now) b
                 else b) (blogs r) in
        setBlogs updatedBlogs ;;
        saveBlogs updatedBlogs ;;
        setLastSaved (Some (toLocaleTimeString now))
      else ret tt
  | _, _ => ret tt
  end.

(* ===================================================================== *)
(** ** Events *)
(* ===================================================================== *)

(** A handler attached in the JSX runs with the closure of the latest
    render, whose bindings are the state React holds. *)
Definition click {A} (handler : Render -> M A) : M A :=
  fun w => handler (react w) w.

(** An effect whose dependencies changed runs after the render, with
    the closure of that render. *)
Definition effect (e : Render -> M unit) : M unit :=
  fun w => e (react w) w.

(** An [input] or [change] event on the mount element runs the
    registered listener with the closure it was created in. *)
Definition inputEvent : M unit :=
  fun w =>
    match listener w with
    | Some r => handleContentChange r w
    | None => (Normal tt, w)
    end.

(** Time passes up to the instant [t]: every armed timer due by then
    fires, at its due instant, in the order the timers were armed. *)
Definition advanceTo (t : Z) (w : World) : World :=
  let dueNow := filter (fun tm => due tm <=? t)%Z (timers w) in
  let later := filter (fun tm => negb (due tm <=? t)%Z) (timers w) in
  let w1 := with_timers later (nextTimerId w) w in
  with_clock t
    (fold_left
       (fun w' tm => exec (autoSaveCallback (closure tm)) (with_clock (due tm) w'))
       dueNow w1).

(** At instant [t] the user changes the text in the editing surface to
    [c]; the widget then emits its change notification. *)
Definition userTypes (t : Z) (c : JSString) (w : World) : World :=
  let w1 := advanceTo t w in
  let w2 := match rteInstance w1 with
            | Some _ => with_rteInstance (Some c) w1
            | None => w1
            end in
  exec inputEvent w2.

(** The world before the first render, given what local storage holds
    and the instant of the mount. *)
Definition initialWorld (store : Storage) (t0 : Z) : World :=
  mkWorld initialRender None None None [] 1%N t0 store false [] [].

(** Mounting [App]: the first render binds the initial [useState] values
    and the mount effect runs with that closure. *)
Definition mount (store : Storage) (t0 : Z) : World :=
  exec (mountEffect initialRender) (initialWorld store t0).

(** User commands on the document list. [Create ti t]: the user types the
    title [ti] in the form and confirms it at instant [t]. [Delete i ok]:
    the user presses the delete button of the document [i] and answers
    [ok] if the confirmation dialog opens. *)
Inductive Op : Type :=
| Create (ti : JSString) (t : Z)
| Delete (i : JSString) (ok : bool).

Definition run_op (o : Op) (w : World) : World :=
  match o with
  | Create ti t =>
      exec (click createNewBlog) (exec (setNewBlogTitle ti) (with_clock t w))
  | Delete i ok =>
      exec (click (fun r => deleteBlog r i)) (with_confirmAnswer ok w)
  end.

Definition run (ops : list Op) (w : World) : World :=
  fold_left (fun w' o => run_op o w') ops w.

(** The ids of the in-memory collection. *)
Definition ids (w : World) : list JSString := map Blog.id (blogs (react w)).

(* ===================================================================== *)
(** ** Derived notions used in the statements *)
(* ===================================================================== *)

(** [m] leaves the observation [f] of the world unchanged, whether it
    returns or throws. *)
Definition keeps {X A} (f : World -> X) (m : M A) : Prop :=
  forall w, f (snd (m w)) = f w.

(** The last code unit is white space (false on the empty string). *)
Fixpoint lastWs (s : JSString) : bool :=
  match s with
  | [] => false
  | c :: r => match r with [] => isWhiteSpace c | _ :: _ => lastWs r end
  end.

(** What the flush of [switchBlog], the autosave callback and the other
    save paths write: the collection with the editor's content and a new
    [lastSaved] stored in the document [cur]. *)
Definition flushed (cur content : JSString) (now : Z) (l : list Blog.t) : list Blog.t :=
  map (fun b =>
         if streq (Blog.id b) cur
         then Blog.withContent content (toLocaleString now) b
         else b) l.

(** The world after [saveBlogs l]: the collection is stored, or, when
    the store rejects the write, only an error is logged. *)
Definition afterSave (l : list Blog.t) (w : World) : World :=
  if quotaExceeded (localStorage w)
  then with_console (console_error_entry "Failed to save blogs:" :: console w) w
  else with_localStorage
         (mkStorage (Some l) (CURRENT_BLOG_ID (localStorage w)) false) w.

Definition demoBlog (i ti c : string) (t : Z) : Blog.t :=
  Blog.mk (lit i) (lit ti) (lit c) (toLocaleString t) (toLocaleString t) None None.

(** Local storage holding two documents, "1" the active one. *)
Definition storedDocs : Storage :=
  mkStorage
    (Some [demoBlog "1" "A" "<p>old A</p>" 10; demoBlog "2" "B" "<p>old B</p>" 20])
    (Some (lit "1")) false.

(** A sample state with two documents, "1" active, in which the text of
    the editing surface is not in the collection: the mount on
    [storedDocs] at instant 1000, an input event at 1500 and the clock
    advanced to 5000, with no run of the title-change effect. *)
Definition twoDocs : World :=
  advanceTo 5000 (userTypes 1500 (lit "<p>new A</p>") (mount storedDocs 1000)).

(** The document [createNewBlog] synthesizes from the title [ti] at the
    clock reading [now]. *)
Definition newBlogOf (ti : JSString) (now : Z) : Blog.t :=
  Blog.mk (toString now) ti
    (lit "<h1>" ++ ti ++ lit "</h1><p>Start writing...</p>")
    (toLocaleString now) (toLocaleString now) (Some 0) (Some 0).

(** The stored content of the document [i] in a collection. *)
Definition contentOf (i : JSString) (l : list Blog.t) : option JSString :=
  option_map Blog.content (find (fun b => streq (Blog.id b) i) l).

(** The guard of [deleteBlog]: the notice shown for the last document. *)
Definition lastBlogNotice : string :=
  "You cannot delete the last blog. Create a new one first.".

(** [blogs.filter(b => b.id !== blogId)] *)
Definition without (blogId : JSString) (l : list Blog.t) : list Blog.t :=
  filter (fun b => negb (streq (Blog.id b) blogId)) l.

(** A sequence of delete commands. *)
Definition deletes (ds : list (JSString * bool)) : list Op :=
  map (fun d => Delete (fst d) (snd d)) ds.

(** A session seeded at clock reading 1000 in which two documents were
    created at the same clock reading 5000. *)
Definition sameTick : World :=
  run [Create (lit "A") 5000; Create (lit "B") 5000]
      (mount (mkStorage None None false) 1000).

(** Every create of the sequence that adds a document happens at a clock
    reading whose decimal text is not yet an id of the collection. *)
Fixpoint freshCreates (ops : list Op) (w : World) : Prop :=
  match ops with
  | [] => True
  | o :: rest =>
      match o with
      | Create ti t =>
          forallb isWhiteSpace ti = false -> ~ In (toString t) (ids w)
      | Delete _ _ => True
      end /\ freshCreates rest (run_op o w)
  end.

(** What holds of a mounted session as far as the timer is concerned:
    the listener closes over the first render, the editing surface is
    live, and every armed timer is the one the ref holds and closes over
    the first render. *)
Definition sessionInv (w : World) : Prop :=
  listener w = Some initialRender /\
  rteInstance w <> None /\
  nextTimerId w <> 0%N /\
  forall tm, In tm (timers w) ->
    closure tm = initialRender /\
    autoSaveTimerRef w = Some (timerId tm) /\ timerId tm <> 0%N.

(** The timers left armed by the cancellation in [handleContentChange]
    and in the cleanup. *)
Definition cancelled (ref : option N) (l : list Timer) : list Timer :=
  match ref with
  | Some i =>
      if truthy_timer ref
      then filter (fun tm => negb (timerId tm =? i)%N) l else l
  | None => l
  end.

Definition welcomeContent : JSString :=
  lit "<h1>Welcome to Your Professional Blog Editor</h1><p>Start writing your amazing content here...</p>".

(** A sample state with a pending autosave timer: an input in
    [twoDocs] at instant 6000. *)
Definition pendingSave : World := userTypes 6000 (lit "<p>newer A</p>") twoDocs.

(** The collection [saveCurrentBlog] commits. *)
Definition savedWith (cur content blogTitle : JSString) (now : Z)
    (l : list Blog.t) : list Blog.t :=
  map (fun b =>
         if streq (Blog.id b) cur
         then Blog.withTitleContent
                (if truthy blogTitle then blogTitle else Blog.title b)
                content (toLocaleString now) b
         else b) l.

(** [twoDocs] with a store that rejects writes. *)
Definition twoDocsFull : World :=
  with_localStorage
    (mkStorage (BLOGS (localStorage twoDocs)) (CURRENT_BLOG_ID (localStorage twoDocs)) true)
    twoDocs.

(* ===================================================================== *)
(** ** Whole sessions *)
(* ===================================================================== *)

(** What can happen in a mounted session: the user types in the editing
    surface, clicks a document of the sidebar, creates or deletes a
    document, edits the title input ([onChange] calls [setTitle]),
    toggles the new-document form, the title-change effect runs after a
    render, or time passes. *)
Inductive Event : Type :=
| TypeText (t : Z) (c : JSString)
| ClickBlog (blogId : JSString)
| Command (o : Op)
| EditTitle (ti : JSString)
| ToggleNewBlogForm
| RunTitleEffect
| Wait (t : Z).

Definition step (e : Event) (w : World) : World :=
  match e with
  | TypeText t c => userTypes t c w
  | ClickBlog blogId => exec (click (fun r => switchBlog r blogId)) w
  | Command o => run_op o w
  | EditTitle ti => exec (setTitle ti) w
  | ToggleNewBlogForm =>
      exec (click (fun r => setShowNewBlogForm (negb (showNewBlogForm r)))) w
  | RunTitleEffect => exec (effect titleEffect) w
  | Wait t => advanceTo t w
  end.

Definition session (es : list Event) (w : World) : World :=
  fold_left (fun w' e => step e w') es w.

(** The creates of a command sequence happen at strictly increasing
    clock readings, all after [bound]. *)
Fixpoint createsAfter (bound : Z) (ops : list Op) : Prop :=
  match ops with
  | [] => True
  | Create _ t :: rest => (bound < t)%Z /\ createsAfter t rest
  | Delete _ _ :: rest => createsAfter bound rest
  end.

(** Every id of the collection is the decimal text of an instant up to
    [bound]. *)
Definition idsUpTo (bound : Z) (w : World) : Prop :=
  forall i, In i (ids w) -> exists t, i = toString t /\ (t <= bound)%Z.

(** The document the title-change effect and [saveCurrentBlog] write for
    the blog [b]: [{...b, title: ti, content: c, lastSaved: ...}]. *)
Definition retitled (cur ti content : JSString) (now : Z) (l : list Blog.t) : list Blog.t :=
  map (fun b =>
         if streq (Blog.id b) cur
         then Blog.withTitleContent ti content (toLocaleString now) b
         else b) l.

(** The id the autosave callback saves under:
    [currentBlogId || blogs[0]?.id]. *)
Definition autoSaveTarget (r : Render) : option JSString :=
  if truthy_opt (currentBlogId r) then currentBlogId r
  else match blogs r with b0 :: _ => Some (Blog.id b0) | [] => None end.

(** No position of [s] starts a match of the tag pattern: every '<' has
    no '>' after it. *)
Fixpoint tagFree (s : JSString) : bool :=
  match s with
  | [] => true
  | c :: r => negb ((c =? LT)%N && existsb (N.eqb GT) r) && tagFree r
  end.

(** A tag: '<', a body without '>', '>'. *)
Definition tag (body : JSString) : JSString := LT :: body ++ [GT].

(* ===================================================================== *)
(** ** The running application *)
(* ===================================================================== *)

(** The title-change effect depends on [title], [currentBlogId] and
    [blogs], and every run of it with an active document calls [setBlogs]
    with a new array. So it runs after the render of the mount, and then
    again after each render it causes itself: while [App] is mounted,
    whatever a handler did, its render is followed by a run of the effect
    with that render's closure. [rendered w] is the world after that
    run. *)
Definition rendered (w : World) : World := exec (effect titleEffect) w.

(** One event of the running application: the handler, then the render
    and the title-change effect. *)
Definition appStep (e : Event) (w : World) : World := rendered (step e w).

Definition appSession (es : list Event) (w : World) : World :=
  fold_left (fun w' e => appStep e w') es w.

(** [App] mounted and rendered. *)
Definition appMount (store : Storage) (t0 : Z) : World :=
  rendered (mount store t0).

(** The running application on [storedDocs]: mounted at 1000, the user
    typed [<p>new A</p>] into document "1" at 1500, and it is now 5000. *)
Definition editedDocs : World :=
  appSession [TypeText 1500 (lit "<p>new A</p>"); Wait 5000]
    (appMount storedDocs 1000).

(** The store starts to reject writes. *)
Definition storeFull (w : World) : World :=
  with_localStorage
    (mkStorage (BLOGS (localStorage w)) (CURRENT_BLOG_ID (localStorage w)) true) w.


(** A collection after [createNewBlog] and the render: the document
    [createNewBlog] put in front, rewritten by the title-change effect. *)
Definition createdThenRendered (ti c : JSString) (now : Z) (l : list Blog.t)
    : list Blog.t :=
  retitled (toString now) ti c now (newBlogOf ti now :: l).

(** The title shown for the document [i] in a collection. *)
Definition titleOf (i : JSString) (l : list Blog.t) : option JSString :=
  option_map Blog.title (find (fun b => streq (Blog.id b) i) l).

(* ===================================================================== *)
(** ** Strings: trimming, tag removal and splitting *)
(* ===================================================================== *)

Section StringFacts.

Lemma streq_refl (a : JSString) : streq a a = true.
Proof.
  induction a as [|x a IH]; simpl; [reflexivity|].
  now rewrite N.eqb_refl, IH.
Qed.

Lemma streq_eq (a b : JSString) : streq a b = true <-> a = b.
Proof.
  split.
  - revert b; induction a as [|x a IH]; intros [|y b]; simpl; try discriminate; auto.
    intros H. apply andb_true_iff in H as [Hx Hr].
    apply N.eqb_eq in Hx. apply IH in Hr. congruence.
  - intros ->. apply streq_refl.
Qed.

Lemma streq_neq (a b : JSString) : streq a b = false <-> a <> b.
Proof.
  split.
  - intros H E. apply streq_eq in E. congruence.
  - intros H. destruct (streq a b) eqn:E; [|reflexivity].
    apply streq_eq in E. contradiction.
Qed.

(** The scan agrees with matching the tag pattern position by
    position: a match is dropped and the scan resumes after it, any
    other code unit is kept. *)
Lemma skipToGt_some (r rest : JSString) :
  skipToGt r = Some rest ->
  existsb (N.eqb GT) r = true /\ stripFrom true r = stripFrom false rest.
Proof.
  induction r as [|c r IH]; cbn [skipToGt existsb stripFrom]; [discriminate|].
  rewrite (N.eqb_sym GT c).
  destruct (c =? GT)%N eqn:E; cbn [negb orb].
  - intros [= ->]. auto.
  - intros H. destruct (IH H) as [H1 H2]. auto.
Qed.

Lemma skipToGt_none (r : JSString) :
  skipToGt r = None -> existsb (N.eqb GT) r = false.
Proof.
  induction r as [|c r IH]; cbn [skipToGt existsb]; [reflexivity|].
  rewrite (N.eqb_sym GT c).
  destruct (c =? GT)%N; cbn [orb]; [discriminate|auto].
Qed.

Lemma replaceTags_match (s rest : JSString) :
  matchTag s = Some rest -> replaceTags s = replaceTags rest.
Proof.
  destruct s as [|c r]; cbn [matchTag]; [discriminate|].
  unfold replaceTags; cbn [stripFrom].
  destruct (c =? LT)%N; [|discriminate].
  intros H. destruct (skipToGt_some _ H) as [H1 H2].
  now rewrite H1.
Qed.

Lemma replaceTags_nomatch (c : N) (r : JSString) :
  matchTag (c :: r) = None -> replaceTags (c :: r) = c :: replaceTags r.
Proof.
  unfold replaceTags; cbn [matchTag stripFrom].
  destruct (c =? LT)%N; cbn [andb]; [|reflexivity].
  intros H. now rewrite (skipToGt_none _ H).
Qed.

Lemma lastWs_snoc (l : JSString) (c : N) : lastWs (l ++ [c]) = isWhiteSpace c.
Proof.
  induction l as [|x l IH]; simpl; [reflexivity|].
  destruct (l ++ [c]) eqn:E; [destruct l; discriminate|exact IH].
Qed.

Lemma trimStart_head (s : JSString) (c : N) (r : JSString) :
  trimStart s = c :: r -> isWhiteSpace c = false.
Proof.
  induction s as [|x s IH]; simpl; [discriminate|].
  destruct (isWhiteSpace x) eqn:E; [exact IH|].
  intros [= <- _]. exact E.
Qed.

Lemma trimStart_suffix (s : JSString) : exists p, s = p ++ trimStart s.
Proof.
  induction s as [|x s [p IH]]; simpl.
  - now exists [].
  - destruct (isWhiteSpace x).
    + exists (x :: p). simpl. now f_equal.
    + now exists [].
Qed.

Lemma trimEnd_prefix (s : JSString) : exists q, s = trimEnd s ++ q.
Proof.
  unfold trimEnd. destruct (trimStart_suffix (rev s)) as [p Hp].
  exists (rev p).
  rewrite <- rev_app_distr, <- Hp. symmetry. apply rev_involutive.
Qed.

Lemma trimEnd_lastWs (s : JSString) : lastWs (trimEnd s) = false.
Proof.
  unfold trimEnd. destruct (trimStart (rev s)) as [|c r] eqn:E; [reflexivity|].
  simpl. rewrite lastWs_snoc. exact (trimStart_head _ E).
Qed.

(** What [trim] leaves is empty, or starts and ends outside white space. *)
Lemma trim_shape (s : JSString) :
  trim s = [] \/
  exists c r, trim s = c :: r /\ isWhiteSpace c = false /\ lastWs (c :: r) = false.
Proof.
  unfold trim.
  destruct (trimEnd (trimStart s)) as [|c r] eqn:E; [now left|right].
  exists c, r. split; [reflexivity|]. split.
  - destruct (trimEnd_prefix (trimStart s)) as [q Hq].
    rewrite E in Hq. simpl in Hq.
    exact (trimStart_head _ Hq).
  - rewrite <- E. apply trimEnd_lastWs.
Qed.

(** The number of pieces of a split against the number of runs. *)
Lemma splitFrom_length (s : JSString) :
  length (splitFrom true s)
    = countRuns false s + (match s with [] => 1 | _ => if lastWs s then 1 else 0 end)
  /\ length (splitFrom false s)
    = countRuns true s + 1 + (if lastWs s then 1 else 0).
Proof.
  induction s as [|c r [IHa IHb]]; [split; reflexivity|].
  cbn [splitFrom countRuns].
  destruct (isWhiteSpace c) eqn:Ec.
  - assert (Hl : (match r with [] => 1 | _ => if lastWs r then 1 else 0 end)
                 = if lastWs (c :: r) then 1 else 0).
    { destruct r; simpl; [now rewrite Ec|reflexivity]. }
    split; cbn [length]; rewrite IHa, Hl; lia.
  - assert (Hl : lastWs (c :: r) = lastWs r).
    { destruct r; simpl; [exact Ec|reflexivity]. }
    assert (Hn : length (match splitFrom false r with
                         | p :: ps => (c :: p) :: ps
                         | [] => [[c]]
                         end) = length (splitFrom false r)).
    { destruct (splitFrom false r) eqn:E; [|reflexivity].
      simpl in IHb. lia. }
    split; (etransitivity; [exact Hn|]); rewrite IHb, Hl; lia.
Qed.

(** On a trimmed, non-empty text the pieces of the split are the runs. *)
Lemma split_trimmed (c : N) (r : JSString) :
  isWhiteSpace c = false -> lastWs (c :: r) = false ->
  length (splitWhiteSpace (c :: r)) = whitespaceSeparatedRuns (c :: r).
Proof.
  intros Hc Hl. unfold splitWhiteSpace, whitespaceSeparatedRuns.
  destruct (splitFrom_length (c :: r)) as [_ Hb].
  rewrite Hb, Hl. simpl. rewrite Hc. lia.
Qed.

End StringFacts.

(* ===================================================================== *)
(** ** Statistics *)
(* ===================================================================== *)

(** C8. For every content string, [updateStats] removes the markup tags,
    trims the result, and sets the word count to the number of
    white-space-separated runs of the trimmed text (zero when it is
    empty) and the character count to the length of the trimmed text; on
    [<h1>Hi there</h1>] that is 2 words and 8 characters, on [<p></p>]
    0 and 0. The collection, the editing surface and local storage are
    left as they are. *)
Theorem updateStats_counts :
  (forall (content : JSString) (w : World),
     let plainText := trim (replaceTags content) in
     let w' := exec (updateStats content) w in
     fst (updateStats content w) = Normal tt /\
     wordCount (react w') = whitespaceSeparatedRuns plainText /\
     charCount (react w') = length plainText /\
     blogs (react w') = blogs (react w) /\
     rteInstance w' = rteInstance w /\
     localStorage w' = localStorage w) /\
  (forall w : World,
     let w' := exec (updateStats (lit "<h1>Hi there</h1>")) w in
     wordCount (react w') = 2 /\ charCount (react w') = 8) /\
  (forall w : World,
     let w' := exec (updateStats (lit "<p></p>")) w in
     wordCount (react w') = 0 /\ charCount (react w') = 0) /\
  whitespaceSeparatedRuns [] = 0.
Proof.
  split; [|split; [|split; [|reflexivity]]].
  - intros content w plainText w'.
    subst w'. unfold exec, updateStats. fold plainText. cbn.
    repeat split.
    destruct (trim_shape (replaceTags content)) as [E | (c & r & E & Hc & Hl)];
      fold plainText in E; rewrite E.
    + reflexivity.
    + cbn [length Nat.ltb Nat.leb]. now apply split_trimmed.
  - intros w. split; reflexivity.
  - intros w. split; reflexivity.
Qed.

(* ===================================================================== *)
(** ** Saving and switching *)
(* ===================================================================== *)

Lemma saveBlogs_run (l : list Blog.t) (w : World) :
  saveBlogs l w = (Normal tt, afterSave l w).
Proof.
  unfold saveBlogs, try_catch, localStorage_setItem_BLOGS, afterSave.
  destruct (quotaExceeded (localStorage w)); reflexivity.
Qed.

Lemma afterSave_frame (l : list Blog.t) (w : World) :
  react (afterSave l w) = react w /\
  rteInstance (afterSave l w) = rteInstance w /\
  autoSaveTimerRef (afterSave l w) = autoSaveTimerRef w /\
  timers (afterSave l w) = timers w /\
  clock (afterSave l w) = clock w /\
  alerts (afterSave l w) = alerts w.
Proof.
  unfold afterSave. destruct (quotaExceeded (localStorage w)); repeat split.
Qed.

Lemma find_not_In (blogId : JSString) (l : list Blog.t) :
  ~ In blogId (map Blog.id l) ->
  find (fun b => streq (Blog.id b) blogId) l = None.
Proof.
  induction l as [|b l IH]; simpl; [reflexivity|].
  intros H. destruct (streq (Blog.id b) blogId) eqn:E.
  - apply streq_eq in E. tauto.
  - apply IH. tauto.
Qed.

(** *** Frame reasoning: what a computation leaves unchanged *)

Section Keeps.
Context {X : Type} (f : World -> X).

Lemma keeps_ret {A} (a : A) : keeps f (ret a).
Proof. intros w. reflexivity. Qed.

Lemma keeps_throw {A} (e : Exn) : keeps f (@throw A e).
Proof. intros w. reflexivity. Qed.

Lemma keeps_gets {A} (g : World -> A) : keeps f (gets g).
Proof. intros w. reflexivity. Qed.

Lemma keeps_modify (g : World -> World) :
  (forall w, f (g w) = f w) -> keeps f (modify g).
Proof. intros H w. apply H. Qed.

Lemma keeps_bind {A B} (m : M A) (k : A -> M B) :
  keeps f m -> (forall a, keeps f (k a)) -> keeps f (bind m k).
Proof.
  intros Hm Hk w. unfold bind. specialize (Hm w).
  destruct (m w) as [[a|e] w1]; cbn [snd] in *.
  - now rewrite Hk.
  - exact Hm.
Qed.

Lemma keeps_try_catch {A} (m : M A) (h : Exn -> M A) :
  keeps f m -> (forall e, keeps f (h e)) -> keeps f (try_catch m h).
Proof.
  intros Hm Hh w. unfold try_catch. specialize (Hm w).
  destruct (m w) as [[a|e] w1]; cbn [snd] in *.
  - exact Hm.
  - now rewrite Hh.
Qed.
End Keeps.

(** Proves [keeps f m] by following the structure of [m]; the leaves are
    primitives, closed by unfolding them. *)
Ltac keeps_prim :=
  let w := fresh "w" in
  intros w;
  unfold setBlogs, setCurrentBlogId, setTitle, setIsSaved, setLastSaved,
    setWordCount, setCharCount, setShowNewBlogForm, setNewBlogTitle,
    Date_now, localStorage_setItem_BLOGS, localStorage_setItem_CURRENT_BLOG_ID,
    console_error, console_log, alert, window_confirm, rte_getContent,
    rte_setContent, new_RTE, setTimeout, clearTimeout, modify, gets;
  cbn;
  repeat match goal with
         | |- context [if ?b then _ else _] => destruct b
         | |- context [match ?x with _ => _ end] => destruct x
         end;
  reflexivity.

Ltac keeps_step :=
  first
    [ apply keeps_ret
    | apply keeps_throw
    | apply keeps_bind; [|intros ?]
    | apply keeps_try_catch; [|intros ?]
    | match goal with
      | |- keeps _ (if ?b then _ else _) => destruct b
      | |- keeps _ (match ?x with _ => _ end) => destruct x
      | |- keeps _ (let _ := _ in _) => cbv zeta
      end ].

Ltac keeps_auto := repeat keeps_step; try keeps_prim.

Lemma saveBlogs_keeps {X} (f : World -> X) (l : list Blog.t) :
  (forall s w, f (with_localStorage s w) = f w) ->
  (forall c w, f (with_console c w) = f w) ->
  keeps f (saveBlogs l).
Proof.
  intros Hs Hc w. rewrite saveBlogs_run. unfold afterSave. cbn [snd].
  destruct (quotaExceeded (localStorage w)); [apply Hc|apply Hs].
Qed.

(** [switchBlog] never replaces the in-memory collection, and touches
    neither the timer table nor the timer ref. *)
Lemma switchBlog_keeps_blogs (r : Render) (blogId : JSString) :
  keeps (fun w => blogs (react w)) (switchBlog r blogId).
Proof.
  unfold switchBlog, saveBeforeSwitching, switchToNew, updateStats.
  keeps_auto; apply saveBlogs_keeps; reflexivity.
Qed.

Lemma switchBlog_keeps_timers (r : Render) (blogId : JSString) :
  keeps (fun w => (timers w, autoSaveTimerRef w)) (switchBlog r blogId).
Proof.
  unfold switchBlog, saveBeforeSwitching, switchToNew, updateStats.
  keeps_auto; apply saveBlogs_keeps; reflexivity.
Qed.

(** The first block of [switchBlog] with an active id and a live editing
    surface: the flush. *)
Lemma saveBeforeSwitching_run (r : Render) (cur content : JSString) (w : World) :
  currentBlogId r = Some cur -> truthy cur = true ->
  rteInstance w = Some content ->
  saveBeforeSwitching r w
    = (Normal tt, afterSave (flushed cur content (clock w) (blogs r)) w).
Proof.
  intros Hcur Ht Hrte.
  unfold saveBeforeSwitching. rewrite Hcur.
  unfold bind at 1. unfold gets at 1. rewrite Hrte, Ht.
  unfold bind at 1. unfold rte_getContent at 1. rewrite Hrte.
  unfold bind at 1. unfold Date_now, gets at 1.
  apply saveBlogs_run.
Qed.

(** Without an active id or without a live editing surface the first
    block does nothing. *)
Lemma saveBeforeSwitching_skip (r : Render) (w : World) :
  truthy_opt (currentBlogId r) = false \/ rteInstance w = None ->
  saveBeforeSwitching r w = (Normal tt, w).
Proof.
  intros H. unfold saveBeforeSwitching, bind, gets.
  destruct (currentBlogId r) as [cur|]; [|reflexivity].
  destruct (rteInstance w); [|reflexivity].
  destruct H as [H|H]; [|discriminate]. cbn in H. now rewrite H.
Qed.

(** The second block when the target id is not in the closure's
    collection. *)
Lemma switchToNew_not_found (r : Render) (blogId : JSString) (w : World) :
  find (fun b => streq (Blog.id b) blogId) (blogs r) = None ->
  switchToNew r blogId w = (Normal tt, w).
Proof.
  intros H. unfold switchToNew. rewrite H. reflexivity.
Qed.

Lemma switchBlog_not_found (r : Render) (blogId cur content : JSString) (w : World) :
  currentBlogId r = Some cur -> truthy cur = true ->
  rteInstance w = Some content ->
  find (fun b => streq (Blog.id b) blogId) (blogs r) = None ->
  switchBlog r blogId w
    = (Normal tt, afterSave (flushed cur content (clock w) (blogs r)) w).
Proof.
  intros Hcur Ht Hrte Hfind.
  unfold switchBlog, bind.
  rewrite (saveBeforeSwitching_run r w Hcur Ht Hrte).
  now apply switchToNew_not_found.
Qed.

(** C10. In every state with an active document and a live editing
    surface, a switch to an id that matches no document of the collection
    returns normally and issues the write of the collection with the
    outgoing document's current editor content and a new [lastSaved] to
    local storage (the store holds it unless it rejects the write); the
    active id, the displayed title, the editing surface, the save-status
    flag, the statistics and the in-memory collection are unchanged. *)
Theorem switchBlog_unknown_id_only_flushes
    (w : World) (blogId cur content : JSString) :
  currentBlogId (react w) = Some cur -> truthy cur = true ->
  rteInstance w = Some content ->
  ~ In blogId (ids w) ->
  let written := flushed cur content (clock w) (blogs (react w)) in
  let w' := exec (click (fun r => switchBlog r blogId)) w in
  fst (click (fun r => switchBlog r blogId) w) = Normal tt /\
  BLOGS (localStorage w')
    = (if quotaExceeded (localStorage w) then BLOGS (localStorage w)
       else Some written) /\
  react w' = react w /\
  rteInstance w' = rteInstance w /\
  CURRENT_BLOG_ID (localStorage w') = CURRENT_BLOG_ID (localStorage w) /\
  currentBlogId (react w') = currentBlogId (react w) /\
  title (react w') = title (react w) /\
  isSaved (react w') = isSaved (react w) /\
  wordCount (react w') = wordCount (react w) /\
  charCount (react w') = charCount (react w).
Proof.
  intros Hcur Ht Hrte Hnot. cbv zeta. unfold exec, click.
  rewrite (switchBlog_not_found (react w) blogId w Hcur Ht Hrte (find_not_In _ _ Hnot)).
  cbn [fst snd]. unfold afterSave.
  destruct (quotaExceeded (localStorage w)); cbn; repeat split.
Qed.

(** The written collection holds the editor's content under the active
    id and every other document as it was. *)
Lemma flushed_lookup (cur content : JSString) (now : Z) (l : list Blog.t) (b : Blog.t) :
  In b (flushed cur content now l) <->
  exists b0, In b0 l /\
    b = (if streq (Blog.id b0) cur
         then Blog.withContent content (toLocaleString now) b0 else b0).
Proof.
  unfold flushed. rewrite in_map_iff. split; intros (b0 & H1 & H2).
  - exists b0. auto.
  - exists b0. auto.
Qed.

Lemma switchBlog_unknown_id_witness :
  BLOGS (localStorage (exec (click (fun r => switchBlog r (lit "9"))) twoDocs))
    = Some [Blog.mk (lit "1") (lit "A") (lit "<p>new A</p>") (toLocaleString 10)
              (toLocaleString 5000) None None;
            demoBlog "2" "B" "<p>old B</p>" 20]
  /\ react (exec (click (fun r => switchBlog r (lit "9"))) twoDocs) = react twoDocs.
Proof.
  destruct (@switchBlog_unknown_id_only_flushes twoDocs (lit "9") (lit "1")
              (lit "<p>new A</p>"))
    as (_ & Hs & Hr & _); try reflexivity.
  - cbn. intros [H|[H|[]]]; discriminate H.
  - split; [exact Hs|exact Hr].
Defined.

(* ===================================================================== *)
(** ** Creating a document *)
(* ===================================================================== *)

Lemma trimStart_nil_iff (s : JSString) :
  trimStart s = [] <-> forallb isWhiteSpace s = true.
Proof.
  induction s as [|c s IH]; simpl; [tauto|].
  destruct (isWhiteSpace c); simpl; [exact IH|].
  split; discriminate.
Qed.

Lemma forallb_rev (s : JSString) :
  forallb isWhiteSpace (rev s) = forallb isWhiteSpace s.
Proof.
  induction s as [|c s IH]; [reflexivity|].
  simpl. rewrite forallb_app, IH. simpl. rewrite andb_true_r. apply andb_comm.
Qed.

Lemma trimEnd_nil_iff (s : JSString) :
  trimEnd s = [] <-> forallb isWhiteSpace s = true.
Proof.
  unfold trimEnd. rewrite <- forallb_rev, <- trimStart_nil_iff.
  split; intros H.
  - apply (f_equal (@rev N)) in H. now rewrite rev_involutive in H.
  - now rewrite H.
Qed.

(** A title is rejected exactly when it is empty or white space only. *)
Lemma trim_nil_iff (s : JSString) :
  trim s = [] <-> forallb isWhiteSpace s = true.
Proof.
  unfold trim. rewrite trimEnd_nil_iff. split; intros H.
  - apply trimStart_nil_iff.
    destruct (trimStart s) as [|c r] eqn:E; [reflexivity|].
    simpl in H. now rewrite (trimStart_head _ E) in H.
  - apply trimStart_nil_iff in H. now rewrite H.
Qed.

Lemma truthy_trim (s : JSString) :
  truthy (trim s) = negb (forallb isWhiteSpace s).
Proof.
  destruct (forallb isWhiteSpace s) eqn:E.
  - apply trim_nil_iff in E. now rewrite E.
  - destruct (trim s) eqn:T; [|reflexivity].
    apply trim_nil_iff in T. congruence.
Qed.

Lemma createNewBlog_blank (r : Render) (w : World) :
  forallb isWhiteSpace (newBlogTitle r) = true ->
  createNewBlog r w = (Normal tt, w).
Proof.
  intros H. unfold createNewBlog. rewrite truthy_trim, H. reflexivity.
Qed.

Lemma createNewBlog_run (r : Render) (w : World) :
  forallb isWhiteSpace (newBlogTitle r) = false ->
  createNewBlog r w =
    (Normal tt,
     exec (setShowNewBlogForm false)
       (exec (setNewBlogTitle [])
          (afterSave (newBlogOf (newBlogTitle r) (clock w) :: blogs r)
             (exec (setTitle (newBlogTitle r))
                (exec (setCurrentBlogId (Some (toString (clock w))))
                   (exec (setBlogs (newBlogOf (newBlogTitle r) (clock w) :: blogs r))
                      w)))))).
Proof.
  intros H. unfold createNewBlog. rewrite truthy_trim, H. cbn [negb].
  unfold bind at 1. unfold Date_now, gets at 1.
  unfold bind at 1. unfold setBlogs at 1, modify at 1.
  unfold bind at 1. unfold setCurrentBlogId at 1, modify at 1.
  unfold bind at 1. unfold setTitle at 1, modify at 1.
  unfold bind at 1. rewrite saveBlogs_run.
  reflexivity.
Qed.

(* ===================================================================== *)
(** ** What a switch leaves in memory *)
(* ===================================================================== *)

(** Whatever the closure and the target, the collection React holds
    after [switchBlog] is the one it held before: the flush is written to
    local storage only. *)
Lemma switchBlog_never_commits (r : Render) (blogId : JSString) (w : World) :
  blogs (react (exec (switchBlog r blogId) w)) = blogs (react w).
Proof. apply (switchBlog_keeps_blogs r blogId w). Qed.

(* ===================================================================== *)
(** ** Deleting a document *)
(* ===================================================================== *)

Lemma deleteBlog_last (r : Render) (blogId : JSString) (w : World) :
  length (blogs r) = 1 ->
  deleteBlog r blogId w = (Normal tt, with_alerts (lastBlogNotice :: alerts w) w).
Proof.
  intros H. unfold deleteBlog. rewrite H. reflexivity.
Qed.

(** The collection React holds after [deleteBlog]. *)
Lemma deleteBlog_blogs (r : Render) (blogId : JSString) (w : World) :
  blogs (react (exec (deleteBlog r blogId) w))
    = if (length (blogs r) =? 1) || negb (confirmAnswer w)
      then blogs (react w) else without blogId (blogs r).
Proof.
  unfold deleteBlog, exec.
  destruct (length (blogs r) =? 1); [reflexivity|].
  cbn [orb]. unfold bind at 1. unfold window_confirm, gets.
  destruct (confirmAnswer w); [|reflexivity].
  cbn [negb]. fold (without blogId (blogs r)).
  unfold bind at 1. unfold setBlogs at 1, modify at 1.
  match goal with
  | |- context [bind ?m ?k ?w1] =>
      assert (K : keeps (fun w => blogs (react w)) (bind m k))
  end.
  { keeps_step; [apply saveBlogs_keeps; reflexivity|].
    destruct (opt_streq (currentBlogId r) blogId); [|apply keeps_ret].
    destruct (without blogId (blogs r)); [apply keeps_throw|].
    apply switchBlog_keeps_blogs. }
  rewrite (K _). reflexivity.
Qed.

Lemma NoDup_without (blogId : JSString) (l : list Blog.t) :
  NoDup (map Blog.id l) -> NoDup (map Blog.id (without blogId l)).
Proof.
  induction l as [|b l IH]; simpl; [auto|].
  intros H. inversion H as [|? ? Hn Hd]; subst.
  destruct (negb (streq (Blog.id b) blogId)); [|now apply IH].
  simpl. constructor; [|now apply IH].
  intros Hin. apply Hn. apply in_map_iff in Hin as (b' & E & Hb').
  apply filter_In in Hb' as [Hb' _]. apply in_map_iff. eauto.
Qed.

Lemma without_absent (blogId : JSString) (l : list Blog.t) :
  ~ In blogId (map Blog.id l) -> without blogId l = l.
Proof.
  induction l as [|b l IH]; simpl; [reflexivity|].
  intros H. destruct (streq (Blog.id b) blogId) eqn:E.
  - apply streq_eq in E. tauto.
  - simpl. f_equal. apply IH. tauto.
Qed.

(** With distinct ids the filter of [deleteBlog] drops at most one document. *)
Lemma without_length (blogId : JSString) (l : list Blog.t) :
  NoDup (map Blog.id l) -> length l <= S (length (without blogId l)).
Proof.
  induction l as [|b l IH]; simpl; [lia|].
  intros H. inversion H as [|? ? Hn Hd]; subst.
  destruct (streq (Blog.id b) blogId) eqn:E; simpl.
  - apply streq_eq in E. subst blogId. rewrite (without_absent _ _ Hn). lia.
  - specialize (IH Hd). lia.
Qed.

Lemma click_deleteBlog_invariant (blogId : JSString) (ok : bool) (w : World) :
  NoDup (ids w) -> blogs (react w) <> [] ->
  NoDup (ids (run_op (Delete blogId ok) w)) /\
  blogs (react (run_op (Delete blogId ok) w)) <> [].
Proof.
  intros Hd Hne. unfold run_op, click, ids.
  change (exec (fun w0 => deleteBlog (react w0) blogId w0) (with_confirmAnswer ok w))
    with (exec (deleteBlog (react w) blogId) (with_confirmAnswer ok w)).
  rewrite deleteBlog_blogs. cbn [confirmAnswer with_confirmAnswer react].
  destruct (length (blogs (react w)) =? 1) eqn:E1; cbn [orb]; [auto|].
  destruct ok; cbn [negb]; [|auto].
  split; [now apply NoDup_without|].
  pose proof (without_length blogId _ Hd) as Hl.
  apply Nat.eqb_neq in E1.
  destruct (blogs (react w)) as [|b l]; [congruence|].
  destruct (without blogId (b :: l)); [|discriminate].
  simpl in Hl, E1. lia.
Qed.

(** C3, as the code has it. Deleting the sole document is a no-op that
    shows the notice and changes nothing else; and from a non-empty
    collection whose ids are pairwise distinct, no sequence of delete
    commands empties the collection. *)
Theorem delete_never_empties_distinct_ids :
  (forall (w : World) (blogId : JSString),
     length (blogs (react w)) = 1 ->
     click (fun r => deleteBlog r blogId) w
       = (Normal tt, with_alerts (lastBlogNotice :: alerts w) w)) /\
  (forall (ds : list (JSString * bool)) (w : World),
     NoDup (ids w) -> blogs (react w) <> [] ->
     blogs (react (run (deletes ds) w)) <> [] /\
     NoDup (ids (run (deletes ds) w))).
Proof.
  split.
  - intros w blogId H. unfold click. now apply deleteBlog_last.
  - induction ds as [|[i ok] ds IH]; intros w Hd Hne; [now split|].
    unfold deletes, run. cbn [map fold_left fst snd].
    destruct (click_deleteBlog_invariant i ok w Hd Hne) as [Hd' Hne'].
    apply (IH _ Hd' Hne').
Qed.

Lemma twoDocs_distinct : NoDup (ids twoDocs).
Proof.
  cbn. constructor; [|constructor; [|constructor]]; cbn.
  - intros [H|[]]. discriminate H.
  - intros [].
Qed.

Lemma delete_never_empties_witness :
  map Blog.id
    (blogs (react (run (deletes [(lit "1", true); (lit "2", true); (lit "2", true)])
                     twoDocs))) <> []
  /\ click (fun r => deleteBlog r (lit "2"))
       (run_op (Delete (lit "1") true) twoDocs)
     = (Normal tt,
        with_alerts [lastBlogNotice] (run_op (Delete (lit "1") true) twoDocs)).
Proof.
  destruct delete_never_empties_distinct_ids as [Hlast Hseq].
  split.
  - destruct (Hseq [(lit "1", true); (lit "2", true); (lit "2", true)] twoDocs
                twoDocs_distinct) as [Hne _].
    + discriminate.
    + intros E. apply Hne. now apply map_eq_nil in E.
  - apply Hlast. reflexivity.
Defined.

(** C3 as stated fails: from the non-empty collection of [sameTick],
    whose two newest documents share the id "5000", two delete commands
    empty the collection; the second removes both documents with that id
    and then throws on [updatedBlogs[0].id]. *)
Lemma delete_empties_with_shared_id :
  map Blog.id (blogs (react sameTick)) = [lit "5000"; lit "5000"; lit "1000"] /\
  blogs (react sameTick) <> [] /\
  blogs (react (run (deletes [(lit "1000", true); (lit "5000", true)]) sameTick)) = [] /\
  fst (click (fun r => deleteBlog r (lit "5000"))
         (run (deletes [(lit "1000", true)]) sameTick)) = Throw TypeError.
Proof.
  repeat split; try (vm_compute; reflexivity).
  vm_compute. discriminate.
Qed.

(* ===================================================================== *)
(** ** Distinct ids *)
(* ===================================================================== *)

Lemma run_op_Create_ids (ti : JSString) (t : Z) (w : World) :
  ids (run_op (Create ti t) w)
    = if forallb isWhiteSpace ti then ids w else toString t :: ids w.
Proof.
  unfold run_op, ids, click, exec.
  set (w0 := snd (setNewBlogTitle ti (with_clock t w))).
  destruct (forallb isWhiteSpace ti) eqn:E.
  - rewrite (createNewBlog_blank (react w0) w0); [reflexivity|exact E].
  - rewrite (createNewBlog_run (react w0) w0); [|exact E].
    unfold afterSave. cbn.
    destruct (quotaExceeded (localStorage w)); reflexivity.
Qed.

(** C4, as the code has it. Along every sequence of create and delete
    commands the ids stay pairwise distinct, provided each create that
    adds a document happens at a clock reading whose decimal text is not
    already the id of a document of the collection. *)
Theorem ids_stay_distinct_when_clock_fresh (ops : list Op) (w : World) :
  NoDup (ids w) -> freshCreates ops w -> NoDup (ids (run ops w)).
Proof.
  revert w. induction ops as [|o ops IH]; intros w Hd Hf; [exact Hd|].
  destruct Hf as [Ho Hrest]. unfold run. cbn [fold_left].
  apply IH; [|exact Hrest].
  destruct o as [ti t|i ok].
  - rewrite run_op_Create_ids.
    destruct (forallb isWhiteSpace ti); [exact Hd|].
    constructor; [now apply Ho|exact Hd].
  - destruct (blogs (react w)) as [|b l] eqn:E.
    + unfold run_op, click, ids.
      change (exec (fun w0 => deleteBlog (react w0) i w0) (with_confirmAnswer ok w))
        with (exec (deleteBlog (react w) i) (with_confirmAnswer ok w)).
      rewrite deleteBlog_blogs. cbn [react with_confirmAnswer]. rewrite E.
      destruct (_ || _); cbn; constructor.
    + apply click_deleteBlog_invariant; [exact Hd|congruence].
Qed.

Lemma ids_stay_distinct_witness :
  NoDup (ids (run [Create (lit "A") 5000; Delete (lit "1000") true;
                   Create (lit "B") 6000]
                (mount (mkStorage None None false) 1000))).
Proof.
  apply ids_stay_distinct_when_clock_fresh.
  - cbn. constructor; [intros []|constructor].
  - cbn. repeat split; intros _ H; vm_compute in H;
      repeat (destruct H as [H|H]; [discriminate H|]); exact H.
Defined.

(** C4 as stated fails: two creates at the same clock reading give two
    documents the same id. *)
Lemma same_tick_creates_share_id :
  NoDup (ids (mount (mkStorage None None false) 1000)) /\
  ~ NoDup (ids (run [Create (lit "A") 5000; Create (lit "B") 5000]
                  (mount (mkStorage None None false) 1000))).
Proof.
  split.
  - cbn. constructor; [intros []|constructor].
  - intros H. vm_compute in H. inversion H as [|? ? Hn _]; subst.
    apply Hn. left. reflexivity.
Qed.

(* ===================================================================== *)
(** ** The autosave timer *)
(* ===================================================================== *)

(** The listener is registered once, by the mount effect, which runs
    with the closure of the first render: [blogs] is [[]] and
    [currentBlogId] is [null] there, so the callback finds no
    [currentId] and commits nothing. *)
Lemma autoSaveCallback_first_render (w : World) :
  rteInstance w <> None -> autoSaveCallback initialRender w = (Normal tt, w).
Proof.
  intros H. unfold autoSaveCallback, bind, rte_getContent.
  destruct (rteInstance w); [reflexivity|congruence].
Qed.

Lemma mount_sessionInv (store : Storage) (t0 : Z) : sessionInv (mount store t0).
Proof.
  assert (H : listener (mount store t0) = Some initialRender /\
              rteInstance (mount store t0) <> None /\
              nextTimerId (mount store t0) = 1%N /\
              timers (mount store t0) = []).
  { unfold mount, mountEffect, loadBlogs, exec.
    destruct store as [[l|] cid q];
      unfold bind, try_catch, gets, ret, setBlogs, setCurrentBlogId, setTitle,
        setLastSaved, updateStats, setWordCount, setCharCount, new_RTE,
        rte_setContent, saveBlogs, try_catch, localStorage_setItem_BLOGS,
        console_error, Date_now, gets, modify, bind;
      cbn;
      repeat match goal with
             | |- context [find ?f ?l] => destruct (find f l); cbn
             | |- context [truthy_opt ?c] => destruct (truthy_opt c); cbn
             | |- context [match ?x with _ :: _ => _ | [] => _ end] =>
                 is_var x; destruct x; cbn
             | |- context [if ?b then _ else _] => is_var b; destruct b; cbn
             end;
      repeat split; discriminate. }
  destruct H as (H1 & H2 & H3 & H4).
  repeat split; auto; rewrite ?H3, ?H4 in *; try discriminate; contradiction.
Qed.

Lemma advanceTo_sessionInv (t : Z) (w : World) :
  sessionInv w ->
  advanceTo t w
    = with_clock t
        (with_timers (filter (fun tm => negb (due tm <=? t)%Z) (timers w))
           (nextTimerId w) w).
Proof.
  intros (Hl & Hr & Hn & Ht). unfold advanceTo.
  set (w1 := with_timers _ (nextTimerId w) w).
  assert (Hr1 : rteInstance w1 <> None) by exact Hr.
  assert (Hd : forall tm, In tm (filter (fun tm => (due tm <=? t)%Z) (timers w)) ->
                          closure tm = initialRender).
  { intros tm Hin. apply filter_In in Hin as [Hin _]. now apply Ht. }
  revert Hd. generalize (filter (fun tm => (due tm <=? t)%Z) (timers w)) as l.
  revert Hr1. generalize w1. clear.
  intros w1 Hr1 l. revert w1 Hr1.
  induction l as [|tm l IH]; intros w1 Hr1 Hd; [reflexivity|].
  cbn [fold_left]. rewrite (Hd tm (or_introl eq_refl)).
  unfold exec. rewrite autoSaveCallback_first_render by exact Hr1. cbn [snd].
  rewrite IH; [reflexivity|exact Hr1|].
  intros tm' H'. apply Hd. now right.
Qed.

Lemma filter_all_same_id (i : N) (l : list Timer) :
  (forall tm, In tm l -> timerId tm = i) ->
  filter (fun tm => negb (timerId tm =? i)%N) l = [].
Proof.
  induction l as [|tm l IH]; intros H; [reflexivity|].
  cbn [filter]. rewrite (H tm (or_introl eq_refl)), N.eqb_refl. cbn [negb].
  apply IH. intros tm' H'. apply H. now right.
Qed.

Lemma handleContentChange_run (r : Render) (w : World) :
  handleContentChange r w
    = (Normal tt,
       with_autoSaveTimerRef (Some (nextTimerId w))
         (with_timers
            (cancelled (autoSaveTimerRef w) (timers w)
               ++ [mkTimer (nextTimerId w) (clock w + AUTO_SAVE_INTERVAL) r])
            (N.succ (nextTimerId w))
            (exec (setIsSaved false) w))).
Proof.
  unfold handleContentChange, cancelled, setIsSaved, setTimeout, clearTimeout,
    exec, bind, modify, gets, ret.
  cbn. destruct (autoSaveTimerRef w) as [i|]; [|reflexivity].
  destruct (truthy_timer (Some i)); reflexivity.
Qed.

(** One change signal in a mounted session: the status turns to "not
    saved", whatever timer was armed is cancelled, and exactly one timer
    is armed, due a full quiet period after the signal; the collection,
    in memory and in local storage, is untouched. *)
Lemma userTypes_sessionInv (t : Z) (c : JSString) (w : World) :
  sessionInv w ->
  let w' := userTypes t c w in
  sessionInv w' /\
  timers w' = [mkTimer (nextTimerId w) (t + AUTO_SAVE_INTERVAL) initialRender] /\
  autoSaveTimerRef w' = Some (nextTimerId w) /\
  blogs (react w') = blogs (react w) /\
  localStorage w' = localStorage w /\
  isSaved (react w') = false /\
  rteInstance w' = Some c.
Proof.
  intros Hinv. pose proof Hinv as (Hl & Hr & Hn & Ht). cbv zeta.
  set (later := filter (fun tm => negb (due tm <=? t)%Z) (timers w)).
  assert (E : userTypes t c w
              = with_autoSaveTimerRef (Some (nextTimerId w))
                  (with_timers
                     [mkTimer (nextTimerId w) (t + AUTO_SAVE_INTERVAL) initialRender]
                     (N.succ (nextTimerId w))
                     (exec (setIsSaved false)
                        (with_rteInstance (Some c)
                           (with_clock t (with_timers later (nextTimerId w) w)))))).
  { unfold userTypes. rewrite (advanceTo_sessionInv t Hinv). fold later.
    assert (Hlater : forall tm, In tm later -> In tm (timers w)).
    { intros tm H. now apply filter_In in H as [H _]. }
    cbn [rteInstance with_clock with_timers].
    destruct (rteInstance w) as [c0|] eqn:Er; [clear Hr|congruence].
    unfold inputEvent, exec at 1.
    cbn [listener with_rteInstance with_clock with_timers].
    rewrite Hl, handleContentChange_run. cbn [snd].
    cbn [autoSaveTimerRef timers nextTimerId clock with_rteInstance with_clock
         with_timers].
    assert (Hcancel : cancelled (autoSaveTimerRef w) later = []).
    { destruct later as [|tm0 later0] eqn:El.
      - unfold cancelled.
        destruct (autoSaveTimerRef w); [destruct (truthy_timer _)|]; reflexivity.
      - destruct (Ht tm0 (Hlater tm0 (or_introl eq_refl))) as (_ & Href & Hnz).
        rewrite Href. unfold cancelled, truthy_timer.
        apply N.eqb_neq in Hnz. rewrite Hnz. cbn [negb].
        apply filter_all_same_id.
        intros tm Hin. destruct (Ht tm (Hlater tm Hin)) as (_ & Href' & _).
        congruence. }
    rewrite Hcancel. reflexivity. }
  rewrite E. unfold sessionInv. cbn.
  split; [|repeat split].
  split; [exact Hl|]. split; [discriminate|]. split; [apply N.neq_succ_0|].
  intros tm [<-|[]]. cbn. repeat split; auto.
Qed.

(* ===================================================================== *)
(** ** Switch, unmount and the pending timer *)
(* ===================================================================== *)

(** What [switchBlog] leaves under the [BLOGS] key. *)
Lemma switchBlog_storage (r : Render) (blogId : JSString) (w : World) :
  BLOGS (localStorage (exec (switchBlog r blogId) w))
    = match currentBlogId r, rteInstance w with
      | Some cur, Some content =>
          if truthy cur && negb (quotaExceeded (localStorage w))
          then Some (flushed cur content (clock w) (blogs r))
          else BLOGS (localStorage w)
      | _, _ => BLOGS (localStorage w)
      end.
Proof.
  assert (K : keeps (fun w => BLOGS (localStorage w)) (switchToNew r blogId)).
  { unfold switchToNew, updateStats. keeps_auto. }
  unfold switchBlog, exec, bind.
  destruct (currentBlogId r) as [cur|] eqn:Ec.
  2:{ rewrite saveBeforeSwitching_skip by (left; now rewrite Ec). apply K. }
  destruct (rteInstance w) as [content|] eqn:Er.
  2:{ rewrite saveBeforeSwitching_skip by (now right). apply K. }
  destruct (truthy cur) eqn:Et.
  2:{ rewrite saveBeforeSwitching_skip by (left; now rewrite Ec). apply K. }
  rewrite (saveBeforeSwitching_run r w Ec Et Er). rewrite K.
  unfold afterSave. destruct (quotaExceeded (localStorage w)); reflexivity.
Qed.

Lemma cleanup_run (editorRefCurrent : bool) (w : World) :
  cleanup editorRefCurrent w
    = (Normal tt,
       with_timers (cancelled (autoSaveTimerRef w) (timers w)) (nextTimerId w)
         (with_listener (if editorRefCurrent then None else listener w) w)).
Proof.
  unfold cleanup, cancelled, clearTimeout, bind, modify, gets, ret.
  destruct editorRefCurrent; cbn;
    (destruct (autoSaveTimerRef w) as [i|]; [|now destruct w]);
    (destruct (truthy_timer (Some i)); [reflexivity|now destruct w]).
Qed.

(** C6, as the code has it. A switch flushes the editing surface's
    content to local storage at once (when there is an active id and a
    live editing surface, and the store takes the write) and leaves the
    timer table and the timer ref as they are, so a pending timer stays
    armed; the unmount cleanup cancels the timer the ref holds and
    flushes nothing: the state React holds, local storage and the editing
    surface are unchanged (and the listener is removed when
    [editorRef.current] is still set). *)
Theorem switch_keeps_timer_cleanup_cancels :
  (forall (r : Render) (blogId : JSString) (w : World),
     let w' := exec (switchBlog r blogId) w in
     timers w' = timers w /\
     autoSaveTimerRef w' = autoSaveTimerRef w /\
     BLOGS (localStorage w')
       = match currentBlogId r, rteInstance w with
         | Some cur, Some content =>
             if truthy cur && negb (quotaExceeded (localStorage w))
             then Some (flushed cur content (clock w) (blogs r))
             else BLOGS (localStorage w)
         | _, _ => BLOGS (localStorage w)
         end) /\
  (forall (editorRefCurrent : bool) (w : World),
     let w' := exec (cleanup editorRefCurrent) w in
     timers w' = cancelled (autoSaveTimerRef w) (timers w) /\
     react w' = react w /\
     localStorage w' = localStorage w /\
     rteInstance w' = rteInstance w /\
     listener w' = (if editorRefCurrent then None else listener w)) /\
  (forall (i : N) (l : list Timer) (tm : Timer),
     i <> 0%N -> timerId tm = i -> ~ In tm (cancelled (Some i) l)).
Proof.
  split; [|split].
  - intros r blogId w. cbv zeta.
    pose proof (switchBlog_keeps_timers r blogId w) as H.
    unfold exec. injection H as H1 H2.
    repeat split; auto. apply switchBlog_storage.
  - intros editorRefCurrent w. cbv zeta. unfold exec. rewrite cleanup_run. cbn.
    repeat split.
  - intros i l tm Hi Hid Hin. unfold cancelled, truthy_timer in Hin.
    apply N.eqb_neq in Hi. rewrite Hi in Hin. cbn [negb] in Hin.
    apply filter_In in Hin as [_ Hin]. rewrite Hid, N.eqb_refl in Hin. discriminate.
Qed.

Lemma switch_keeps_timer_witness :
  ~ In (mkTimer 2 9000 initialRender)
       (cancelled (Some 2%N) (timers pendingSave)).
Proof.
  destruct switch_keeps_timer_cleanup_cancels as (_ & _ & H).
  apply H; [discriminate|reflexivity].
Defined.

(** C6 as stated fails: with a timer pending, a switch leaves it armed,
    and it fires after the switch's flush. *)
Lemma switch_leaves_pending_timer_armed :
  let s := exec (click (fun r => switchBlog r (lit "2"))) pendingSave in
  timers pendingSave = [mkTimer 2 9000 initialRender] /\
  autoSaveTimerRef pendingSave = Some 2%N /\
  currentBlogId (react s) = Some (lit "2") /\
  option_map (contentOf (lit "1")) (BLOGS (localStorage s))
    = Some (Some (lit "<p>newer A</p>")) /\
  timers s = [mkTimer 2 9000 initialRender] /\
  timers (advanceTo 9000 s) = [].
Proof. cbv zeta. repeat split; vm_compute; reflexivity. Qed.

(* ===================================================================== *)
(** ** [saveCurrentBlog] *)
(* ===================================================================== *)

Lemma saveCurrentBlog_run (r : Render) (cur content blogTitle : JSString) (w : World) :
  currentBlogId r = Some cur -> truthy cur = true ->
  saveCurrentBlog r content blogTitle w
    = (Normal tt,
       exec (setIsSaved true)
         (exec (setLastSaved (Some (toLocaleTimeString (clock w))))
            (afterSave (savedWith cur content blogTitle (clock w) (blogs r))
               (exec (setBlogs (savedWith cur content blogTitle (clock w) (blogs r)))
                  w)))).
Proof.
  intros Hcur Ht. unfold saveCurrentBlog. rewrite Hcur, Ht. cbn [negb].
  unfold try_catch.
  unfold bind at 1. unfold Date_now, gets at 1.
  unfold bind at 1. unfold setBlogs at 1, modify at 1.
  unfold bind at 1. rewrite saveBlogs_run.
  reflexivity.
Qed.

(* ===================================================================== *)
(** ** Loading the stored session *)
(* ===================================================================== *)

Ltac unfold_handlers :=
  unfold bind, try_catch, gets, ret, throw, setBlogs, setCurrentBlogId, setTitle,
    setIsSaved, setLastSaved, updateStats, setWordCount, setCharCount,
    setShowNewBlogForm, setNewBlogTitle, new_RTE, rte_getContent,
    rte_setContent, saveBlogs, try_catch, localStorage_setItem_BLOGS,
    localStorage_setItem_CURRENT_BLOG_ID, console_error, console_log,
    Date_now, gets, modify, bind.

Lemma find_streq_some (i : JSString) (l : list Blog.t) (b : Blog.t) :
  find (fun b => streq (Blog.id b) i) l = Some b -> In b l /\ Blog.id b = i.
Proof.
  intros H. apply find_some in H as [H1 H2]. split; [exact H1|].
  now apply streq_eq.
Qed.

Lemma find_opt_streq (c : JSString) (l : list Blog.t) :
  find (fun b => opt_streq (Some c) (Blog.id b)) l
    = find (fun b => streq (Blog.id b) c) l.
Proof.
  induction l as [|b l IH]; [reflexivity|]. cbn [find opt_streq].
  assert (E : streq c (Blog.id b) = streq (Blog.id b) c).
  { destruct (streq (Blog.id b) c) eqn:E1.
    - apply streq_eq in E1. rewrite E1. apply streq_refl.
    - apply streq_neq. apply streq_neq in E1. congruence. }
  rewrite E. destruct (streq (Blog.id b) c); [reflexivity|exact IH].
Qed.

(** What [loadBlogs] returns and sets, by what local storage holds. *)
Lemma loadBlogs_absent (w : World) :
  BLOGS (localStorage w) = None -> loadBlogs w = (Normal None, w).
Proof.
  intros H. unfold loadBlogs. unfold_handlers. cbn. now rewrite H.
Qed.

Lemma loadBlogs_pointer (w : World) (l : list Blog.t) (c : JSString) (b : Blog.t) :
  BLOGS (localStorage w) = Some l ->
  CURRENT_BLOG_ID (localStorage w) = Some c -> truthy c = true ->
  find (fun b => streq (Blog.id b) c) l = Some b ->
  loadBlogs w
    = (Normal (Some b), exec (setCurrentBlogId (Some c)) (exec (setBlogs l) w)).
Proof.
  intros Hl Hc Ht Hf. unfold loadBlogs. unfold_handlers. cbn.
  rewrite Hl, Hc. cbn [truthy_opt]. rewrite Ht, find_opt_streq, Hf. reflexivity.
Qed.

Lemma loadBlogs_first (w : World) (b0 : Blog.t) (l : list Blog.t) :
  BLOGS (localStorage w) = Some (b0 :: l) ->
  (truthy_opt (CURRENT_BLOG_ID (localStorage w)) = false \/
   exists c, CURRENT_BLOG_ID (localStorage w) = Some c /\
             ~ In c (map Blog.id (b0 :: l))) ->
  loadBlogs w
    = (Normal (Some b0),
       exec (setCurrentBlogId (Some (Blog.id b0))) (exec (setBlogs (b0 :: l)) w)).
Proof.
  intros Hl Hc. unfold loadBlogs. unfold_handlers. cbn. rewrite Hl.
  destruct Hc as [Hc|(c & Hc & Hn)].
  - rewrite Hc. reflexivity.
  - rewrite Hc. destruct (truthy_opt (Some c)); [|reflexivity].
    rewrite find_opt_streq, (find_not_In _ _ Hn). reflexivity.
Qed.

Lemma loadBlogs_empty (w : World) :
  BLOGS (localStorage w) = Some [] ->
  loadBlogs w = (Normal None, exec (setBlogs []) w).
Proof.
  intros Hl. unfold loadBlogs. unfold_handlers. cbn. rewrite Hl.
  destruct (truthy_opt (CURRENT_BLOG_ID (localStorage w))); reflexivity.
Qed.

(** X2. The missing-reference policy of [loadBlogs]: when the stored
    active id is absent, empty, or the id of no stored document, the
    first stored document becomes the active one; when it is the id of a
    stored document, the first document with that id is returned and the
    id is kept. *)
Theorem loadBlogs_active_id_policy (w : World) (b0 : Blog.t) (l : list Blog.t) :
  BLOGS (localStorage w) = Some (b0 :: l) ->
  let w' := exec loadBlogs w in
  match CURRENT_BLOG_ID (localStorage w) with
  | Some c =>
      if truthy c && existsb (fun b => streq (Blog.id b) c) (b0 :: l)
      then currentBlogId (react w') = Some c /\
           fst (loadBlogs w)
             = Normal (find (fun b => streq (Blog.id b) c) (b0 :: l))
      else currentBlogId (react w') = Some (Blog.id b0) /\
           fst (loadBlogs w) = Normal (Some b0)
  | None =>
      currentBlogId (react w') = Some (Blog.id b0) /\
      fst (loadBlogs w) = Normal (Some b0)
  end.
Proof.
  intros Hl. cbv zeta. unfold exec.
  destruct (CURRENT_BLOG_ID (localStorage w)) as [c|] eqn:Hc.
  2:{ rewrite (loadBlogs_first w Hl) by (left; now rewrite Hc). now cbn. }
  destruct (truthy c) eqn:Ht; cbn [andb].
  2:{ rewrite (loadBlogs_first w Hl) by (left; rewrite Hc; exact Ht). now cbn. }
  destruct (find (fun b => streq (Blog.id b) c) (b0 :: l)) as [b|] eqn:Hf.
  - assert (He : existsb (fun b => streq (Blog.id b) c) (b0 :: l) = true).
    { apply existsb_exists. exists b. apply find_some in Hf. exact Hf. }
    rewrite He, (loadBlogs_pointer w Hl Hc Ht Hf). now cbn.
  - assert (He : existsb (fun b => streq (Blog.id b) c) (b0 :: l) = false).
    { destruct (existsb _ (b0 :: l)) eqn:E; [|reflexivity].
      apply existsb_exists in E as (b & Hin & Hb).
      apply (find_none _ _ Hf) in Hin. cbv beta in Hin. congruence. }
    assert (Hn : ~ In c (map Blog.id (b0 :: l))).
    { intros Hin. apply in_map_iff in Hin as (b & Hb & Hin).
      apply (find_none _ _ Hf) in Hin. cbv beta in Hin.
      rewrite Hb, streq_refl in Hin. discriminate. }
    rewrite He, (loadBlogs_first w Hl) by (right; exists c; auto). now cbn.
Qed.

Lemma loadBlogs_active_id_policy_witness :
  currentBlogId
    (react (exec loadBlogs
              (initialWorld
                 (mkStorage (BLOGS storedDocs) (Some (lit "7")) false) 1000)))
  = Some (lit "1").
Proof.
  pose proof (@loadBlogs_active_id_policy
                (initialWorld (mkStorage (BLOGS storedDocs) (Some (lit "7")) false) 1000)
                (demoBlog "1" "A" "<p>old A</p>" 10)
                [demoBlog "2" "B" "<p>old B</p>" 20] eq_refl) as H.
  exact (proj1 H).
Defined.

(** The counters [updateStats] sets, in the specification's wording. *)
Lemma updateStats_run (content : JSString) (w : World) :
  updateStats content w
    = (Normal tt,
       exec (setCharCount (length (trim (replaceTags content))))
         (exec (setWordCount (whitespaceSeparatedRuns (trim (replaceTags content))))
            w)).
Proof.
  unfold updateStats.
  assert (E : (if 0 <? length (trim (replaceTags content))
               then length (splitWhiteSpace (trim (replaceTags content)))
               else 0)
              = whitespaceSeparatedRuns (trim (replaceTags content))).
  { destruct (trim_shape (replaceTags content)) as [E | (c & r & E & Hc & Hl)];
      rewrite E; [reflexivity|].
    cbn [length Nat.ltb Nat.leb]. now apply split_trimmed. }
  rewrite E. reflexivity.
Qed.

(** The seed document of the first run. *)
Lemma mount_seed_run (store : Storage) (t0 : Z) :
  BLOGS store = None \/ BLOGS store = Some [] ->
  let seed := Blog.mk (toString t0) (lit "Welcome") welcomeContent
                (toLocaleString t0) (toLocaleString t0) None None in
  let m := mount store t0 in
  blogs (react m) = [seed] /\
  currentBlogId (react m) = Some (toString t0) /\
  title (react m) = lit "Welcome" /\
  rteInstance m = Some welcomeContent /\
  BLOGS (localStorage m)
    = (if quotaExceeded store then BLOGS store else Some [seed]) /\
  CURRENT_BLOG_ID (localStorage m) = CURRENT_BLOG_ID store /\
  wordCount (react m) = 0 /\ charCount (react m) = 0 /\
  lastSaved (react m) = None /\ isSaved (react m) = true.
Proof.
  intros H. cbv zeta. destruct store as [bl cid q]. cbn [BLOGS] in H.
  unfold mount, mountEffect, loadBlogs, exec. unfold_handlers.
  destruct H as [-> | ->]; cbn;
    destruct (truthy_opt cid); destruct q; cbn; repeat split.
Qed.

Lemma loadBlogs_stored (w : World) (b0 : Blog.t) (l : list Blog.t) :
  BLOGS (localStorage w) = Some (b0 :: l) ->
  exists b, In b (b0 :: l) /\
    loadBlogs w
      = (Normal (Some b),
         exec (setCurrentBlogId (Some (Blog.id b))) (exec (setBlogs (b0 :: l)) w)).
Proof.
  intros Hl.
  assert (Hfirst : truthy_opt (CURRENT_BLOG_ID (localStorage w)) = false \/
                   (exists c, CURRENT_BLOG_ID (localStorage w) = Some c /\
                              ~ In c (map Blog.id (b0 :: l))) ->
                   exists b, In b (b0 :: l) /\
                     loadBlogs w
                       = (Normal (Some b),
                          exec (setCurrentBlogId (Some (Blog.id b)))
                            (exec (setBlogs (b0 :: l)) w))).
  { intros H. exists b0. split; [now left|]. now apply loadBlogs_first. }
  destruct (CURRENT_BLOG_ID (localStorage w)) as [c|] eqn:Hc; [|apply Hfirst; now left].
  destruct (truthy c) eqn:Ht; [|apply Hfirst; now left].
  destruct (find (fun b => streq (Blog.id b) c) (b0 :: l)) as [b|] eqn:Hf.
  - destruct (find_streq_some _ _ Hf) as [Hin Hid].
    exists b. split; [exact Hin|]. rewrite Hid. now apply loadBlogs_pointer.
  - apply Hfirst. right. exists c. split; [reflexivity|].
    intros Hin. apply in_map_iff in Hin as (b & Hb & Hin).
    apply (find_none _ _ Hf) in Hin. cbv beta in Hin.
    rewrite Hb, streq_refl in Hin. discriminate.
Qed.

Lemma mountEffect_loaded (r : Render) (w w1 : World) (b : Blog.t) :
  loadBlogs w = (Normal (Some b), w1) -> rteInstance w1 = None ->
  mountEffect r w
    = (Normal tt,
       with_listener (Some r)
         (exec (updateStats (Blog.content b))
            (exec (setLastSaved (Some (Blog.lastSaved b)))
               (with_rteInstance (Some (Blog.content b))
                  (exec (setTitle (Blog.title b))
                     (with_rteInstance (Some []) w1)))))).
Proof.
  intros Hload Hrte. unfold mountEffect.
  unfold bind at 1. rewrite Hload.
  unfold bind at 1. unfold gets at 1. rewrite Hrte.
  unfold bind at 1. unfold new_RTE at 1, modify at 1.
  unfold bind at 1. unfold bind at 1. unfold setTitle at 1, modify at 1.
  unfold bind at 1. unfold rte_setContent at 1. cbn [rteInstance with_rteInstance with_react].
  unfold bind at 1. unfold setLastSaved at 1, modify at 1.
  unfold exec. rewrite !updateStats_run. reflexivity.
Qed.

(** X3. Mounting on a store that holds a non-empty collection restores
    that collection unchanged and writes nothing to local storage; the
    document [loadBlogs] selects is active, its title is displayed, its
    content is in the editing surface, and the counters and the
    last-saved display are those of its stored content. *)
Theorem mount_restores_stored_collection
    (store : Storage) (t0 : Z) (b0 : Blog.t) (l : list Blog.t) :
  BLOGS store = Some (b0 :: l) ->
  let m := mount store t0 in
  exists b,
    fst (loadBlogs (initialWorld store t0)) = Normal (Some b) /\
    In b (b0 :: l) /\
    blogs (react m) = b0 :: l /\
    localStorage m = store /\
    currentBlogId (react m) = Some (Blog.id b) /\
    title (react m) = Blog.title b /\
    rteInstance m = Some (Blog.content b) /\
    lastSaved (react m) = Some (Blog.lastSaved b) /\
    wordCount (react m)
      = whitespaceSeparatedRuns (trim (replaceTags (Blog.content b))) /\
    charCount (react m) = length (trim (replaceTags (Blog.content b))) /\
    isSaved (react m) = true.
Proof.
  intros Hl. cbv zeta.
  destruct (@loadBlogs_stored (initialWorld store t0) b0 l Hl) as (b & Hin & Hload).
  exists b. unfold mount, exec.
  rewrite (mountEffect_loaded initialRender _ Hload eq_refl), Hload.
  unfold exec. rewrite updateStats_run.
  cbn. repeat split. exact Hin.
Qed.

Lemma mount_restores_witness :
  blogs (react (mount storedDocs 1000))
    = [demoBlog "1" "A" "<p>old A</p>" 10; demoBlog "2" "B" "<p>old B</p>" 20]
  /\ localStorage (mount storedDocs 1000) = storedDocs.
Proof.
  destruct (@mount_restores_stored_collection storedDocs 1000
              (demoBlog "1" "A" "<p>old A</p>" 10)
              [demoBlog "2" "B" "<p>old B</p>" 20] eq_refl)
    as (b & _ & _ & Hb & Hs & _).
  split; [exact Hb|exact Hs].
Defined.

(** X4. On a first run (nothing stored, or an empty stored collection)
    the mount effect synthesizes one document: its id is the decimal text
    of the clock reading, it is the whole collection, it is active and
    shown, and it is written to local storage unless the store rejects
    the write. The active-id key is not written, and the counters stay at
    zero: [updateStats] is not called on this path. *)
Theorem mount_seeds_first_run (store : Storage) (t0 : Z) :
  BLOGS store = None \/ BLOGS store = Some [] ->
  let seed := Blog.mk (toString t0) (lit "Welcome") welcomeContent
                (toLocaleString t0) (toLocaleString t0) None None in
  let m := mount store t0 in
  blogs (react m) = [seed] /\
  currentBlogId (react m) = Some (toString t0) /\
  title (react m) = lit "Welcome" /\
  rteInstance m = Some welcomeContent /\
  BLOGS (localStorage m)
    = (if quotaExceeded store then BLOGS store else Some [seed]) /\
  CURRENT_BLOG_ID (localStorage m) = CURRENT_BLOG_ID store /\
  wordCount (react m) = 0 /\ charCount (react m) = 0 /\
  lastSaved (react m) = None.
Proof.
  intros H. destruct (mount_seed_run store t0 H) as (H1&H2&H3&H4&H5&H6&H7&H8&H9&_).
  cbv zeta. repeat split; assumption.
Qed.

Lemma mount_seeds_witness :
  map Blog.id (blogs (react (mount (mkStorage (Some []) None false) 1000)))
    = [lit "1000"].
Proof.
  destruct (@mount_seeds_first_run (mkStorage (Some []) None false) 1000)
    as (H & _); [now right|].
  rewrite H. reflexivity.
Defined.


(* ===================================================================== *)
(** ** Switching to a document of the collection *)
(* ===================================================================== *)

Lemma saveBeforeSwitching_cases (r : Render) (w : World) :
  saveBeforeSwitching r w = (Normal tt, w) \/
  exists l, saveBeforeSwitching r w = (Normal tt, afterSave l w).
Proof.
  destruct (currentBlogId r) as [cur|] eqn:Ec.
  2:{ left. apply saveBeforeSwitching_skip. left. now rewrite Ec. }
  destruct (rteInstance w) as [content|] eqn:Er.
  2:{ left. apply saveBeforeSwitching_skip. now right. }
  destruct (truthy cur) eqn:Et.
  2:{ left. apply saveBeforeSwitching_skip. left. now rewrite Ec. }
  right. eexists. exact (saveBeforeSwitching_run r w Ec Et Er).
Qed.

Lemma afterSave_storage_frame (l : list Blog.t) (w : World) :
  quotaExceeded (localStorage (afterSave l w)) = quotaExceeded (localStorage w) /\
  CURRENT_BLOG_ID (localStorage (afterSave l w)) = CURRENT_BLOG_ID (localStorage w) /\
  listener (afterSave l w) = listener w.
Proof.
  unfold afterSave. destruct (quotaExceeded (localStorage w)) eqn:E; cbn; auto.
Qed.

Lemma words_of_trimmed (content : JSString) :
  (if 0 <? length (trim (replaceTags content))
   then length (splitWhiteSpace (trim (replaceTags content)))
   else 0)
  = whitespaceSeparatedRuns (trim (replaceTags content)).
Proof.
  destruct (trim_shape (replaceTags content)) as [E | (c & r & E & Hc & Hl)];
    rewrite E; [reflexivity|].
  cbn [length Nat.ltb Nat.leb]. now apply split_trimmed.
Qed.

(** The second block of [switchBlog] when the target is found, the
    editing surface is live and the store takes the write. *)
Lemma switchToNew_run (r : Render) (blogId c0 : JSString) (blog : Blog.t) (w : World) :
  find (fun b => streq (Blog.id b) blogId) (blogs r) = Some blog ->
  rteInstance w = Some c0 ->
  quotaExceeded (localStorage w) = false ->
  switchToNew r blogId w
    = (Normal tt,
       mkWorld
         (mkRender (blogs (react w)) (Some blogId) (Blog.title blog) true
            (Some (Blog.lastSaved blog))
            (whitespaceSeparatedRuns (trim (replaceTags (Blog.content blog))))
            (length (trim (replaceTags (Blog.content blog))))
            (showNewBlogForm (react w)) (newBlogTitle (react w)))
         (Some (Blog.content blog)) (autoSaveTimerRef w) (listener w) (timers w)
         (nextTimerId w) (clock w)
         (mkStorage (BLOGS (localStorage w)) (Some blogId) false)
         (confirmAnswer w) (alerts w)
         (console_log_entry "Switched to blog:" :: console w)).
Proof.
  intros Hf Hr Hq. unfold switchToNew. rewrite Hf.
  destruct w as [rs rte ref lst tms nxt clk [bl cid q] ca al co].
  cbn in Hr, Hq. subst rte q.
  unfold_handlers.
  cbn -[trim replaceTags splitWhiteSpace whitespaceSeparatedRuns Nat.ltb length].
  now rewrite words_of_trimmed.
Qed.

(** The second block when the store rejects the write of the active-id
    key: the exception of [localStorage.setItem] is not caught. *)
Lemma switchToNew_quota (r : Render) (blogId c0 : JSString) (blog : Blog.t) (w : World) :
  find (fun b => streq (Blog.id b) blogId) (blogs r) = Some blog ->
  rteInstance w = Some c0 ->
  quotaExceeded (localStorage w) = true ->
  switchToNew r blogId w
    = (Throw QuotaExceededError, exec (setCurrentBlogId (Some blogId)) w).
Proof.
  intros Hf Hr Hq. unfold switchToNew. rewrite Hf.
  unfold bind at 1. unfold gets at 1. rewrite Hr.
  unfold bind at 1. unfold setCurrentBlogId at 1, modify at 1.
  unfold bind at 1. unfold localStorage_setItem_CURRENT_BLOG_ID at 1.
  cbn [localStorage with_react]. rewrite Hq. reflexivity.
Qed.

(** X6. A click on a document of the collection, with a live editing
    surface and a store that takes writes: the switch returns normally,
    the target becomes the active id in memory and under the active-id
    key, its title is displayed, the editing surface holds its stored
    content (that of the first document with that id), the counters are
    those of that content, the last-saved display is the document's and
    the status is "saved"; the collection in memory is unchanged. *)
Theorem switchBlog_loads_the_target
    (w : World) (blogId c0 : JSString) (blog : Blog.t) :
  rteInstance w = Some c0 ->
  find (fun b => streq (Blog.id b) blogId) (blogs (react w)) = Some blog ->
  quotaExceeded (localStorage w) = false ->
  let w' := exec (click (fun r => switchBlog r blogId)) w in
  fst (click (fun r => switchBlog r blogId) w) = Normal tt /\
  In blog (blogs (react w)) /\ Blog.id blog = blogId /\
  currentBlogId (react w') = Some blogId /\
  CURRENT_BLOG_ID (localStorage w') = Some blogId /\
  title (react w') = Blog.title blog /\
  rteInstance w' = Some (Blog.content blog) /\
  wordCount (react w')
    = whitespaceSeparatedRuns (trim (replaceTags (Blog.content blog))) /\
  charCount (react w') = length (trim (replaceTags (Blog.content blog))) /\
  lastSaved (react w') = Some (Blog.lastSaved blog) /\
  isSaved (react w') = true /\
  blogs (react w') = blogs (react w).
Proof.
  intros Hr Hf Hq. cbv zeta.
  destruct (find_streq_some _ _ Hf) as [Hin Hid].
  unfold exec, click, switchBlog, bind.
  destruct (saveBeforeSwitching_cases (react w) w) as [E|[l E]]; rewrite E.
  - rewrite (switchToNew_run (react w) blogId w Hf Hr Hq).
    cbn. repeat split; assumption.
  - destruct (afterSave_frame l w) as (H1 & H2 & _).
    destruct (afterSave_storage_frame l w) as (H3 & H4 & _).
    rewrite (@switchToNew_run (react w) blogId c0 blog (afterSave l w) Hf)
      by (rewrite ?H2, ?H3; assumption).
    cbn. rewrite H1. repeat split; assumption.
Qed.

Lemma switchBlog_loads_the_target_witness :
  rteInstance (exec (click (fun r => switchBlog r (lit "2"))) twoDocs)
    = Some (lit "<p>old B</p>")
  /\ currentBlogId (react (exec (click (fun r => switchBlog r (lit "2"))) twoDocs))
    = Some (lit "2").
Proof.
  destruct (@switchBlog_loads_the_target twoDocs (lit "2") (lit "<p>new A</p>")
              (demoBlog "2" "B" "<p>old B</p>" 20))
    as (_ & _ & _ & Hc & _ & _ & He & _); try reflexivity.
  split; [exact He|exact Hc].
Defined.

(** X7. When the store rejects writes, a click on a document of the
    collection throws [QuotaExceededError] out of [switchBlog]: the write
    of the active-id key is not guarded. The active id in memory has
    already been set to the target, but the title, the editing surface,
    the counters and the status are those of the outgoing document, and
    nothing was stored. *)
Theorem switchBlog_throws_when_store_is_full
    (w : World) (blogId c0 : JSString) (blog : Blog.t) :
  rteInstance w = Some c0 ->
  find (fun b => streq (Blog.id b) blogId) (blogs (react w)) = Some blog ->
  quotaExceeded (localStorage w) = true ->
  let w' := exec (click (fun r => switchBlog r blogId)) w in
  fst (click (fun r => switchBlog r blogId) w) = Throw QuotaExceededError /\
  currentBlogId (react w') = Some blogId /\
  title (react w') = title (react w) /\
  rteInstance w' = Some c0 /\
  wordCount (react w') = wordCount (react w) /\
  charCount (react w') = charCount (react w) /\
  isSaved (react w') = isSaved (react w) /\
  localStorage w' = localStorage w.
Proof.
  intros Hr Hf Hq. cbv zeta.
  unfold exec, click, switchBlog, bind.
  destruct (saveBeforeSwitching_cases (react w) w) as [E|[l E]]; rewrite E.
  - rewrite (switchToNew_quota (react w) blogId w Hf Hr Hq).
    cbn. repeat split; assumption.
  - destruct (afterSave_frame l w) as (H1 & H2 & _).
    destruct (afterSave_storage_frame l w) as (H3 & H4 & _).
    rewrite (@switchToNew_quota (react w) blogId c0 blog (afterSave l w) Hf)
      by (rewrite ?H2, ?H3; assumption).
    cbn. rewrite H1, H2. unfold afterSave. rewrite Hq. cbn.
    repeat split; assumption.
Qed.

Lemma switchBlog_throws_witness :
  fst (click (fun r => switchBlog r (lit "2")) twoDocsFull)
    = Throw QuotaExceededError
  /\ title (react (exec (click (fun r => switchBlog r (lit "2"))) twoDocsFull))
     = lit "A".
Proof.
  destruct (@switchBlog_throws_when_store_is_full twoDocsFull (lit "2")
              (lit "<p>new A</p>") (demoBlog "2" "B" "<p>old B</p>" 20))
    as (Ht & _ & Hti & _); try reflexivity.
  split; [exact Ht|exact Hti].
Defined.

(* ===================================================================== *)
(** ** The save paths *)
(* ===================================================================== *)

Lemma titleEffect_run (r : Render) (cur c : JSString) (w : World) :
  rteInstance w = Some c -> currentBlogId r = Some cur -> truthy cur = true ->
  titleEffect r w
    = (Normal tt,
       exec (setLastSaved (Some (toLocaleTimeString (clock w))))
         (afterSave (retitled cur (title r) c (clock w) (blogs r))
            (exec (setBlogs (retitled cur (title r) c (clock w) (blogs r))) w))).
Proof.
  intros Hr Hc Ht. unfold titleEffect. rewrite Hc.
  unfold bind at 1. unfold gets at 1. rewrite Hr, Ht.
  unfold bind at 1. unfold rte_getContent at 1. rewrite Hr.
  unfold bind at 1. unfold Date_now, gets at 1.
  unfold bind at 1. unfold setBlogs at 1, modify at 1.
  unfold bind at 1. rewrite saveBlogs_run.
  reflexivity.
Qed.

Lemma titleEffect_skip (r : Render) (w : World) :
  rteInstance w = None \/ truthy_opt (currentBlogId r) = false ->
  titleEffect r w = (Normal tt, w).
Proof.
  intros H. unfold titleEffect, bind, gets.
  destruct (rteInstance w); [|reflexivity].
  destruct (currentBlogId r) as [cur|]; [|reflexivity].
  destruct H as [H|H]; [discriminate|]. cbn in H. now rewrite H.
Qed.

Lemma saveCurrentBlog_skip (r : Render) (content blogTitle : JSString) (w : World) :
  truthy_opt (currentBlogId r) = false ->
  saveCurrentBlog r content blogTitle w = (Normal tt, w).
Proof.
  intros H. unfold saveCurrentBlog.
  destruct (currentBlogId r) as [cur|]; [|reflexivity].
  cbn in H. now rewrite H.
Qed.

(** Every save rewrites documents in place: the id and the creation
    timestamp of each position are kept. *)
Lemma map_in_place (f : Blog.t -> Blog.t) (l : list Blog.t) :
  (forall b, Blog.id (f b) = Blog.id b /\ Blog.createdAt (f b) = Blog.createdAt b) ->
  map (fun b => (Blog.id b, Blog.createdAt b)) (map f l)
    = map (fun b => (Blog.id b, Blog.createdAt b)) l.
Proof.
  intros H. rewrite map_map. apply map_ext. intros b.
  destruct (H b) as [H1 H2]. now rewrite H1, H2.
Qed.

Lemma retitled_in_place (cur ti c : JSString) (now : Z) (l : list Blog.t) :
  map (fun b => (Blog.id b, Blog.createdAt b)) (retitled cur ti c now l)
    = map (fun b => (Blog.id b, Blog.createdAt b)) l.
Proof.
  apply map_in_place. intros b. destruct (streq (Blog.id b) cur); split; reflexivity.
Qed.

Lemma savedWith_in_place (cur c ti : JSString) (now : Z) (l : list Blog.t) :
  map (fun b => (Blog.id b, Blog.createdAt b)) (savedWith cur c ti now l)
    = map (fun b => (Blog.id b, Blog.createdAt b)) l.
Proof.
  apply map_in_place. intros b. destruct (streq (Blog.id b) cur); split; reflexivity.
Qed.

Lemma flushed_in_place (cur c : JSString) (now : Z) (l : list Blog.t) :
  map (fun b => (Blog.id b, Blog.createdAt b)) (flushed cur c now l)
    = map (fun b => (Blog.id b, Blog.createdAt b)) l.
Proof.
  apply map_in_place. intros b. destruct (streq (Blog.id b) cur); split; reflexivity.
Qed.

(** X9. No save path adds, removes or reorders documents or changes an
    id or a creation timestamp: after the title-change effect, after
    [saveCurrentBlog] and after [switchBlog], run with the closure of the
    latest render, the collection in memory has the same ids and creation
    timestamps in the same order; and whatever the title-change effect or
    [saveCurrentBlog] writes to local storage has them too. *)
Theorem saves_keep_ids_and_creation_times (w : World) :
  let key := fun b => (Blog.id b, Blog.createdAt b) in
  let same := fun w' => map key (blogs (react w')) = map key (blogs (react w)) in
  let stored := fun w' =>
    BLOGS (localStorage w') = BLOGS (localStorage w) \/
    exists l, BLOGS (localStorage w') = Some l /\
              map key l = map key (blogs (react w)) in
  same (exec (effect titleEffect) w) /\
  stored (exec (effect titleEffect) w) /\
  (forall content blogTitle,
     same (exec (click (fun r => saveCurrentBlog r content blogTitle)) w) /\
     stored (exec (click (fun r => saveCurrentBlog r content blogTitle)) w)) /\
  (forall blogId,
     same (exec (click (fun r => switchBlog r blogId)) w) /\
     stored (exec (click (fun r => switchBlog r blogId)) w)).
Proof.
  cbv zeta. unfold effect, click, exec.
  split; [|split; [|split]].
  - destruct (rteInstance w) as [c|] eqn:Hr;
      [|rewrite titleEffect_skip by (now left); reflexivity].
    destruct (currentBlogId (react w)) as [cur|] eqn:Hc;
      [|rewrite titleEffect_skip by (right; now rewrite Hc); reflexivity].
    destruct (truthy cur) eqn:Ht;
      [|rewrite titleEffect_skip by (right; now rewrite Hc); reflexivity].
    rewrite (titleEffect_run (react w) w Hr Hc Ht). unfold afterSave. cbn.
    destruct (quotaExceeded (localStorage w)); cbn; apply retitled_in_place.
  - destruct (rteInstance w) as [c|] eqn:Hr;
      [|rewrite titleEffect_skip by (now left); now left].
    destruct (currentBlogId (react w)) as [cur|] eqn:Hc;
      [|rewrite titleEffect_skip by (right; now rewrite Hc); now left].
    destruct (truthy cur) eqn:Ht;
      [|rewrite titleEffect_skip by (right; now rewrite Hc); now left].
    rewrite (titleEffect_run (react w) w Hr Hc Ht). unfold afterSave. cbn.
    destruct (quotaExceeded (localStorage w)); cbn; [now left|right].
    eexists. split; [reflexivity|apply retitled_in_place].
  - intros content blogTitle.
    destruct (currentBlogId (react w)) as [cur|] eqn:Hc;
      [|rewrite saveCurrentBlog_skip by (now rewrite Hc); split; [reflexivity|now left]].
    destruct (truthy cur) eqn:Ht;
      [|rewrite saveCurrentBlog_skip by (now rewrite Hc); split; [reflexivity|now left]].
    rewrite (saveCurrentBlog_run (react w) content blogTitle w Hc Ht).
    unfold afterSave. cbn.
    destruct (quotaExceeded (localStorage w)); cbn;
      (split; [apply savedWith_in_place|]); [now left|right].
    eexists. split; [reflexivity|apply savedWith_in_place].
  - intros blogId0. split.
    + now rewrite (switchBlog_keeps_blogs (react w) blogId0 w).
    + pose proof (switchBlog_storage (react w) blogId0 w) as Hs.
      unfold exec in Hs. rewrite Hs.
      destruct (currentBlogId (react w)) as [cur|]; [|now left].
      destruct (rteInstance w) as [c|]; [|now left].
      destruct (truthy cur && negb (quotaExceeded (localStorage w))); [right|now left].
      eexists. split; [reflexivity|apply flushed_in_place].
Qed.

(** X10. The title-change effect, with an active id and a live editing
    surface: every document with the active id gets the displayed title
    and the editing surface's content, every other document is kept as it
    is, the result is the collection in memory and (unless the store
    rejects the write) in local storage; the save status is not touched,
    so a "not saved" status stays. *)
Theorem titleEffect_commits_title_and_content (w : World) (cur c : JSString) :
  rteInstance w = Some c ->
  currentBlogId (react w) = Some cur -> truthy cur = true ->
  let w' := exec (effect titleEffect) w in
  fst (effect titleEffect w) = Normal tt /\
  blogs (react w')
    = retitled cur (title (react w)) c (clock w) (blogs (react w)) /\
  BLOGS (localStorage w')
    = (if quotaExceeded (localStorage w) then BLOGS (localStorage w)
       else Some (blogs (react w'))) /\
  (forall b, In b (blogs (react w')) -> Blog.id b = cur ->
             Blog.content b = c /\ Blog.title b = title (react w)) /\
  (forall b, In b (blogs (react w')) -> Blog.id b <> cur -> In b (blogs (react w))) /\
  isSaved (react w') = isSaved (react w) /\
  rteInstance w' = rteInstance w /\
  currentBlogId (react w') = currentBlogId (react w).
Proof.
  intros Hr Hc Ht. cbv zeta. unfold effect, exec.
  rewrite (titleEffect_run (react w) w Hr Hc Ht). unfold afterSave. cbn.
  assert (Hin : forall b,
            In b (retitled cur (title (react w)) c (clock w) (blogs (react w))) ->
            (Blog.id b = cur -> Blog.content b = c /\ Blog.title b = title (react w)) /\
            (Blog.id b <> cur -> In b (blogs (react w)))).
  { intros b Hb. unfold retitled in Hb. apply in_map_iff in Hb as (b1 & E & Hb1).
    destruct (streq (Blog.id b1) cur) eqn:Es; subst b.
    - apply streq_eq in Es. cbn. split; [auto|]. intros Hn. now rewrite Es in Hn.
    - apply streq_neq in Es. split; [intros; contradiction|auto]. }
  destruct (quotaExceeded (localStorage w)); cbn;
    (split; [reflexivity|]; split; [reflexivity|]; split; [reflexivity|];
     split; [intros b Hb Hid; exact (proj1 (Hin b Hb) Hid)|];
     split; [intros b Hb Hid; exact (proj2 (Hin b Hb) Hid)|];
     repeat split; assumption).
Qed.

Lemma titleEffect_commits_witness :
  contentOf (lit "1") (blogs (react (exec (effect titleEffect) twoDocs)))
    = Some (lit "<p>new A</p>")
  /\ isSaved (react (exec (effect titleEffect) twoDocs)) = false.
Proof.
  destruct (@titleEffect_commits_title_and_content twoDocs (lit "1")
              (lit "<p>new A</p>"))
    as (_ & Hb & _ & _ & _ & Hs & _); try reflexivity.
  split; [rewrite Hb; reflexivity|exact Hs].
Defined.

(** The [map] of the autosave callback: the collection with the content
    stored under the target id; its calls only add lines to the console. *)
Lemma autosave_map_run (cur content : JSString) (l : list Blog.t) (w : World) :
  exists co,
    mapM (fun b =>
            if streq (Blog.id b) cur
            then now <- Date_now ;;
                 console_log "Auto-saving blog:" ;;
                 ret (Blog.withContent content (toLocaleString now) b)
            else ret b) l w
    = (Normal (flushed cur content (clock w) l), with_console co w).
Proof.
  set (f := fun b : Blog.t => _).
  revert w. induction l as [|b l IH]; intros w.
  - exists (console w). destruct w; reflexivity.
  - assert (Hf : f b w
                 = if streq (Blog.id b) cur
                   then (Normal (Blog.withContent content (toLocaleString (clock w)) b),
                         with_console
                           (console_log_entry "Auto-saving blog:" :: console w) w)
                   else (Normal b, w)).
    { unfold f. destruct (streq (Blog.id b) cur); reflexivity. }
    cbn [mapM flushed map]. unfold bind at 1. rewrite Hf.
    destruct (streq (Blog.id b) cur).
    + destruct (IH (with_console
                      (console_log_entry "Auto-saving blog:" :: console w) w))
        as [co E].
      exists co. unfold bind at 1. rewrite E. reflexivity.
    + destruct (IH w) as [co E]. exists co.
      unfold bind at 1. rewrite E. reflexivity.
Qed.

Lemma autoSaveCallback_run (r : Render) (cur c : JSString) (w : World) :
  rteInstance w = Some c ->
  autoSaveTarget r = Some cur -> truthy cur = true ->
  exists co,
    autoSaveCallback r w
    = (Normal tt,
       exec (updateStats c)
         (exec (setIsSaved true)
            (exec (setLastSaved (Some (toLocaleTimeString (clock w))))
               (afterSave (flushed cur c (clock w) (blogs r))
                  (exec (setBlogs (flushed cur c (clock w) (blogs r)))
                     (with_console co w)))))).
Proof.
  intros Hr Ht Htr. unfold autoSaveCallback.
  change (if truthy_opt (currentBlogId r) then currentBlogId r
          else match blogs r with b0 :: _ => Some (Blog.id b0) | [] => None end)
    with (autoSaveTarget r).
  rewrite Ht, Htr.
  destruct (autosave_map_run cur c (blogs r) w) as [co E]. exists co.
  unfold bind at 1. unfold rte_getContent at 1. rewrite Hr.
  unfold bind at 1. rewrite E.
  unfold bind at 1. unfold setBlogs at 1, modify at 1.
  unfold bind at 1. rewrite saveBlogs_run.
  unfold bind at 1. unfold Date_now, gets at 1.
  unfold bind at 1. unfold setLastSaved at 1, modify at 1.
  unfold bind at 1. unfold setIsSaved at 1, modify at 1.
  unfold exec. rewrite !updateStats_run. unfold afterSave. cbn.
  destruct (quotaExceeded (localStorage w)); reflexivity.
Qed.

(** X11. The autosave callback, for any closure [r] that yields a target
    id ([currentBlogId], or else the id of the first document of the
    closure's collection): it replaces the collection in memory by the
    closure's collection with the editing surface's content stored under
    the target id, whatever collection React held, writes that to local
    storage, and sets the status to saved, the last-saved display and
    the counters of the content. With an empty closure collection and no
    active id it changes nothing. *)
Theorem autoSaveCallback_commits_the_closure_collection :
  (forall (r : Render) (w : World) (cur c : JSString),
     rteInstance w = Some c ->
     autoSaveTarget r = Some cur -> truthy cur = true ->
     let w' := exec (autoSaveCallback r) w in
     fst (autoSaveCallback r w) = Normal tt /\
     blogs (react w') = flushed cur c (clock w) (blogs r) /\
     BLOGS (localStorage w')
       = (if quotaExceeded (localStorage w) then BLOGS (localStorage w)
          else Some (flushed cur c (clock w) (blogs r))) /\
     isSaved (react w') = true /\
     lastSaved (react w') = Some (toLocaleTimeString (clock w)) /\
     wordCount (react w') = whitespaceSeparatedRuns (trim (replaceTags c)) /\
     charCount (react w') = length (trim (replaceTags c)) /\
     currentBlogId (react w') = currentBlogId (react w) /\
     rteInstance w' = Some c) /\
  (forall (r : Render) (w : World) (c : JSString),
     rteInstance w = Some c -> autoSaveTarget r = None ->
     autoSaveCallback r w = (Normal tt, w)).
Proof.
  split.
  - intros r w cur c Hr Ht Htr. cbv zeta.
    destruct (autoSaveCallback_run r w Hr Ht Htr) as [co0 E].
    unfold exec. rewrite E. unfold exec.
    rewrite !updateStats_run. unfold afterSave. cbn.
    destruct (quotaExceeded (localStorage w)); cbn; repeat split; assumption.
  - intros r w c Hr Ht. unfold autoSaveCallback.
    change (if truthy_opt (currentBlogId r) then currentBlogId r
            else match blogs r with b0 :: _ => Some (Blog.id b0) | [] => None end)
      with (autoSaveTarget r).
    rewrite Ht. unfold bind, rte_getContent. now rewrite Hr.
Qed.

Lemma autoSaveCallback_commits_witness :
  let m := mount storedDocs 1000 in
  let later := run_op (Create (lit "Notes") 2000) m in
  map Blog.id (blogs (react later)) = [lit "2000"; lit "1"; lit "2"] /\
  map Blog.id (blogs (react (exec (autoSaveCallback (react m)) later)))
    = [lit "1"; lit "2"] /\
  autoSaveCallback initialRender later = (Normal tt, later).
Proof.
  cbv zeta. destruct autoSaveCallback_commits_the_closure_collection as [Hc Hn].
  split; [reflexivity|]. split.
  - destruct (Hc (react (mount storedDocs 1000))
                (run_op (Create (lit "Notes") 2000) (mount storedDocs 1000))
                (lit "1") (lit "<p>old A</p>"))
      as (_ & Hb & _); [reflexivity..|].
    rewrite Hb. reflexivity.
  - apply (Hn initialRender _ (lit "<p>old A</p>")); reflexivity.
Defined.

(** X12. [saveCurrentBlog] with an active id and a store that takes the
    write: the documents with the active id get the given content and,
    when the given title is not empty, the given title; an empty title
    argument keeps every title; local storage then holds exactly the
    collection in memory, the status is saved, and the editing surface is
    not touched. Without an active id it does nothing. *)
Theorem saveCurrentBlog_commits_and_mirrors :
  (forall (w : World) (cur content blogTitle : JSString),
     currentBlogId (react w) = Some cur -> truthy cur = true ->
     quotaExceeded (localStorage w) = false ->
     let w' := exec (click (fun r => saveCurrentBlog r content blogTitle)) w in
     blogs (react w')
       = savedWith cur content blogTitle (clock w) (blogs (react w)) /\
     BLOGS (localStorage w') = Some (blogs (react w')) /\
     isSaved (react w') = true /\
     lastSaved (react w') = Some (toLocaleTimeString (clock w)) /\
     rteInstance w' = rteInstance w /\
     (forall b, In b (blogs (react w')) -> Blog.id b = cur ->
                Blog.content b = content) /\
     (blogTitle = [] ->
      map Blog.title (blogs (react w')) = map Blog.title (blogs (react w)))) /\
  (forall (w : World) (content blogTitle : JSString),
     truthy_opt (currentBlogId (react w)) = false ->
     click (fun r => saveCurrentBlog r content blogTitle) w = (Normal tt, w)).
Proof.
  split.
  - intros w cur content blogTitle Hc Ht Hq. cbv zeta. unfold exec, click.
    rewrite (saveCurrentBlog_run (react w) content blogTitle w Hc Ht).
    unfold afterSave. cbn. rewrite Hq. cbn.
    split; [reflexivity|]. split; [reflexivity|]. split; [reflexivity|].
    split; [reflexivity|]. split; [reflexivity|]. split.
    + intros b Hb Hid. unfold savedWith in Hb.
      apply in_map_iff in Hb as (b1 & E & _).
      destruct (streq (Blog.id b1) cur) eqn:Es; subst b; [reflexivity|].
      apply streq_neq in Es. contradiction.
    + intros ->. unfold savedWith. rewrite map_map. apply map_ext.
      intros b. destruct (streq (Blog.id b) cur); reflexivity.
  - intros w content blogTitle H. unfold click. now apply saveCurrentBlog_skip.
Qed.

Lemma saveCurrentBlog_commits_witness :
  BLOGS (localStorage
           (exec (click (fun r => saveCurrentBlog r (lit "<p>new A</p>") [])) twoDocs))
    = Some (blogs (react
           (exec (click (fun r => saveCurrentBlog r (lit "<p>new A</p>") [])) twoDocs)))
  /\ click (fun r => saveCurrentBlog r (lit "x") (lit "y"))
       (initialWorld storedDocs 1000)
     = (Normal tt, initialWorld storedDocs 1000).
Proof.
  destruct saveCurrentBlog_commits_and_mirrors as [Hc Hs].
  split.
  - destruct (Hc twoDocs (lit "1") (lit "<p>new A</p>") [])
      as (_ & H & _); [reflexivity..|exact H].
  - apply Hs. reflexivity.
Defined.

(* ===================================================================== *)
(** ** Deleting a document that is not the active one *)
(* ===================================================================== *)

Lemma deleteBlog_inactive_run (r : Render) (blogId : JSString) (w : World) :
  length (blogs r) <> 1 -> confirmAnswer w = true ->
  opt_streq (currentBlogId r) blogId = false ->
  deleteBlog r blogId w
    = (Normal tt,
       afterSave (without blogId (blogs r))
         (exec (setBlogs (without blogId (blogs r))) w)).
Proof.
  intros Hn Hc Ha. unfold deleteBlog.
  apply Nat.eqb_neq in Hn. rewrite Hn, Ha.
  unfold bind at 1. unfold window_confirm, gets. rewrite Hc.
  fold (without blogId (blogs r)).
  unfold bind at 1. unfold setBlogs at 1, modify at 1.
  unfold bind at 1. rewrite saveBlogs_run. reflexivity.
Qed.

Lemma deleteBlog_cancel (r : Render) (blogId : JSString) (w : World) :
  length (blogs r) <> 1 -> confirmAnswer w = false ->
  deleteBlog r blogId w = (Normal tt, w).
Proof.
  intros Hn Hc. unfold deleteBlog.
  apply Nat.eqb_neq in Hn. rewrite Hn.
  unfold bind, window_confirm, gets. now rewrite Hc.
Qed.

(** X13. Deleting a document that is not the active one, in a collection
    that does not have exactly one document, once the user confirms: all
    documents with that id are removed from the collection in memory,
    every other document stays, in order; the filtered collection is
    written to local storage (unless the store rejects the write); the
    active id, the title shown and the editing surface are untouched.
    When the user cancels the dialog, nothing changes. *)
Theorem deleteBlog_inactive_removes_only_it :
  (forall (w : World) (blogId : JSString),
     length (blogs (react w)) <> 1 ->
     opt_streq (currentBlogId (react w)) blogId = false ->
     let w' := run_op (Delete blogId true) w in
     blogs (react w') = without blogId (blogs (react w)) /\
     ~ In blogId (ids w') /\
     (forall b, In b (blogs (react w)) -> Blog.id b <> blogId ->
                In b (blogs (react w'))) /\
     BLOGS (localStorage w')
       = (if quotaExceeded (localStorage w) then BLOGS (localStorage w)
          else Some (without blogId (blogs (react w)))) /\
     currentBlogId (react w') = currentBlogId (react w) /\
     title (react w') = title (react w) /\
     rteInstance w' = rteInstance w) /\
  (forall (w : World) (blogId : JSString),
     length (blogs (react w)) <> 1 ->
     run_op (Delete blogId false) w = with_confirmAnswer false w).
Proof.
  split.
  - intros w blogId Hn Ha. cbv zeta. unfold run_op, click, exec.
    rewrite (@deleteBlog_inactive_run (react (with_confirmAnswer true w)) blogId
               (with_confirmAnswer true w) Hn eq_refl Ha).
    unfold afterSave, ids. cbn.
    assert (H1 : ~ In blogId (map Blog.id (without blogId (blogs (react w))))).
    { intros Hin. apply in_map_iff in Hin as (b & Hb & Hin).
      apply filter_In in Hin as [_ Hin]. rewrite Hb, streq_refl in Hin.
      discriminate. }
    assert (H2 : forall b, In b (blogs (react w)) -> Blog.id b <> blogId ->
                           In b (without blogId (blogs (react w)))).
    { intros b Hb Hne. apply filter_In. split; [exact Hb|].
      apply streq_neq in Hne. now rewrite Hne. }
    destruct (quotaExceeded (localStorage w)); cbn; repeat split; assumption.
  - intros w blogId Hn. unfold run_op, click, exec.
    now rewrite (@deleteBlog_cancel (react (with_confirmAnswer false w)) blogId
                   (with_confirmAnswer false w) Hn eq_refl).
Qed.

Lemma deleteBlog_inactive_witness :
  map Blog.id (blogs (react (run_op (Delete (lit "2") true) twoDocs))) = [lit "1"]
  /\ run_op (Delete (lit "2") false) twoDocs = with_confirmAnswer false twoDocs.
Proof.
  destruct deleteBlog_inactive_removes_only_it as [Hd Hc].
  split.
  - destruct (Hd twoDocs (lit "2")) as (Hb & _); [discriminate|reflexivity|].
    rewrite Hb. reflexivity.
  - apply Hc. discriminate.
Defined.

(* ===================================================================== *)
(** ** The timer over whole sessions *)
(* ===================================================================== *)

(** Only [handleContentChange], the cleanup and the passing of time touch
    the listener, the timer table, the timer ref or the id counter; and
    no handler ever drops the editing surface. *)
Ltac keeps_live :=
  let w := fresh "w" in
  intros w;
  unfold setBlogs, setCurrentBlogId, setTitle, setIsSaved, setLastSaved,
    setWordCount, setCharCount, setShowNewBlogForm, setNewBlogTitle,
    Date_now, localStorage_setItem_BLOGS, localStorage_setItem_CURRENT_BLOG_ID,
    console_error, console_log, alert, window_confirm, rte_getContent,
    rte_setContent, modify, gets;
  cbn;
  destruct (rteInstance w) eqn:?;
  try destruct (quotaExceeded (localStorage w));
  cbn;
  try match goal with H : rteInstance _ = _ |- _ => rewrite H end;
  reflexivity.

Ltac keeps_handler :=
  repeat keeps_step;
  try (apply saveBlogs_keeps; reflexivity);
  first [keeps_prim | keeps_live | idtac].

Lemma switchBlog_keeps_session (r : Render) (blogId : JSString) :
  keeps (fun w => (listener w, timers w, autoSaveTimerRef w, nextTimerId w))
    (switchBlog r blogId) /\
  keeps (fun w => match rteInstance w with Some _ => true | None => false end)
    (switchBlog r blogId).
Proof.
  split; unfold switchBlog, saveBeforeSwitching, switchToNew, updateStats;
    keeps_handler.
Qed.

Lemma createNewBlog_keeps_session (r : Render) :
  keeps (fun w => (listener w, timers w, autoSaveTimerRef w, nextTimerId w))
    (createNewBlog r) /\
  keeps (fun w => match rteInstance w with Some _ => true | None => false end)
    (createNewBlog r).
Proof.
  split; unfold createNewBlog; keeps_handler.
Qed.

Lemma deleteBlog_keeps_session (r : Render) (blogId : JSString) :
  keeps (fun w => (listener w, timers w, autoSaveTimerRef w, nextTimerId w))
    (deleteBlog r blogId) /\
  keeps (fun w => match rteInstance w with Some _ => true | None => false end)
    (deleteBlog r blogId).
Proof.
  split;
    unfold deleteBlog, switchBlog, saveBeforeSwitching, switchToNew, updateStats;
    keeps_handler.
Qed.

Lemma titleEffect_keeps_session (r : Render) :
  keeps (fun w => (listener w, timers w, autoSaveTimerRef w, nextTimerId w))
    (titleEffect r) /\
  keeps (fun w => match rteInstance w with Some _ => true | None => false end)
    (titleEffect r).
Proof.
  split; unfold titleEffect; keeps_handler.
Qed.

Lemma sessionInv_transport (w w' : World) :
  (listener w', timers w', autoSaveTimerRef w', nextTimerId w')
    = (listener w, timers w, autoSaveTimerRef w, nextTimerId w) ->
  match rteInstance w' with Some _ => true | None => false end
    = match rteInstance w with Some _ => true | None => false end ->
  sessionInv w /\ length (timers w) <= 1 ->
  sessionInv w' /\ length (timers w') <= 1.
Proof.
  intros Ho Hl [(H1 & H2 & H3 & H4) H5].
  injection Ho as E1 E2 E3 E4. unfold sessionInv.
  rewrite E1, E2, E3, E4. repeat split; auto; try (now apply H4).
  destruct (rteInstance w'); [discriminate|].
  destruct (rteInstance w); [discriminate|contradiction].
Qed.

Lemma step_sessionInv (e : Event) (w : World) :
  sessionInv w /\ length (timers w) <= 1 ->
  sessionInv (step e w) /\ length (timers (step e w)) <= 1.
Proof.
  intros Hinv. pose proof Hinv as [Hs Hlen].
  destruct e as [t c|blogId|[ti t|i ok]|ti| | |t]; cbn [step].
  - destruct (userTypes_sessionInv t c Hs) as (H1 & H2 & _).
    split; [exact H1|]. rewrite H2. cbn. lia.
  - apply (@sessionInv_transport w); [| |exact Hinv]; unfold exec, click.
    + apply (proj1 (switchBlog_keeps_session (react w) blogId) w).
    + apply (proj2 (switchBlog_keeps_session (react w) blogId) w).
  - unfold run_op, click, exec.
    set (w0 := snd (setNewBlogTitle ti (with_clock t w))).
    apply (@sessionInv_transport w); [| |exact Hinv].
    + rewrite (proj1 (createNewBlog_keeps_session (react w0)) w0). reflexivity.
    + rewrite (proj2 (createNewBlog_keeps_session (react w0)) w0). reflexivity.
  - unfold run_op, click, exec.
    set (w0 := with_confirmAnswer ok w).
    apply (@sessionInv_transport w); [| |exact Hinv].
    + rewrite (proj1 (deleteBlog_keeps_session (react w0) i) w0). reflexivity.
    + rewrite (proj2 (deleteBlog_keeps_session (react w0) i) w0). reflexivity.
  - apply (@sessionInv_transport w); [reflexivity|reflexivity|exact Hinv].
  - apply (@sessionInv_transport w); [reflexivity|reflexivity|exact Hinv].
  - apply (@sessionInv_transport w); [| |exact Hinv]; unfold exec, effect.
    + apply (proj1 (titleEffect_keeps_session (react w)) w).
    + apply (proj2 (titleEffect_keeps_session (react w)) w).
  - rewrite (advanceTo_sessionInv t Hs).
    destruct Hs as (H1 & H2 & H3 & H4). unfold sessionInv. cbn.
    repeat split; auto.
    + apply H4. now apply filter_In in H as [H _].
    + apply H4. now apply filter_In in H as [H _].
    + apply H4. now apply filter_In in H as [H _].
    + etransitivity; [apply filter_length_le|exact Hlen].
Qed.

Lemma session_sessionInv (es : list Event) (w : World) :
  sessionInv w /\ length (timers w) <= 1 ->
  sessionInv (session es w) /\ length (timers (session es w)) <= 1.
Proof.
  revert w. induction es as [|e es IH]; intros w H; [exact H|].
  unfold session. cbn [fold_left]. apply IH. now apply step_sessionInv.
Qed.

Lemma mount_timers_empty (store : Storage) (t0 : Z) :
  timers (mount store t0) = [].
Proof.
  unfold mount, mountEffect, loadBlogs, exec.
  destruct store as [[l0|] cid q]; unfold_handlers; cbn;
    repeat match goal with
           | |- context [find ?f ?l] => destruct (find f l); cbn
           | |- context [truthy_opt ?c] => destruct (truthy_opt c); cbn
           | |- context [match ?x with _ :: _ => _ | [] => _ end] =>
               is_var x; destruct x; cbn
           | |- context [if ?b then _ else _] => is_var b; destruct b; cbn
           end; reflexivity.
Qed.

(** X14. In every session (any sequence of typing, clicks on documents,
    creates, deletes, title edits, form toggles, runs of the title-change
    effect and waiting, after mounting on any store), at most one
    autosave timer is armed, it is the one the timer ref holds, and it
    closes over the first render; the editing surface stays live. So
    whenever time passes, the timers that fire change neither the state
    React holds nor local storage. *)
Theorem session_arms_one_timer_that_commits_nothing
    (store : Storage) (t0 : Z) (es : list Event) :
  let w := session es (mount store t0) in
  length (timers w) <= 1 /\
  (forall tm, In tm (timers w) ->
     autoSaveTimerRef w = Some (timerId tm) /\ closure tm = initialRender) /\
  (exists c, rteInstance w = Some c) /\
  (forall T, react (advanceTo T w) = react w /\
             localStorage (advanceTo T w) = localStorage w /\
             rteInstance (advanceTo T w) = rteInstance w).
Proof.
  cbv zeta.
  assert (H0 : sessionInv (mount store t0) /\ length (timers (mount store t0)) <= 1).
  { split; [apply mount_sessionInv|]. rewrite mount_timers_empty. cbn. lia. }
  destruct (session_sessionInv es H0) as [Hs Hlen].
  pose proof Hs as (H1 & H2 & H3 & H4).
  split; [exact Hlen|]. split; [|split].
  - intros tm Hin. destruct (H4 tm Hin) as (Ha & Hb & _). auto.
  - destruct (rteInstance (session es (mount store t0))) as [c|]; [eauto|congruence].
  - intros T. rewrite (advanceTo_sessionInv T Hs). repeat split.
Qed.

(* ===================================================================== *)
(** ** Creating a document and reloading *)
(* ===================================================================== *)

Lemma find_In_some (c : JSString) (l : list Blog.t) :
  In c (map Blog.id l) ->
  exists b, find (fun b => streq (Blog.id b) c) l = Some b.
Proof.
  induction l as [|b l IH]; cbn; [contradiction|].
  intros [H|H].
  - rewrite H, streq_refl. eauto.
  - destruct (streq (Blog.id b) c); [eauto|now apply IH].
Qed.

(** X16. [createNewBlog] does not write the active-id key. After a
    create on a store that takes writes, a reload (a new mount on what
    local storage then holds) restores the whole collection, new document
    first, but the active document is the one the key still names (the
    last one switched to), not the document just created. *)
Theorem create_then_reload_restores_old_active
    (w : World) (c : JSString) (t : Z) :
  forallb isWhiteSpace (newBlogTitle (react w)) = false ->
  quotaExceeded (localStorage w) = false ->
  CURRENT_BLOG_ID (localStorage w) = Some c -> truthy c = true ->
  In c (ids w) ->
  let w' := exec (click createNewBlog) w in
  let m := mount (localStorage w') t in
  CURRENT_BLOG_ID (localStorage w') = Some c /\
  currentBlogId (react w') = Some (toString (clock w)) /\
  blogs (react m) = blogs (react w') /\
  localStorage m = localStorage w' /\
  currentBlogId (react m) = Some c.
Proof.
  intros Hb Hq Hc Ht Hin. cbv zeta.
  set (nb := newBlogOf (newBlogTitle (react w)) (clock w)).
  assert (Hs : localStorage (exec (click createNewBlog) w)
               = mkStorage (Some (nb :: blogs (react w))) (Some c) false).
  { unfold exec, click. rewrite (createNewBlog_run (react w) w Hb).
    unfold afterSave. cbn. rewrite Hq. cbn. now rewrite Hc. }
  assert (Hbl : blogs (react (exec (click createNewBlog) w)) = nb :: blogs (react w)).
  { unfold exec, click. rewrite (createNewBlog_run (react w) w Hb).
    unfold afterSave. cbn. rewrite Hq. reflexivity. }
  assert (Hcur : currentBlogId (react (exec (click createNewBlog) w))
                 = Some (toString (clock w))).
  { unfold exec, click. rewrite (createNewBlog_run (react w) w Hb).
    unfold afterSave. cbn. rewrite Hq. reflexivity. }
  rewrite Hs, Hbl, Hcur.
  destruct (@find_In_some c (nb :: blogs (react w))) as [b Hf].
  { cbn [map]. right. exact Hin. }
  destruct (find_streq_some _ _ Hf) as [_ Hid].
  pose proof (@loadBlogs_pointer
                (initialWorld (mkStorage (Some (nb :: blogs (react w))) (Some c) false) t)
                (nb :: blogs (react w)) c b eq_refl eq_refl Ht Hf) as Hload.
  unfold mount, exec.
  rewrite (mountEffect_loaded initialRender _ Hload eq_refl).
  cbn. repeat split.
Qed.

Lemma create_then_reload_witness :
  let w := exec (setNewBlogTitle (lit "Notes"))
             (exec (click (fun r => switchBlog r (lit "2"))) twoDocs) in
  let w' := exec (click createNewBlog) w in
  currentBlogId (react w') = Some (lit "5000") /\
  currentBlogId (react (mount (localStorage w') 9000)) = Some (lit "2").
Proof.
  cbv zeta.
  destruct (@create_then_reload_restores_old_active
              (exec (setNewBlogTitle (lit "Notes"))
                 (exec (click (fun r => switchBlog r (lit "2"))) twoDocs))
              (lit "2") 9000)
    as (_ & H1 & _ & _ & H2); [reflexivity..| |].
  - cbn. right. left. reflexivity.
  - split; [exact H1|exact H2].
Defined.

(* ===================================================================== *)
(** ** Ids under a clock that moves forward *)
(* ===================================================================== *)

Lemma lit_inj (a b : string) : lit a = lit b -> a = b.
Proof.
  unfold lit. intros H.
  rewrite <- (string_of_list_ascii_of_string a),
          <- (string_of_list_ascii_of_string b).
  f_equal. revert H.
  generalize (list_ascii_of_string a) as la, (list_ascii_of_string b) as lb.
  induction la as [|x la IH]; intros [|y lb]; cbn; try discriminate; auto.
  intros [= Hx Hr]. f_equal; [|now apply IH].
  rewrite <- (ascii_N_embedding x), <- (ascii_N_embedding y). now rewrite Hx.
Qed.

(** [n.toString()] is injective: distinct clock readings give distinct ids. *)
Lemma toString_inj (a b : Z) : toString a = toString b -> a = b.
Proof.
  unfold toString. intros H. apply lit_inj in H.
  assert (E : Some (Z.to_int a) = Some (Z.to_int b)).
  { rewrite <- (NilEmpty.isi (Z.to_int a)), <- (NilEmpty.isi (Z.to_int b)).
    now rewrite H. }
  injection E as E. rewrite <- (DecimalZ.of_to a), <- (DecimalZ.of_to b).
  now rewrite E.
Qed.

Lemma run_op_Delete_ids (i : JSString) (ok : bool) (w : World) :
  NoDup (ids w) ->
  NoDup (ids (run_op (Delete i ok) w)) /\
  (forall j, In j (ids (run_op (Delete i ok) w)) -> In j (ids w)).
Proof.
  intros Hd. unfold run_op, click, ids.
  change (exec (fun w0 => deleteBlog (react w0) i w0) (with_confirmAnswer ok w))
    with (exec (deleteBlog (react w) i) (with_confirmAnswer ok w)).
  rewrite deleteBlog_blogs. cbn [react with_confirmAnswer confirmAnswer].
  destruct (_ || _); [auto|].
  split; [now apply NoDup_without|].
  intros j Hj. apply in_map_iff in Hj as (b & Hb & Hin).
  apply filter_In in Hin as [Hin _]. apply in_map_iff. eauto.
Qed.

Lemma run_createsAfter (ops : list Op) (bound : Z) (w : World) :
  NoDup (ids w) -> idsUpTo bound w -> createsAfter bound ops ->
  NoDup (ids (run ops w)).
Proof.
  revert bound w. induction ops as [|o ops IH]; intros bound w Hd Hu Hc; [exact Hd|].
  unfold run. cbn [fold_left].
  destruct o as [ti t|i ok].
  - destruct Hc as [Hlt Hrest].
    apply (IH t); [| |exact Hrest].
    + rewrite run_op_Create_ids.
      destruct (forallb isWhiteSpace ti); [exact Hd|].
      constructor; [|exact Hd].
      intros Hin. destruct (Hu _ Hin) as (t' & E & Hle).
      apply toString_inj in E. lia.
    + intros j Hj. rewrite run_op_Create_ids in Hj.
      destruct (forallb isWhiteSpace ti).
      * destruct (Hu _ Hj) as (t' & E & Hle). exists t'. split; [exact E|lia].
      * destruct Hj as [<-|Hj]; [exists t; split; [reflexivity|lia]|].
        destruct (Hu _ Hj) as (t' & E & Hle). exists t'. split; [exact E|lia].
  - destruct (@run_op_Delete_ids i ok w Hd) as [Hd' Hsub].
    apply (IH bound); [exact Hd'| |exact Hc].
    intros j Hj. apply Hu. now apply Hsub.
Qed.

(** X17. With a clock that moves forward, ids never collide: from a
    first-run mount at instant [t0], along every sequence of create and
    delete commands whose creates happen at strictly increasing clock
    readings after [t0], the ids of the collection stay pairwise
    distinct. More generally this holds from any collection with distinct
    ids that are the decimal texts of instants up to a bound, for creates
    after that bound. *)
Theorem ids_distinct_under_increasing_clock :
  (forall (t0 : Z) (ops : list Op),
     createsAfter t0 ops ->
     NoDup (ids (run ops (mount (mkStorage None None false) t0)))) /\
  (forall (ops : list Op) (bound : Z) (w : World),
     NoDup (ids w) -> idsUpTo bound w -> createsAfter bound ops ->
     NoDup (ids (run ops w))).
Proof.
  split; [|exact run_createsAfter].
  intros t0 ops Hc. apply (@run_createsAfter ops t0); [| |exact Hc].
  - cbn. constructor; [intros []|constructor].
  - intros j Hj. cbn in Hj. destruct Hj as [<-|[]].
    exists t0. split; [reflexivity|lia].
Qed.

Lemma ids_distinct_under_increasing_clock_witness :
  NoDup (ids (run [Create (lit "A") 2000; Delete (lit "1000") true;
                   Create (lit "B") 2001; Create (lit " ") 2002]
                (mount (mkStorage None None false) 1000))).
Proof.
  apply (proj1 ids_distinct_under_increasing_clock).
  cbn. repeat split; lia.
Defined.

(* ===================================================================== *)
(** ** More on the statistics *)
(* ===================================================================== *)

Lemma existsb_stripFrom (b : bool) (s : JSString) :
  existsb (N.eqb GT) (stripFrom b s) = true -> existsb (N.eqb GT) s = true.
Proof.
  revert b. induction s as [|c r IH]; intros b; cbn [stripFrom existsb]; [auto|].
  destruct b.
  - intros H. apply IH in H. rewrite H. apply orb_true_r.
  - destruct ((c =? LT)%N && existsb (N.eqb GT) r) eqn:E.
    + intros H. apply IH in H. rewrite H. apply orb_true_r.
    + cbn [existsb]. intros H. apply orb_true_iff in H as [H|H].
      * now rewrite H.
      * apply IH in H. rewrite H. apply orb_true_r.
Qed.

Lemma tagFree_stripFrom (b : bool) (s : JSString) : tagFree (stripFrom b s) = true.
Proof.
  revert b. induction s as [|c r IH]; intros b; cbn [stripFrom]; [reflexivity|].
  destruct b; [apply IH|].
  destruct ((c =? LT)%N && existsb (N.eqb GT) r) eqn:E; [apply IH|].
  cbn [tagFree]. rewrite IH, andb_true_r.
  destruct (c =? LT)%N; [|reflexivity]. cbn [andb] in E |- *.
  destruct (existsb (N.eqb GT) (stripFrom false r)) eqn:E2; [|reflexivity].
  apply existsb_stripFrom in E2. congruence.
Qed.

Lemma stripFrom_tagFree (s : JSString) : tagFree s = true -> stripFrom false s = s.
Proof.
  induction s as [|c r IH]; cbn [tagFree stripFrom]; [reflexivity|].
  intros H. apply andb_true_iff in H as [H1 H2].
  apply negb_true_iff in H1. rewrite H1. f_equal. now apply IH.
Qed.

Lemma tagFree_suffix (a b : JSString) : tagFree (a ++ b) = true -> tagFree b = true.
Proof.
  induction a as [|c a IH]; cbn [app tagFree]; [auto|].
  intros H. apply andb_true_iff in H as [_ H]. now apply IH.
Qed.

Lemma tagFree_matchTag (s : JSString) : tagFree s = true -> matchTag s = None.
Proof.
  destruct s as [|c r]; cbn [tagFree matchTag]; [reflexivity|].
  intros H. apply andb_true_iff in H as [H _]. apply negb_true_iff in H.
  destruct (c =? LT)%N; [|reflexivity]. cbn [andb] in H.
  destruct (skipToGt r) eqn:E; [|reflexivity].
  apply skipToGt_some in E as [E _]. congruence.
Qed.

Lemma stripFrom_length (b : bool) (s : JSString) :
  length (stripFrom b s) <= length s.
Proof.
  revert b. induction s as [|c r IH]; intros b; cbn [stripFrom length]; [lia|].
  destruct b; [specialize (IH (negb (c =? GT)%N)); lia|].
  destruct ((c =? LT)%N && existsb (N.eqb GT) r).
  - specialize (IH true). lia.
  - cbn [length]. specialize (IH false). lia.
Qed.

(** X18. Tag removal leaves no tag behind: in its result no position
    starts a match of [<[^>]*>], so removing tags again changes nothing;
    the result is never longer than the input, and a text in which no
    position starts a match is returned as it is. *)
Theorem replaceTags_removes_every_tag (s : JSString) :
  (forall a b, replaceTags s = a ++ b -> matchTag b = None) /\
  replaceTags (replaceTags s) = replaceTags s /\
  length (replaceTags s) <= length s /\
  ((forall a b, s = a ++ b -> matchTag b = None) -> replaceTags s = s).
Proof.
  unfold replaceTags. split; [|split; [|split]].
  - intros a b E. apply tagFree_matchTag. apply (tagFree_suffix a).
    rewrite <- E. apply tagFree_stripFrom.
  - apply stripFrom_tagFree, tagFree_stripFrom.
  - apply stripFrom_length.
  - intros H. apply stripFrom_tagFree.
    induction s as [|c r IH]; [reflexivity|]. cbn [tagFree].
    rewrite IH.
    + rewrite andb_true_r. apply negb_true_iff.
      specialize (H [] (c :: r) eq_refl). cbn [matchTag] in H.
      destruct (c =? LT)%N; [|reflexivity]. cbn [andb].
      now apply skipToGt_none.
    + intros a b E. apply (H (c :: a) b). now rewrite E.
Qed.

Lemma replaceTags_removes_every_tag_witness :
  replaceTags (lit "2 > 1 and a < b") = lit "2 > 1 and a < b".
Proof.
  apply (proj2 (proj2 (proj2 (replaceTags_removes_every_tag (lit "2 > 1 and a < b"))))).
  intros a b E. apply tagFree_matchTag. apply (tagFree_suffix a).
  rewrite <- E. reflexivity.
Defined.

Lemma countRuns_bound (s : JSString) :
  2 * countRuns true s <= length s /\ 2 * countRuns false s <= length s + 1.
Proof.
  induction s as [|c r [IH1 IH2]]; cbn [countRuns length]; [lia|].
  destruct (isWhiteSpace c); lia.
Qed.

Lemma trimStart_split (s : JSString) :
  exists p, s = p ++ trimStart s /\ forallb isWhiteSpace p = true.
Proof.
  induction s as [|x s (p & IH & Hp)]; cbn [trimStart].
  - now exists [].
  - destruct (isWhiteSpace x) eqn:E.
    + exists (x :: p). cbn. rewrite E, Hp. split; [now f_equal|reflexivity].
    + now exists [].
Qed.

Lemma trimEnd_split (s : JSString) :
  exists q, s = trimEnd s ++ q /\ forallb isWhiteSpace q = true.
Proof.
  unfold trimEnd. destruct (trimStart_split (rev s)) as (p & Hp & Hw).
  exists (rev p). split.
  - rewrite <- rev_app_distr, <- Hp. symmetry. apply rev_involutive.
  - now rewrite forallb_rev.
Qed.

(** X19. What [updateStats] counts, for every content: the counted text
    is the tag-free content without a leading and a trailing stretch of
    white space; the character count is its length and never exceeds the
    length of the content; the word count is zero exactly when the
    character count is, and [2 * words - 1] never exceeds the character
    count (words are separated by at least one white-space code unit). *)
Theorem updateStats_counters_are_bounded (content : JSString) (w : World) :
  let w' := exec (updateStats content) w in
  let words := wordCount (react w') in
  let chars := charCount (react w') in
  (exists p plain q,
     replaceTags content = p ++ plain ++ q /\
     forallb isWhiteSpace p = true /\ forallb isWhiteSpace q = true /\
     trim plain = plain /\ chars = length plain) /\
  chars <= length content /\
  (words = 0 <-> chars = 0) /\
  2 * words <= chars + 1.
Proof.
  cbv zeta. unfold exec. rewrite updateStats_run. cbn.
  set (stripped := replaceTags content).
  destruct (trimStart_split stripped) as (p & Hp & Hwp).
  destruct (trimEnd_split (trimStart stripped)) as (q & Hq & Hwq).
  fold (trim stripped) in Hq.
  assert (Hlen : length (trim stripped) <= length content).
  { pose proof (stripFrom_length false content) as H. fold (replaceTags content) in H.
    fold stripped in H. rewrite Hp, Hq in H. rewrite !length_app in H. lia. }
  assert (Hidem : trim (trim stripped) = trim stripped).
  { destruct (trim_shape stripped) as [E|(c & r & E & Hc & Hl)]; rewrite E;
      [reflexivity|].
    unfold trim. cbn [trimStart]. rewrite Hc. unfold trimEnd.
    destruct (rev (c :: r)) as [|x l] eqn:Er.
    - apply (f_equal (@rev N)) in Er. rewrite rev_involutive in Er. discriminate.
    - assert (Ex : c :: r = rev l ++ [x]).
      { rewrite <- (rev_involutive (c :: r)), Er. reflexivity. }
      rewrite Ex, lastWs_snoc in Hl. cbn [trimStart]. rewrite Hl.
      now rewrite <- Er, rev_involutive. }
  split; [|split; [|split]].
  - exists p, (trim stripped), q. repeat split; auto.
    now rewrite <- Hq.
  - exact Hlen.
  - unfold whitespaceSeparatedRuns.
    destruct (trim_shape stripped) as [E|(c & r & E & Hc & Hl)]; rewrite E.
    + split; reflexivity.
    + cbn [countRuns length]. rewrite Hc. split; intros H; discriminate H.
  - unfold whitespaceSeparatedRuns.
    destruct (countRuns_bound (trim stripped)) as [_ H]. exact H.
Qed.

Lemma stripFrom_in_tag (body rest : JSString) :
  existsb (N.eqb GT) body = false ->
  stripFrom true (body ++ GT :: rest) = stripFrom false rest.
Proof.
  induction body as [|c body IH]; cbn [app stripFrom existsb].
  - reflexivity.
  - intros H. apply orb_false_iff in H as [H1 H2].
    rewrite N.eqb_sym in H1. rewrite H1. cbn [negb]. now apply IH.
Qed.

Lemma stripFrom_plain (s rest : JSString) :
  existsb (N.eqb LT) s = false ->
  stripFrom false (s ++ rest) = s ++ stripFrom false rest.
Proof.
  induction s as [|c s IH]; cbn [app stripFrom existsb]; [reflexivity|].
  intros H. apply orb_false_iff in H as [H1 H2].
  rewrite N.eqb_sym in H1. rewrite H1. cbn [andb]. f_equal. now apply IH.
Qed.

Lemma replaceTags_tag (body rest : JSString) :
  existsb (N.eqb GT) body = false ->
  replaceTags (tag body ++ rest) = replaceTags rest.
Proof.
  intros H. unfold replaceTags, tag. cbn [app stripFrom].
  rewrite <- app_assoc. cbn [app].
  assert (E : existsb (N.eqb GT) (body ++ GT :: rest) = true).
  { rewrite existsb_app. cbn [existsb]. rewrite N.eqb_refl. cbn.
    apply orb_true_r. }
  rewrite N.eqb_refl, E. cbn [andb]. now apply stripFrom_in_tag.
Qed.

(** X20. Wrapping a text in an element does not change its statistics:
    for a text without '<' and tags whose bodies have no '>', the tag
    removal of [<open>text</close>] gives back the text, so [updateStats]
    sets the same counters as on the text alone; an empty element counts
    0 words and 0 characters. *)
Theorem updateStats_ignores_wrapping_tags
    (open close text : JSString) (w : World) :
  existsb (N.eqb GT) open = false ->
  existsb (N.eqb GT) close = false ->
  existsb (N.eqb LT) text = false ->
  replaceTags (tag open ++ text ++ tag close) = text /\
  exec (updateStats (tag open ++ text ++ tag close)) w
    = exec (updateStats text) w /\
  wordCount (react (exec (updateStats (tag open ++ tag close)) w)) = 0 /\
  charCount (react (exec (updateStats (tag open ++ tag close)) w)) = 0.
Proof.
  intros Ho Hc Ht.
  assert (E1 : forall s, existsb (N.eqb LT) s = false ->
                         replaceTags (tag open ++ s ++ tag close) = s).
  { intros s Hs. rewrite replaceTags_tag by exact Ho. unfold replaceTags.
    rewrite stripFrom_plain by exact Hs.
    rewrite <- (app_nil_r (tag close)).
    change (stripFrom false (tag close ++ [])) with (replaceTags (tag close ++ [])).
    rewrite replaceTags_tag by exact Hc. cbn. apply app_nil_r. }
  assert (E2 : replaceTags text = text).
  { unfold replaceTags. rewrite <- (app_nil_r text) at 1.
    rewrite stripFrom_plain by exact Ht. cbn. apply app_nil_r. }
  split; [now apply E1|]. split.
  - unfold exec. rewrite !updateStats_run, (E1 text Ht), E2. reflexivity.
  - unfold exec. rewrite updateStats_run.
    change (tag open ++ tag close) with (tag open ++ [] ++ tag close).
    rewrite (E1 [] eq_refl). split; reflexivity.
Qed.

Lemma updateStats_ignores_wrapping_tags_witness :
  replaceTags (lit "<h1 class='t'>Hi there</h1>") = lit "Hi there".
Proof.
  exact (proj1 (@updateStats_ignores_wrapping_tags (lit "h1 class='t'") (lit "/h1")
                  (lit "Hi there") twoDocs eq_refl eq_refl eq_refl)).
Defined.

(* ===================================================================== *)
(** ** Deleting the active document *)
(* ===================================================================== *)

Lemma find_head_without (blogId : JSString) (l rest : list Blog.t) (nextBlog : Blog.t) :
  without blogId l = nextBlog :: rest ->
  find (fun b => streq (Blog.id b) (Blog.id nextBlog)) l = Some nextBlog.
Proof.
  induction l as [|b l IH]; cbn [without filter find]; [discriminate|].
  destruct (streq (Blog.id b) blogId) eqn:E; cbn [negb].
  - intros H. fold (without blogId l) in H.
    assert (Hn : streq (Blog.id b) (Blog.id nextBlog) = false).
    { apply streq_neq. intros Heq.
      assert (Hin : In nextBlog (without blogId l)) by (rewrite H; now left).
      apply filter_In in Hin as [_ Hin]. apply negb_true_iff in Hin.
      apply streq_eq in E. apply streq_neq in Hin. congruence. }
    rewrite Hn. now apply IH.
  - intros [= -> _]. now rewrite streq_refl.
Qed.

Lemma deleteBlog_active_run
    (r : Render) (blogId c : JSString) (nextBlog : Blog.t) (rest : list Blog.t)
    (w : World) :
  currentBlogId r = Some blogId -> truthy blogId = true ->
  rteInstance w = Some c -> confirmAnswer w = true ->
  length (blogs r) <> 1 ->
  without blogId (blogs r) = nextBlog :: rest ->
  deleteBlog r blogId w
    = switchToNew r (Blog.id nextBlog)
        (afterSave (flushed blogId c (clock w) (blogs r))
           (afterSave (nextBlog :: rest) (exec (setBlogs (nextBlog :: rest)) w))).
Proof.
  intros Hcur Ht Hr Hok Hn Hw.
  unfold deleteBlog. apply Nat.eqb_neq in Hn. rewrite Hn.
  unfold bind at 1. unfold window_confirm, gets. rewrite Hok.
  fold (without blogId (blogs r)). rewrite Hw.
  unfold bind at 1. unfold setBlogs at 1, modify at 1.
  unfold bind at 1. rewrite saveBlogs_run.
  rewrite Hcur. cbn [opt_streq]. rewrite streq_refl.
  unfold switchBlog, bind.
  match goal with |- context [afterSave ?l ?x] => set (w1 := afterSave l x) end.
  assert (Hw1 : rteInstance w1 = Some c /\ clock w1 = clock w).
  { subst w1. unfold afterSave. cbn.
    destruct (quotaExceeded (localStorage w)); cbn; auto. }
  destruct Hw1 as (Hr1 & Hc1).
  rewrite (saveBeforeSwitching_run r w1 Hcur Ht Hr1), Hc1. reflexivity.
Qed.

(** X21. Deleting the active document, confirmed, with a live editing
    surface and a store that takes writes, when another document
    remains: the documents with that id leave the collection in memory,
    the first remaining document becomes the active one in memory and
    under the active-id key, and its title and stored content are shown.
    What ends under the collection key is the flush of the inner
    [switchBlog]: the collection as it was before the delete, with the
    editing surface's content in the deleted document. *)
Theorem deleteBlog_active_activates_first_remaining
    (w : World) (blogId c : JSString) (nextBlog : Blog.t) (rest : list Blog.t) :
  currentBlogId (react w) = Some blogId -> truthy blogId = true ->
  rteInstance w = Some c ->
  quotaExceeded (localStorage w) = false ->
  length (blogs (react w)) <> 1 ->
  without blogId (blogs (react w)) = nextBlog :: rest ->
  let w' := run_op (Delete blogId true) w in
  blogs (react w') = nextBlog :: rest /\
  currentBlogId (react w') = Some (Blog.id nextBlog) /\
  CURRENT_BLOG_ID (localStorage w') = Some (Blog.id nextBlog) /\
  title (react w') = Blog.title nextBlog /\
  rteInstance w' = Some (Blog.content nextBlog) /\
  isSaved (react w') = true /\
  BLOGS (localStorage w') = Some (flushed blogId c (clock w) (blogs (react w))).
Proof.
  intros Hcur Ht Hr Hq Hn Hw. cbv zeta. unfold run_op, click, exec.
  rewrite (@deleteBlog_active_run (react (with_confirmAnswer true w)) blogId c
             nextBlog rest (with_confirmAnswer true w) Hcur Ht Hr eq_refl Hn Hw).
  cbn [react with_confirmAnswer clock].
  match goal with |- context [switchToNew _ _ ?x] => set (w2 := x) end.
  assert (Hw2 : rteInstance w2 = Some c /\ quotaExceeded (localStorage w2) = false /\
                blogs (react w2) = nextBlog :: rest /\
                BLOGS (localStorage w2)
                  = Some (flushed blogId c (clock w) (blogs (react w)))).
  { subst w2. unfold afterSave. cbn. rewrite Hq. cbn. auto. }
  destruct Hw2 as (Hr2 & Hq2 & Hb2 & Hs2). clearbody w2.
  rewrite (@switchToNew_run (react w) (Blog.id nextBlog) c nextBlog w2
             (find_head_without _ _ Hw) Hr2 Hq2).
  cbn. rewrite Hb2, Hs2. repeat split.
Qed.

Lemma deleteBlog_active_witness :
  currentBlogId (react (run_op (Delete (lit "1") true) twoDocs)) = Some (lit "2")
  /\ rteInstance (run_op (Delete (lit "1") true) twoDocs) = Some (lit "<p>old B</p>").
Proof.
  destruct (@deleteBlog_active_activates_first_remaining twoDocs (lit "1")
              (lit "<p>new A</p>") (demoBlog "2" "B" "<p>old B</p>" 20) [])
    as (_ & H1 & _ & _ & H2 & _); [reflexivity..|discriminate|reflexivity|].
  split; [exact H1|exact H2].
Defined.

(* ===================================================================== *)
(** ** The running application: handler, render, title-change effect *)
(* ===================================================================== *)

(** The render after an event, when there is an active document, a live
    editing surface and a store that takes the write. *)
Lemma rendered_run (w : World) (cur c : JSString) :
  rteInstance w = Some c ->
  currentBlogId (react w) = Some cur -> truthy cur = true ->
  quotaExceeded (localStorage w) = false ->
  rendered w
    = mkWorld
        (mkRender (retitled cur (title (react w)) c (clock w) (blogs (react w)))
           (Some cur) (title (react w)) (isSaved (react w))
           (Some (toLocaleTimeString (clock w)))
           (wordCount (react w)) (charCount (react w))
           (showNewBlogForm (react w)) (newBlogTitle (react w)))
        (Some c) (autoSaveTimerRef w) (listener w) (timers w) (nextTimerId w)
        (clock w)
        (mkStorage
           (Some (retitled cur (title (react w)) c (clock w) (blogs (react w))))
           (CURRENT_BLOG_ID (localStorage w)) false)
        (confirmAnswer w) (alerts w) (console w).
Proof.
  intros Hr Hc Ht Hq. unfold rendered, exec, effect.
  rewrite (titleEffect_run (react w) w Hr Hc Ht). unfold afterSave.
  destruct w as [rs rte ref lst tms nxt clk [bl cid q] ca al co].
  cbn in Hr, Hc, Hq. subst rte q. cbn. now rewrite Hc.
Qed.

(** The same render when the store rejects the write: the collection in
    memory is replaced, local storage is not, and the error is logged. *)
Lemma rendered_full (w : World) (cur c : JSString) :
  rteInstance w = Some c ->
  currentBlogId (react w) = Some cur -> truthy cur = true ->
  quotaExceeded (localStorage w) = true ->
  rendered w
    = mkWorld
        (mkRender (retitled cur (title (react w)) c (clock w) (blogs (react w)))
           (Some cur) (title (react w)) (isSaved (react w))
           (Some (toLocaleTimeString (clock w)))
           (wordCount (react w)) (charCount (react w))
           (showNewBlogForm (react w)) (newBlogTitle (react w)))
        (Some c) (autoSaveTimerRef w) (listener w) (timers w) (nextTimerId w)
        (clock w) (localStorage w)
        (confirmAnswer w) (alerts w)
        (console_error_entry "Failed to save blogs:" :: console w).
Proof.
  intros Hr Hc Ht Hq. unfold rendered, exec, effect.
  rewrite (titleEffect_run (react w) w Hr Hc Ht). unfold afterSave.
  destruct w as [rs rte ref lst tms nxt clk [bl cid q] ca al co].
  cbn in Hr, Hc, Hq. subst rte q. cbn. now rewrite Hc.
Qed.

Lemma rendered_skip (w : World) :
  rteInstance w = None \/ truthy_opt (currentBlogId (react w)) = false ->
  rendered w = w.
Proof.
  intros H. unfold rendered, exec, effect. now rewrite titleEffect_skip.
Qed.





(** Looking a document up by id in a collection rewritten in place. *)
Lemma find_map_in_place (f : Blog.t -> Blog.t) (i : JSString) (l : list Blog.t) :
  (forall b, Blog.id (f b) = Blog.id b) ->
  find (fun b => streq (Blog.id b) i) (map f l)
    = option_map f (find (fun b => streq (Blog.id b) i) l).
Proof.
  intros H. induction l as [|b l IH]; [reflexivity|].
  cbn [map find]. rewrite H. destruct (streq (Blog.id b) i); [reflexivity|exact IH].
Qed.

Lemma find_retitled (i cur ti c : JSString) (now : Z) (l : list Blog.t) :
  find (fun b => streq (Blog.id b) i) (retitled cur ti c now l)
    = option_map
        (fun b => if streq (Blog.id b) cur
                  then Blog.withTitleContent ti c (toLocaleString now) b else b)
        (find (fun b => streq (Blog.id b) i) l).
Proof.
  apply find_map_in_place. intros b. now destruct (streq (Blog.id b) cur).
Qed.

Lemma find_flushed (i cur c : JSString) (now : Z) (l : list Blog.t) :
  find (fun b => streq (Blog.id b) i) (flushed cur c now l)
    = option_map
        (fun b => if streq (Blog.id b) cur
                  then Blog.withContent c (toLocaleString now) b else b)
        (find (fun b => streq (Blog.id b) i) l).
Proof.
  apply find_map_in_place. intros b. now destruct (streq (Blog.id b) cur).
Qed.


Lemma contentOf_retitled_same (cur ti c old : JSString) (now : Z) (l : list Blog.t) :
  contentOf cur l = Some old ->
  contentOf cur (retitled cur ti c now l) = Some c.
Proof.
  unfold contentOf. rewrite find_retitled.
  destruct (find (fun b => streq (Blog.id b) cur) l) as [b|] eqn:Hf; [|discriminate].
  destruct (find_streq_some _ _ Hf) as [_ Hid]. intros _. cbn.
  now rewrite Hid, streq_refl.
Qed.



Lemma contentOf_flushed_other (i cur c : JSString) (now : Z) (l : list Blog.t) :
  i <> cur -> contentOf i (flushed cur c now l) = contentOf i l.
Proof.
  intros Hne. unfold contentOf. rewrite find_flushed.
  destruct (find (fun b => streq (Blog.id b) i) l) as [b|] eqn:Hf; [|reflexivity].
  destruct (find_streq_some _ _ Hf) as [_ Hid]. cbn.
  assert (E : streq (Blog.id b) cur = false) by (apply streq_neq; congruence).
  now rewrite E.
Qed.


Lemma find_contentOf (i : JSString) (l : list Blog.t) (b : Blog.t) :
  find (fun b => streq (Blog.id b) i) l = Some b ->
  contentOf i l = Some (Blog.content b).
Proof. intros H. unfold contentOf. now rewrite H. Qed.


(* ===================================================================== *)
(** ** Switching away and back *)
(* ===================================================================== *)

Ltac world_proj :=
  cbn [react rteInstance autoSaveTimerRef listener timers nextTimerId clock
       localStorage confirmAnswer alerts console
       blogs currentBlogId title isSaved lastSaved wordCount charCount
       showNewBlogForm newBlogTitle BLOGS CURRENT_BLOG_ID quotaExceeded
       fst snd option_map] in *.

(** Splits a conjunction into its conjuncts, and nothing else. *)
Ltac split_all := repeat match goal with |- _ /\ _ => split end.



(* ===================================================================== *)
(** ** Deleting a document, and the render after it *)
(* ===================================================================== *)




(* ===================================================================== *)
(** ** The autosave timer in the running application *)
(* ===================================================================== *)

(** What the render leaves alone: everything but the collection, the
    last-saved display, local storage and the console. *)
Lemma rendered_frame (w : World) :
  (listener (rendered w), timers (rendered w), autoSaveTimerRef (rendered w),
   nextTimerId (rendered w))
    = (listener w, timers w, autoSaveTimerRef w, nextTimerId w) /\
  rteInstance (rendered w) = rteInstance w /\
  isSaved (react (rendered w)) = isSaved (react w) /\
  currentBlogId (react (rendered w)) = currentBlogId (react w) /\
  title (react (rendered w)) = title (react w) /\
  clock (rendered w) = clock w.
Proof.
  destruct (rteInstance w) as [c|] eqn:Hr.
  2:{ rewrite rendered_skip by (now left). rewrite Hr. repeat split. }
  destruct (currentBlogId (react w)) as [cur|] eqn:Hc.
  2:{ rewrite rendered_skip by (right; now rewrite Hc). rewrite Hr, Hc. repeat split. }
  destruct (truthy cur) eqn:Ht.
  2:{ rewrite rendered_skip by (right; rewrite Hc; exact Ht).
      rewrite Hr, Hc. repeat split. }
  destruct (quotaExceeded (localStorage w)) eqn:Hq.
  - rewrite (rendered_full w Hr Hc Ht Hq). repeat split.
  - rewrite (rendered_run w Hr Hc Ht Hq). repeat split.
Qed.

Lemma appStep_sessionInv (e : Event) (w : World) :
  sessionInv w /\ length (timers w) <= 1 ->
  sessionInv (appStep e w) /\ length (timers (appStep e w)) <= 1.
Proof.
  intros H. unfold appStep.
  apply (step_sessionInv RunTitleEffect). now apply step_sessionInv.
Qed.

Lemma appSession_sessionInv (es : list Event) (w : World) :
  sessionInv w /\ length (timers w) <= 1 ->
  sessionInv (appSession es w) /\ length (timers (appSession es w)) <= 1.
Proof.
  revert w. induction es as [|e es IH]; intros w H; [exact H|].
  unfold appSession. cbn [fold_left]. apply IH. now apply appStep_sessionInv.
Qed.

Lemma appMount_sessionInv (store : Storage) (t0 : Z) :
  sessionInv (appMount store t0) /\ length (timers (appMount store t0)) <= 1.
Proof.
  unfold appMount. apply (step_sessionInv RunTitleEffect).
  split; [apply mount_sessionInv|]. rewrite mount_timers_empty. cbn. lia.
Qed.

(** C5, what the autosave timer does in the running application. After
    any session, a change signal at instant [t] leaves the status at "not
    saved" and exactly one timer armed, due at [t + 3000]: the debounce
    works. But when time passes, to any instant, the timers that fire
    change neither the state React holds nor local storage nor the
    editing surface, and the status still says "not saved" after the
    next render: the callback closes over the first render and commits
    nothing. On a seeded store, with "X" typed at 2000 and "XY" at 2500,
    the collection in memory and local storage hold "X" from 2000 and
    "XY" from 2500 on, written by the title-change effect at each render;
    the one timer, due at 5500, fires and changes nothing. *)
Theorem autosave_timer_commits_nothing :
  (forall (store : Storage) (t0 : Z) (es : list Event)
          (t : Z) (c : JSString) (T : Z),
     let w := appStep (TypeText t c) (appSession es (appMount store t0)) in
     let fired := advanceTo T w in
     map due (timers w) = [(t + AUTO_SAVE_INTERVAL)%Z] /\
     rteInstance w = Some c /\
     isSaved (react w) = false /\
     timers fired = filter (fun tm => negb (due tm <=? T)%Z) (timers w) /\
     react fired = react w /\
     localStorage fired = localStorage w /\
     rteInstance fired = rteInstance w /\
     isSaved (react (rendered fired)) = false) /\
  (let m := appMount (mkStorage None None false) 1000 in
   let w1 := appStep (TypeText 2000 (lit "X")) m in
   let w2 := appStep (TypeText 2500 (lit "XY")) w1 in
   let fired := advanceTo 5500 w2 in
   contentOf (lit "1000") (blogs (react m)) = Some welcomeContent /\
   map due (timers w1) = [5000%Z] /\
   contentOf (lit "1000") (blogs (react w1)) = Some (lit "X") /\
   option_map (contentOf (lit "1000")) (BLOGS (localStorage w1))
     = Some (Some (lit "X")) /\
   map due (timers w2) = [5500%Z] /\
   contentOf (lit "1000") (blogs (react w2)) = Some (lit "XY") /\
   option_map (contentOf (lit "1000")) (BLOGS (localStorage w2))
     = Some (Some (lit "XY")) /\
   isSaved (react w2) = false /\
   timers fired = [] /\
   react fired = react w2 /\
   localStorage fired = localStorage w2 /\
   isSaved (react (rendered fired)) = false).
Proof.
  split.
  - intros store t0 es t c T. cbv zeta.
    destruct (appSession_sessionInv es (appMount_sessionInv store t0)) as [Hs Hl].
    set (s := appSession es (appMount store t0)) in *.
    destruct (userTypes_sessionInv t c Hs) as (Hi & Ht & Href & _ & _ & Hsv & Hr).
    assert (Hlen : length (timers (userTypes t c s)) <= 1) by (rewrite Ht; cbn; lia).
    unfold appStep. cbn [step].
    destruct (rendered_frame (userTypes t c s)) as (Hf & Hfr & Hfs & _).
    injection Hf as Hf1 Hf2 Hf3 Hf4.
    destruct (step_sessionInv RunTitleEffect (conj Hi Hlen)) as [Hi' _].
    cbn [step] in Hi'. fold (rendered (userTypes t c s)) in Hi'.
    rewrite (advanceTo_sessionInv T Hi').
    destruct (rendered_frame
                (with_clock T
                   (with_timers
                      (filter (fun tm => negb (due tm <=? T)%Z)
                         (timers (rendered (userTypes t c s))))
                      (nextTimerId (rendered (userTypes t c s)))
                      (rendered (userTypes t c s))))) as (_ & _ & Hfs' & _).
    rewrite Hfs'. cbn. rewrite Hf2, Ht, Hfr, Hr, Hfs, Hsv. repeat split.
  - cbv zeta. split_all; vm_compute; reflexivity.
Qed.

(* ===================================================================== *)
(** ** A write of the collection that the store rejects *)
(* ===================================================================== *)

(** C7, as the code has it. When the store rejects the write of the
    collection, [saveBlogs] returns normally and only logs the error.
    So on every save path the collection in memory keeps the update and
    local storage keeps what it held; the title-change effect,
    [createNewBlog], [deleteBlog], the flush of [switchBlog] and the
    first-run seed leave the save status as it was, and the autosave
    callback and [saveCurrentBlog] set it to saved. *)
Theorem rejected_write_is_swallowed_and_status_is_kept :
  (forall (l : list Blog.t) (w : World),
     quotaExceeded (localStorage w) = true ->
     saveBlogs l w
       = (Normal tt,
          with_console (console_error_entry "Failed to save blogs:" :: console w) w)) /\
  (forall (w : World) (cur c : JSString),
     quotaExceeded (localStorage w) = true ->
     rteInstance w = Some c ->
     currentBlogId (react w) = Some cur -> truthy cur = true ->
     fst (effect titleEffect w) = Normal tt /\
     blogs (react (rendered w))
       = retitled cur (title (react w)) c (clock w) (blogs (react w)) /\
     localStorage (rendered w) = localStorage w /\
     isSaved (react (rendered w)) = isSaved (react w)) /\
  (forall w : World,
     quotaExceeded (localStorage w) = true ->
     forallb isWhiteSpace (newBlogTitle (react w)) = false ->
     let w' := exec (click createNewBlog) w in
     fst (click createNewBlog w) = Normal tt /\
     blogs (react w')
       = newBlogOf (newBlogTitle (react w)) (clock w) :: blogs (react w) /\
     localStorage w' = localStorage w /\
     isSaved (react w') = isSaved (react w)) /\
  (forall (w : World) (blogId : JSString),
     quotaExceeded (localStorage w) = true ->
     length (blogs (react w)) <> 1 ->
     opt_streq (currentBlogId (react w)) blogId = false ->
     let w' := run_op (Delete blogId true) w in
     fst (click (fun r => deleteBlog r blogId) (with_confirmAnswer true w))
       = Normal tt /\
     blogs (react w') = without blogId (blogs (react w)) /\
     localStorage w' = localStorage w /\
     isSaved (react w') = isSaved (react w)) /\
  (forall (w : World) (cur c : JSString),
     quotaExceeded (localStorage w) = true ->
     rteInstance w = Some c ->
     currentBlogId (react w) = Some cur -> truthy cur = true ->
     saveBeforeSwitching (react w) w
       = (Normal tt,
          with_console (console_error_entry "Failed to save blogs:" :: console w) w)) /\
  (forall (store : Storage) (t0 : Z),
     quotaExceeded store = true ->
     BLOGS store = None \/ BLOGS store = Some [] ->
     let m := mount store t0 in
     map Blog.id (blogs (react m)) = [toString t0] /\
     BLOGS (localStorage m) = BLOGS store /\
     isSaved (react m) = true) /\
  (forall (r : Render) (w : World) (cur c : JSString),
     quotaExceeded (localStorage w) = true ->
     rteInstance w = Some c ->
     autoSaveTarget r = Some cur -> truthy cur = true ->
     let w' := exec (autoSaveCallback r) w in
     fst (autoSaveCallback r w) = Normal tt /\
     blogs (react w') = flushed cur c (clock w) (blogs r) /\
     localStorage w' = localStorage w /\
     isSaved (react w') = true) /\
  (forall (w : World) (cur content blogTitle : JSString),
     quotaExceeded (localStorage w) = true ->
     currentBlogId (react w) = Some cur -> truthy cur = true ->
     let save := click (fun r => saveCurrentBlog r content blogTitle) in
     let w' := exec save w in
     fst (save w) = Normal tt /\
     blogs (react w')
       = savedWith cur content blogTitle (clock w) (blogs (react w)) /\
     localStorage w' = localStorage w /\
     isSaved (react w') = true).
Proof.
  assert (Hsave : forall (l : list Blog.t) (w : World),
            quotaExceeded (localStorage w) = true ->
            saveBlogs l w
              = (Normal tt,
                 with_console
                   (console_error_entry "Failed to save blogs:" :: console w) w)).
  { intros l w H. rewrite saveBlogs_run. unfold afterSave. now rewrite H. }
  split; [exact Hsave|]. split; [|split; [|split; [|split; [|split; [|split]]]]].
  - intros w cur c Hq Hr Hc Ht.
    rewrite (rendered_full w Hr Hc Ht Hq). unfold effect.
    rewrite (titleEffect_run (react w) w Hr Hc Ht). repeat split.
  - intros w Hq Hb. cbv zeta. unfold exec, click.
    rewrite (createNewBlog_run (react w) w Hb). cbn [fst snd].
    unfold afterSave. cbn. rewrite Hq. cbn. repeat split.
  - intros w blogId Hq Hn Ha. cbv zeta. unfold run_op, click, exec.
    rewrite (@deleteBlog_inactive_run (react (with_confirmAnswer true w)) blogId
               (with_confirmAnswer true w) Hn eq_refl Ha).
    unfold afterSave. cbn. rewrite Hq. cbn. repeat split.
  - intros w cur c Hq Hr Hc Ht.
    rewrite (saveBeforeSwitching_run (react w) w Hc Ht Hr).
    unfold afterSave. now rewrite Hq.
  - intros store t0 Hq H. cbv zeta.
    destruct (mount_seed_run store t0 H) as (H1 & _ & _ & _ & H5 & _ & _ & _ & _ & H10).
    rewrite H1, H5, Hq, H10. repeat split.
  - intros r w cur c Hq Hr Ht Htr. cbv zeta.
    destruct (autoSaveCallback_run r w Hr Ht Htr) as [co0 E].
    unfold exec. rewrite E. unfold exec. rewrite !updateStats_run.
    unfold afterSave. cbn. rewrite Hq. cbn. repeat split.
  - intros w cur content blogTitle Hq Hcur Ht. cbv zeta. unfold exec, click.
    rewrite (saveCurrentBlog_run (react w) content blogTitle w Hcur Ht).
    cbn [fst snd]. unfold afterSave. cbn. rewrite Hq. cbn. repeat split.
Qed.

Lemma rejected_write_status_witness :
  let full := storeFull (appMount storedDocs 1000) in
  fst (saveBlogs [] full) = Normal tt /\
  isSaved (react (rendered full)) = true /\
  localStorage (rendered full) = localStorage full /\
  isSaved (react (mount (mkStorage None None true) 1000)) = true.
Proof.
  cbv zeta.
  destruct rejected_write_is_swallowed_and_status_is_kept
    as (Hs & He & _ & _ & _ & Hm & _).
  split; [rewrite Hs; reflexivity|].
  destruct (He (storeFull (appMount storedDocs 1000)) (lit "1") (lit "<p>old A</p>"))
    as (_ & _ & H1 & H2); [reflexivity..|].
  split; [rewrite H2; reflexivity|]. split; [exact H1|].
  destruct (Hm (mkStorage None None true) 1000%Z) as (_ & _ & H);
    [reflexivity|now left|].
  exact H.
Defined.

(** C7 as stated fails. On a first run against a store that rejects
    writes, the seed document is in memory, nothing is stored, the error
    is logged, and the status says "saved". And when the store of a
    running application starts to reject writes and the user creates a
    document, the document is in memory only and the status still says
    "saved". *)
Lemma rejected_write_leaves_status_saved :
  (let m := appMount (mkStorage None None true) 1000 in
   quotaExceeded (localStorage m) = true /\
   map Blog.id (blogs (react m)) = [lit "1000"] /\
   BLOGS (localStorage m) = None /\
   In (console_error_entry "Failed to save blogs:") (console m) /\
   isSaved (react m) = true) /\
  (let w := appStep (Command (Create (lit "Notes") 2000))
              (storeFull (appMount storedDocs 1000)) in
   map Blog.id (blogs (react w)) = [lit "2000"; lit "1"; lit "2"] /\
   option_map (map Blog.id) (BLOGS (localStorage w)) = Some [lit "1"; lit "2"] /\
   In (console_error_entry "Failed to save blogs:") (console w) /\
   isSaved (react w) = true).
Proof.
  cbv zeta. split_all; vm_compute; auto.
Qed.

(* ===================================================================== *)
(** ** Creating a document, and the render after it *)
(* ===================================================================== *)

Lemma truthy_toString (n : Z) : truthy (toString n) = true.
Proof.
  unfold toString, lit. destruct n as [|p|p]; cbn; [reflexivity| |reflexivity].
  pose proof (Unsigned.to_uint_nonnil p) as H.
  destruct (Pos.to_uint p); [congruence|reflexivity..].
Qed.

(** C9, what happens to the seed content. [createNewBlog] puts the new
    document, with its seed content, in front of the collection and makes
    its id the active id, but does not load it into the editing surface,
    which still holds the previous document's text. The render that
    follows runs the title-change effect with the new active id: it
    stores the editing surface's text in the new document, in memory and
    in local storage. Creating "Notes" at 2000 on a store seeded at 1000
    gives two documents with Notes active, and the stored content of
    Notes is the welcome text, not [<h1>Notes</h1><p>Start writing...</p>]. *)
Theorem create_then_render_overwrites_seed_content :
  (forall (w : World) (c : JSString),
     rteInstance w = Some c ->
     forallb isWhiteSpace (newBlogTitle (react w)) = false ->
     quotaExceeded (localStorage w) = false ->
     let ti := newBlogTitle (react w) in
     let i := toString (clock w) in
     let created := exec (click createNewBlog) w in
     let shown := rendered created in
     contentOf i (blogs (react created))
       = Some (lit "<h1>" ++ ti ++ lit "</h1><p>Start writing...</p>") /\
     currentBlogId (react created) = Some i /\
     rteInstance created = Some c /\
     blogs (react shown) = createdThenRendered ti c (clock w) (blogs (react w)) /\
     BLOGS (localStorage shown) = Some (blogs (react shown)) /\
     currentBlogId (react shown) = Some i /\
     title (react shown) = ti /\
     rteInstance shown = Some c /\
     contentOf i (blogs (react shown)) = Some c) /\
  (let seeded := appMount (mkStorage None None false) 1000 in
   let shown := appStep (Command (Create (lit "Notes") 2000)) seeded in
   map Blog.id (blogs (react seeded)) = [lit "1000"] /\
   rteInstance seeded = Some welcomeContent /\
   map Blog.id (blogs (react shown)) = [lit "2000"; lit "1000"] /\
   currentBlogId (react shown) = Some (lit "2000") /\
   title (react shown) = lit "Notes" /\
   rteInstance shown = Some welcomeContent /\
   contentOf (lit "2000") (blogs (react shown)) = Some welcomeContent /\
   option_map (contentOf (lit "2000")) (BLOGS (localStorage shown))
     = Some (Some welcomeContent) /\
   welcomeContent <> lit "<h1>Notes</h1><p>Start writing...</p>").
Proof.
  split.
  - intros w c Hr Hb Hq. cbv zeta. unfold exec, click.
    rewrite (createNewBlog_run (react w) w Hb). cbn [fst snd].
    unfold afterSave.
    destruct w as [[bl cur ti sv ls wc cc sf nt] rte ref lst tms nxt clk [sb sc q] ca al co].
    world_proj. subst rte q. cbn -[rendered toString newBlogOf].
    match goal with |- context [rendered ?W] => set (W1 := W) end.
    rewrite (@rendered_run W1 (toString clk) c eq_refl eq_refl
               (truthy_toString clk) eq_refl).
    subst W1. world_proj.
    assert (Hseed : contentOf (toString clk) (newBlogOf nt clk :: bl)
                    = Some (lit "<h1>" ++ nt ++ lit "</h1><p>Start writing...</p>")).
    { unfold contentOf. cbn [find newBlogOf Blog.id]. rewrite streq_refl. reflexivity. }
    repeat split; try assumption.
    eapply contentOf_retitled_same. exact Hseed.
  - cbv zeta. split_all; vm_compute; [reflexivity..|discriminate].
Qed.

Lemma create_then_render_witness :
  let w := exec (setNewBlogTitle (lit "Notes")) (with_clock 2000 editedDocs) in
  let shown := rendered (exec (click createNewBlog) w) in
  currentBlogId (react shown) = Some (lit "2000") /\
  contentOf (lit "2000") (blogs (react shown)) = Some (lit "<p>new A</p>").
Proof.
  cbv zeta.
  destruct create_then_render_overwrites_seed_content as [H _].
  destruct (H (exec (setNewBlogTitle (lit "Notes")) (with_clock 2000 editedDocs))
              (lit "<p>new A</p>"))
    as (_ & _ & _ & _ & _ & H1 & _ & _ & H2); [reflexivity..|].
  split; [exact H1|exact H2].
Defined.

(** X22. [createNewBlog] up to its return. With a blank title it changes
    nothing. Otherwise the new document (id the decimal text of the clock
    reading, both timestamps that instant, the seed content, counters 0)
    is put in front of the collection in memory and in the write to local
    storage; it becomes the active id and its title the title shown; the
    form is cleared and hidden; the editing surface, the active-id key
    and the save status are not touched; the ids stay pairwise distinct
    when the new id is not yet in the collection. Creates at different
    clock readings get different ids. *)
Theorem createNewBlog_at_return :
  (forall w : World,
     forallb isWhiteSpace (newBlogTitle (react w)) = true ->
     click createNewBlog w = (Normal tt, w)) /\
  (forall w : World,
     forallb isWhiteSpace (newBlogTitle (react w)) = false ->
     let ti := newBlogTitle (react w) in
     let now := clock w in
     let newBlog :=
       Blog.mk (toString now) ti
         (lit "<h1>" ++ ti ++ lit "</h1><p>Start writing...</p>")
         (toLocaleString now) (toLocaleString now) (Some 0) (Some 0) in
     let w' := exec (click createNewBlog) w in
     fst (click createNewBlog w) = Normal tt /\
     blogs (react w') = newBlog :: blogs (react w) /\
     currentBlogId (react w') = Some (toString now) /\
     title (react w') = ti /\
     BLOGS (localStorage w')
       = (if quotaExceeded (localStorage w) then BLOGS (localStorage w)
          else Some (newBlog :: blogs (react w))) /\
     CURRENT_BLOG_ID (localStorage w') = CURRENT_BLOG_ID (localStorage w) /\
     newBlogTitle (react w') = [] /\
     showNewBlogForm (react w') = false /\
     rteInstance w' = rteInstance w /\
     isSaved (react w') = isSaved (react w) /\
     (~ In (toString now) (ids w) -> NoDup (ids w) -> NoDup (ids w'))) /\
  (forall w1 w2 : World,
     forallb isWhiteSpace (newBlogTitle (react w1)) = false ->
     forallb isWhiteSpace (newBlogTitle (react w2)) = false ->
     clock w1 <> clock w2 ->
     currentBlogId (react (exec (click createNewBlog) w1))
       <> currentBlogId (react (exec (click createNewBlog) w2))).
Proof.
  assert (Hcur : forall w : World,
            forallb isWhiteSpace (newBlogTitle (react w)) = false ->
            currentBlogId (react (exec (click createNewBlog) w))
              = Some (toString (clock w))).
  { intros w H. unfold exec, click. rewrite (createNewBlog_run (react w) w H).
    cbn [fst snd]. unfold afterSave. cbn.
    destruct (quotaExceeded (localStorage w)); reflexivity. }
  split; [|split].
  - intros w H. unfold click. now apply createNewBlog_blank.
  - intros w H. cbv zeta. unfold exec, click, ids.
    rewrite (createNewBlog_run (react w) w H). cbn [fst snd].
    unfold afterSave, newBlogOf. cbn.
    destruct (quotaExceeded (localStorage w)); cbn; repeat split;
      intros Hn Hd; constructor; assumption.
  - intros w1 w2 H1 H2 Hne. rewrite (Hcur w1 H1), (Hcur w2 H2).
    intros [= E]. apply toString_inj in E. contradiction.
Qed.

Lemma createNewBlog_at_return_witness :
  let seeded := mount (mkStorage None None false) 1000 in
  let w := exec (setNewBlogTitle (lit "Notes")) (with_clock 2000 seeded) in
  map Blog.id (blogs (react (exec (click createNewBlog) w)))
    = [lit "2000"; lit "1000"] /\
  click createNewBlog (exec (setNewBlogTitle (lit "  ")) seeded)
    = (Normal tt, exec (setNewBlogTitle (lit "  ")) seeded).
Proof.
  cbv zeta. destruct createNewBlog_at_return as (Hblank & Hnew & _).
  split.
  - destruct (Hnew (exec (setNewBlogTitle (lit "Notes"))
                      (with_clock 2000 (mount (mkStorage None None false) 1000))))
      as (_ & Hb & _); [reflexivity|].
    etransitivity; [exact (f_equal (map Blog.id) Hb)|]. vm_compute. reflexivity.
  - apply Hblank. reflexivity.
Defined.



(* ===================================================================== *)
(** ** A click on a document when the store rejects writes *)
(* ===================================================================== *)

Lemma titleOf_retitled_same (cur ti c : JSString) (now : Z) (l : list Blog.t)
    (b : Blog.t) :
  find (fun d => streq (Blog.id d) cur) l = Some b ->
  titleOf cur (retitled cur ti c now l) = Some ti.
Proof.
  intros Hf. unfold titleOf. rewrite find_retitled, Hf.
  destruct (find_streq_some _ _ Hf) as [_ Hid]. cbn.
  now rewrite Hid, streq_refl.
Qed.

(** X24. In the running application, a click on another document while
    the store rejects writes: the handler throws after it has set the
    active id, so the title shown and the editing surface are still the
    outgoing document's; the render that follows runs the title-change
    effect with the new active id and stores that title and that text in
    the target document in memory. Local storage keeps what it held. *)
Theorem switch_on_full_store_overwrites_target
    (w : World) (b E : JSString) (bdoc : Blog.t) :
  rteInstance w = Some E ->
  find (fun d => streq (Blog.id d) b) (blogs (react w)) = Some bdoc ->
  truthy b = true ->
  quotaExceeded (localStorage w) = true ->
  let h := exec (click (fun r => switchBlog r b)) w in
  let s := rendered h in
  fst (click (fun r => switchBlog r b) w) = Throw QuotaExceededError /\
  currentBlogId (react s) = Some b /\
  title (react s) = title (react w) /\
  rteInstance s = Some E /\
  contentOf b (blogs (react s)) = Some E /\
  titleOf b (blogs (react s)) = Some (title (react w)) /\
  localStorage s = localStorage w.
Proof.
  intros Hr Hf Htb Hq. cbv zeta.
  assert (Hh : exists co,
            click (fun r => switchBlog r b) w
            = (Throw QuotaExceededError,
               exec (setCurrentBlogId (Some b)) (with_console co w))).
  { unfold click. cbv beta. unfold switchBlog, bind.
    destruct (saveBeforeSwitching_cases (react w) w) as [E0|[l E0]]; rewrite E0.
    - exists (console w). rewrite (switchToNew_quota (react w) b w Hf Hr Hq).
      now destruct w.
    - unfold afterSave. rewrite Hq.
      eexists.
      now rewrite (@switchToNew_quota (react w) b E bdoc
                     (with_console
                        (console_error_entry "Failed to save blogs:" :: console w) w)
                     Hf Hr Hq). }
  destruct Hh as [co0 Hh]. unfold exec at 1 2 3 4 5 6. rewrite Hh. cbn [fst snd].
  destruct w as [[bl cur ti sv ls wc cc sf nt] rte ref lst tms nxt clk [sb sc q] ca al co].
  world_proj. subst rte q. cbn -[rendered].
  match goal with |- context [rendered ?W] => set (W1 := W) end.
  rewrite (@rendered_full W1 b E eq_refl eq_refl Htb eq_refl).
  subst W1. world_proj. repeat split.
  - eapply contentOf_retitled_same. exact (find_contentOf _ _ Hf).
  - eapply titleOf_retitled_same. exact Hf.
Qed.

Lemma switch_on_full_store_witness :
  let w := storeFull (userTypes 1500 (lit "<p>new A</p>") (appMount storedDocs 1000)) in
  let s := rendered (exec (click (fun r => switchBlog r (lit "2"))) w) in
  contentOf (lit "2") (blogs (react w)) = Some (lit "<p>old B</p>") /\
  contentOf (lit "2") (blogs (react s)) = Some (lit "<p>new A</p>") /\
  titleOf (lit "2") (blogs (react s)) = Some (lit "A") /\
  rteInstance s = Some (lit "<p>new A</p>").
Proof.
  cbv zeta.
  destruct (@switch_on_full_store_overwrites_target
              (storeFull (userTypes 1500 (lit "<p>new A</p>") (appMount storedDocs 1000)))
              (lit "2") (lit "<p>new A</p>") (demoBlog "2" "B" "<p>old B</p>" 20))
    as (_ & _ & _ & H1 & H2 & H3 & _); [vm_compute; reflexivity..|].
  split; [vm_compute; reflexivity|]. split; [exact H2|]. split; [exact H3|exact H1].
Defined.

(* ===================================================================== *)
(** ** Loading, and the unmount cleanup *)
(* ===================================================================== *)

(** X1. [loadBlogs] on a store holding nothing or the JSON of an array of
    documents: it does not throw and writes neither local storage nor the
    editing surface. With nothing stored it returns none and leaves the
    state as it is; with an empty array it returns none with the
    collection in memory set to the empty one; and a document it returns
    is one of the stored collection, which is then the collection in
    memory, with that document's id as the active id. *)
Theorem loadBlogs_returns_a_stored_document (w : World) :
  let w' := exec loadBlogs w in
  (forall e, fst (loadBlogs w) <> Throw e) /\
  localStorage w' = localStorage w /\
  rteInstance w' = rteInstance w /\
  (BLOGS (localStorage w) = None -> loadBlogs w = (Normal None, w)) /\
  (BLOGS (localStorage w) = Some [] ->
   fst (loadBlogs w) = Normal None /\ blogs (react w') = [] /\
   currentBlogId (react w') = currentBlogId (react w)) /\
  (forall b, fst (loadBlogs w) = Normal (Some b) ->
     exists l, BLOGS (localStorage w) = Some l /\ In b l /\
               blogs (react w') = l /\
               currentBlogId (react w') = Some (Blog.id b)).
Proof.
  cbv zeta. unfold exec.
  destruct (BLOGS (localStorage w)) as [l|] eqn:Hl.
  2:{ rewrite (loadBlogs_absent w Hl). cbn.
      repeat split; try discriminate; try (intros b H; discriminate H). }
  destruct l as [|b0 l].
  { rewrite (loadBlogs_empty w Hl). cbn.
    repeat split; try discriminate; try (intros b H; discriminate H). }
  destruct (@loadBlogs_stored w b0 l Hl) as (b & Hin & Hload).
  rewrite Hload. cbn. repeat split; try discriminate.
  intros b' [= <-]. exists (b0 :: l). repeat split. exact Hin.
Qed.

Lemma loadBlogs_returns_witness :
  let w := initialWorld storedDocs 1000 in
  fst (loadBlogs w) = Normal (Some (demoBlog "1" "A" "<p>old A</p>" 10)) /\
  map Blog.id (blogs (react (exec loadBlogs w))) = [lit "1"; lit "2"] /\
  loadBlogs (initialWorld (mkStorage None None false) 1000)
    = (Normal None, initialWorld (mkStorage None None false) 1000).
Proof.
  cbv zeta.
  destruct (loadBlogs_returns_a_stored_document (initialWorld storedDocs 1000))
    as (_ & _ & _ & _ & _ & H).
  destruct (H (demoBlog "1" "A" "<p>old A</p>" 10) eq_refl)
    as (l & Hl & _ & Hb & _).
  split; [reflexivity|]. split.
  - injection Hl as <-. etransitivity; [exact (f_equal (map Blog.id) Hb)|].
    reflexivity.
  - destruct (loadBlogs_returns_a_stored_document
                (initialWorld (mkStorage None None false) 1000))
      as (_ & _ & _ & H0 & _).
    apply H0. reflexivity.
Defined.

(** X15. The cleanup of the mount effect in any session: it cancels the
    timer the ref holds, so that no timer is armed and none fires later,
    and it changes neither the state React holds, nor local storage, nor
    the editing surface. The listener is removed only when
    [editorRef.current] is still set; at an unmount, where it is already
    [null], the listener stays registered with its first-render closure. *)
Theorem cleanup_cancels_the_pending_timer
    (store : Storage) (t0 : Z) (es : list Event) (editorRefCurrent : bool) :
  let w := session es (mount store t0) in
  let u := exec (cleanup editorRefCurrent) w in
  timers u = [] /\
  (forall T, timers (advanceTo T u) = [] /\
             react (advanceTo T u) = react w /\
             localStorage (advanceTo T u) = localStorage w) /\
  react u = react w /\ localStorage u = localStorage w /\
  rteInstance u = rteInstance w /\
  listener u = (if editorRefCurrent then None else Some initialRender).
Proof.
  cbv zeta.
  assert (H0 : sessionInv (mount store t0) /\ length (timers (mount store t0)) <= 1).
  { split; [apply mount_sessionInv|]. rewrite mount_timers_empty. cbn. lia. }
  destruct (session_sessionInv es H0) as [Hs Hlen].
  set (w := session es (mount store t0)) in *.
  destruct Hs as (H1 & H2 & H3 & H4).
  assert (Hc : cancelled (autoSaveTimerRef w) (timers w) = []).
  { destruct (timers w) as [|tm l] eqn:Et.
    - unfold cancelled. destruct (autoSaveTimerRef w); [destruct (truthy_timer _)|];
        reflexivity.
    - destruct (H4 tm (or_introl eq_refl)) as (_ & Href & Hnz).
      rewrite Href. unfold cancelled, truthy_timer.
      apply N.eqb_neq in Hnz. rewrite Hnz. cbn [negb].
      apply filter_all_same_id. intros tm' Hin.
      destruct (H4 tm' Hin) as (_ & Href' & _). congruence. }
  unfold exec. rewrite cleanup_run. cbn [snd].
  rewrite Hc, H1. unfold advanceTo. cbn. repeat split.
Qed.
